(** * V2Display: text layout, glyph rasterisation and the busy/idle
      transfer pipeline of [src/V2Display.cpp], [src/V2Display.h],
      [font/Font.h] and the ST7789 adapter.

    The C++ code is embedded function by function.  Integers of a fixed
    width are [Z] with the wrap-around written where the source converts;
    arrays are lists; a read or a store outside an array, and an [int]
    result above [INT_MAX], are undefined behaviour and end the run with
    [Undefined].  Loops without a static bound run on fuel and end with
    [Blocked] when it is used up.  The bus is the environment: it answers
    [isBusy] as it likes and records what is sent.

    The target is a 32-bit ARM: [int] has 32 bits, plain [char] is
    unsigned, memory is little-endian.  [begin] (allocation of the buffer
    and set-up of the bus) is not modelled: a Display is taken as [begin]
    leaves it.  [print(float, digits)] formats with [snprintf] and calls
    [print] on the result; it is [print] of that string. *)

From Stdlib Require Import ZArith Lia Bool.
From stdpp Require Import base list.

Local Open Scope Z_scope.

(** ** Fixed-width integers *)

Definition uint8 (z : Z) : Z := z mod 256.
Definition uint16 (z : Z) : Z := z mod 65536.
Definition uint32 (z : Z) : Z := z mod 4294967296.
Definition INT_MAX : Z := 2147483647.

(** [__builtin_bswap16] *)
Definition bswap16 (v : Z) : Z :=
  Z.lor (Z.land (Z.shiftl (uint16 v) 8) 65280) (Z.shiftr (uint16 v) 8).

(** Arduino's [min] macro. *)
Definition min (a b : Z) : Z := if a <? b then a else b.

(** ** Outcomes *)

Inductive Fault :=
| StringBounds (i : Z)     (* s[i] outside the string and its terminator *)
| GlyphBounds (i : Z)      (* glyphs[i] outside the table *)
| BitmapBounds (i : Z)     (* bitmaps[i] outside the blob *)
| TextBounds (i : Z)       (* text[i] outside char text[32] *)
| BufferBounds (i : Z)     (* _buffer[i] outside the allocation *)
| DataBounds (i : Z)       (* data[i] outside a command's arguments *)
| SignedOverflow (v : Z).  (* int arithmetic result above INT_MAX *)

(** A computation without state: a value or undefined behaviour. *)
Inductive Checked (A : Type) :=
| Val (a : A)
| Bad (f : Fault).
Arguments Val {A} a.
Arguments Bad {A} f.

#[global] Instance Checked_ret : MRet Checked := @Val.
#[global] Instance Checked_bind : MBind Checked := fun A B k m =>
  match m with
  | Val a => k a
  | Bad f => Bad f
  end.

(** A run on a state [S]: every outcome carries the state it ended in. *)
Inductive Res (S A : Type) :=
| Ok (a : A) (s : S)
| Undefined (f : Fault) (s : S)
| Blocked (s : S).
Arguments Ok {S A} a s.
Arguments Undefined {S A} f s.
Arguments Blocked {S A} s.

Definition final {S A} (r : Res S A) : S :=
  match r with
  | Ok _ s => s
  | Undefined _ s => s
  | Blocked s => s
  end.

(** The first argument is the fuel given to each unbounded loop. *)
Definition Run (S A : Type) : Type := nat -> S -> Res S A.

#[global] Instance Run_ret {S} : MRet (Run S) := fun A a _ s => Ok a s.
#[global] Instance Run_bind {S} : MBind (Run S) := fun A B k m fuel s =>
  match m fuel s with
  | Ok a s' => k a fuel s'
  | Undefined f s' => Undefined f s'
  | Blocked s' => Blocked s'
  end.

Definition check {S A} (c : Checked A) : Run S A := fun _ s =>
  match c with
  | Val a => Ok a s
  | Bad f => Undefined f s
  end.

Definition get {S} : Run S S := fun _ s => Ok s s.
Definition gets {S A} (f : S -> A) : Run S A := fun _ s => Ok (f s) s.
Definition modify {S} (f : S -> S) : Run S unit := fun _ s => Ok tt (f s).

(** [iter_ n step x]: at most [n] rounds of a loop whose body returns
    [inl x'] to go round again and [inr b] to leave. *)
Fixpoint iter_ {S A B} (n : nat) (step : A -> Run S (A + B)) (x : A) : Run S B :=
  match n with
  | O => fun _ s => Blocked s
  | S n' => r ← step x;
            match r with
            | inl x' => iter_ n' step x'
            | inr b => mret b
            end
  end.

Definition iter {S A B} (step : A -> Run S (A + B)) (x : A) : Run S B :=
  fun fuel s => iter_ fuel step x fuel s.

(** [for (i = lo; i < lo + n; i++) a = body i a] for a loop whose trip
    count is known on entry. *)
Fixpoint forAcc {S A} (n : nat) (lo : Z) (body : Z -> A -> Run S A) (a : A) : Run S A :=
  match n with
  | O => mret a
  | S n' => a' ← body lo a; forAcc n' (lo + 1) body a'
  end.

Definition for_ {S} (n : Z) (body : Z -> Run S unit) : Run S unit :=
  forAcc (Z.to_nat n) 0 (fun i _ => body i) tt.

(** ** font/Font.h *)

Module Glyph.
Record t := {
  offset : Z;   (* uint16_t *)
  width : Z;    (* uint8_t *)
  height : Z;   (* uint8_t *)
  advance : Z;  (* uint8_t *)
  xStart : Z;   (* int8_t *)
  yStart : Z    (* int8_t *)
}.
End Glyph.

Record Font := {
  bitmaps : list Z;
  glyphs : list Glyph.t
}.

(** Reading [a[i]] of an array given as a list. *)
Definition index {A} (l : list A) (i : Z) (oob : Z -> Fault) : Checked A :=
  if 0 <=? i then
    match l !! Z.to_nat i with
    | Some a => Val a
    | None => Bad (oob i)
    end
  else Bad (oob i).

(** [c - 0x20] for [uint8_t c]: the subtraction is done in [int]. *)
Definition glyphIndex (c : Z) : Z := uint8 c - 32.

Definition getGlyph (f : Font) (c : Z) : Checked Glyph.t :=
  index (glyphs f) (glyphIndex c) GlyphBounds.

(** The table the header declares: one glyph for each of 0x20 .. 0x7e,
    every field within its C type. *)
Definition glyphOk (g : Glyph.t) : bool :=
  (0 <=? Glyph.offset g) && (Glyph.offset g <? 65536) &&
  (0 <=? Glyph.width g) && (Glyph.width g <? 256) &&
  (0 <=? Glyph.height g) && (Glyph.height g <? 256) &&
  (0 <=? Glyph.advance g) && (Glyph.advance g <? 256) &&
  (-128 <=? Glyph.xStart g) && (Glyph.xStart g <? 128) &&
  (-128 <=? Glyph.yStart g) && (Glyph.yStart g <? 128).

Definition fontOk (f : Font) : bool :=
  (Z.of_nat (length (glyphs f)) =? 95) && forallb glyphOk (glyphs f).

Definition printable (c : Z) : bool := (32 <=? c) && (c <=? 126).

(** ** C strings *)

(** A string argument is the list of its bytes up to the terminator; the
    terminator itself is the one readable cell after them. *)
Definition char_at (s : list Z) (i : Z) : Checked Z :=
  if (0 <=? i) && (i <? Z.of_nat (length s)) then Val (uint8 (nth (Z.to_nat i) s 0))
  else if i =? Z.of_nat (length s) then Val 0
  else Bad (StringBounds i).

Fixpoint strlen (s : list Z) : Z :=
  match s with
  | [] => 0
  | b :: s' => if uint8 b =? 0 then 0 else 1 + strlen s'
  end.

(** ** getTextWidth *)

(** [text[textLen++] = c] into [char text[32]]. *)
Definition pushText (text : list Z) (c : Z) : Checked (list Z) :=
  let textLen := Z.of_nat (length text) in
  if textLen <? 32 then Val (text ++ [c]) else Bad (TextBounds textLen).

(** The body of the [for] loop, from index [i], with [n] rounds left.
    [char] is unsigned on the target (ARM), so [c > 0x7f] can hold. *)
Fixpoint getTextWidth_from (n : nat) (s : list Z) (font : Font) (i : Z)
    (width : Z) (replaced : bool) (text : list Z) : Checked (Z * list Z) :=
  match n with
  | O => Val (width, text)
  | S n' =>
    c ← char_at s i;
    if c =? 0 then Val (width, text)
    else if c <? 20 then getTextWidth_from n' s font (i + 1) width replaced text
    else if 127 <? c then
      if replaced then getTextWidth_from n' s font (i + 1) width replaced text
      else
        let c := 35 in
        let replaced := true in
        getTextWidth_from n' s font (i + 1) width replaced text
    else
      let replaced := false in
      text' ← pushText text c;
      g ← getGlyph font c;
      getTextWidth_from n' s font (i + 1) (uint16 (width + Glyph.advance g)) replaced text'
  end.

(** Returns the width and the filtered characters; [textLen] is the
    length of the latter. *)
Definition getTextWidth (s : list Z) (len : Z) (font : Font) : Checked (Z * list Z) :=
  getTextWidth_from (Z.to_nat (uint8 len)) s font 0 0 false [].

(** ** V2Display.h: the state of a Display *)

Inductive Justify := Left | Center | Right.

Module Hardware.
Record t := { width : Z; height : Z; y_centered : bool }.
End Hardware.

Module Pixels.
Record t := { width : Z; height : Z; x_start : Z; y_start : Z }.
End Pixels.

Module Area.
Record t := {
  justify : Justify;
  x : Z;
  row : Z;
  width : Z;
  foreground : Z;
  background : Z;
  cursor : Z
}.
Definition with_cursor (c : Z) (a : t) : t :=
  {| justify := justify a; x := x a; row := row a; width := width a;
     foreground := foreground a; background := background a; cursor := c |}.
Definition with_foreground (c : Z) (a : t) : t :=
  {| justify := justify a; x := x a; row := row a; width := width a;
     foreground := c; background := background a; cursor := cursor a |}.
End Area.

(** The SPI bus and the pins, seen from the program: what [isBusy] will
    answer at each poll, the polls made so far, and what was put on the
    wire (newest first). *)
Module Bus.
Inductive Event :=
| BeginTransaction
| EndTransaction
| ChipSelect (high : bool)
| DataCommand (high : bool)
| ResetPin (high : bool)
| Transfer (b : Z)
| Delay (ms : Z).
Record t := { busy_at : nat -> bool; polls : nat; wire : list Event }.
End Bus.

(** The protected members: what a controller subclass can reach. *)
Record Panel := {
  _hardware : Hardware.t;
  _pixels : Pixels.t;
  _area : Area.t;
  _spi : Bus.t
}.

(** The private members, and [raced]: a ghost flag that no code reads,
    raised by a store to [_buffer] that executes while [_busy] is set. *)
Record Display := {
  panel : Panel;
  _busy : bool;
  _buffer : list Z;
  raced : bool
}.

Definition with_spi (b : Bus.t) (p : Panel) : Panel :=
  {| _hardware := _hardware p; _pixels := _pixels p; _area := _area p; _spi := b |}.
Definition with_pixels (x : Pixels.t) (p : Panel) : Panel :=
  {| _hardware := _hardware p; _pixels := x; _area := _area p; _spi := _spi p |}.
Definition with_area (a : Area.t) (p : Panel) : Panel :=
  {| _hardware := _hardware p; _pixels := _pixels p; _area := a; _spi := _spi p |}.
(** [_hardware] is a [const] member: whatever ran, it is what it was. *)
Definition with_panel (p : Panel) (d : Display) : Display :=
  {| panel := {| _hardware := _hardware (panel d); _pixels := _pixels p;
                 _area := _area p; _spi := _spi p |};
     _busy := _busy d; _buffer := _buffer d; raced := raced d |}.
Definition with_busy (b : bool) (d : Display) : Display :=
  {| panel := panel d; _busy := b; _buffer := _buffer d; raced := raced d |}.

(** A member function of the protected part, run inside a Display. *)
Definition onPanel {A} (m : Run Panel A) : Run Display A := fun fuel d =>
  match m fuel (panel d) with
  | Ok a p => Ok a (with_panel p d)
  | Undefined f p => Undefined f (with_panel p d)
  | Blocked p => Blocked (with_panel p d)
  end.

Definition row_size : Z := 60.
Definition baseline : Z := Z.quot (row_size * 3) 4.

(** ** The bus primitives *)

Definition isBusy : Run Panel bool := fun _ p =>
  let b := _spi p in
  Ok (Bus.busy_at b (Bus.polls b))
     (with_spi {| Bus.busy_at := Bus.busy_at b; Bus.polls := Datatypes.S (Bus.polls b);
                  Bus.wire := Bus.wire b |} p).

Definition emit (e : Bus.Event) : Run Panel unit :=
  modify (fun p =>
    let b := _spi p in
    with_spi {| Bus.busy_at := Bus.busy_at b; Bus.polls := Bus.polls b;
                Bus.wire := e :: Bus.wire b |} p).

Definition yield {S} : Run S unit := mret tt.

(** [while (_spi->isBusy()) yield();] *)
Definition spiWait : Run Panel unit :=
  iter (fun _ : unit => b ← isBusy;
                        if b : bool then yield;; mret (inl tt) else mret (inr tt)) tt.

Definition finishWrite : Run Panel unit :=
  spiWait;;
  emit Bus.EndTransaction;;
  emit (Bus.ChipSelect true).

Definition writeCommand (command : Z) (data : list Z) (len : Z) : Run Panel unit :=
  spiWait;;
  emit (Bus.DataCommand false);;
  emit (Bus.Transfer (uint8 command));;
  emit (Bus.DataCommand true);;
  for_ (uint8 len) (fun i => b ← check (index data i DataBounds); emit (Bus.Transfer (uint8 b))).

(** The three hooks a controller provides. *)
Class Controller := {
  writeReset : Run Panel unit;
  writeSetOrientation : Z -> Run Panel unit;
  writeSetWindow : Z -> Z -> Z -> Z -> Run Panel unit
}.

(** The three fonts of font/Font.h; their tables are not in this
    repository's sources and stay parameters. *)
Class Fonts := {
  fontDefault : Font;
  fontCondensed : Font;
  fontCondensedSmall : Font
}.

(** ** V2Display.cpp *)

Section Display.
Context {ctl : Controller} {fonts : Fonts}.

Definition setBusy (b : bool) : Run Display unit := modify (with_busy b).

Definition loop : Run Display unit :=
  d ← get;
  if negb (_busy d) then mret tt
  else
    b ← onPanel isBusy;
    if b : bool then mret tt
    else onPanel finishWrite;; setBusy false.

(** [while (_busy) { yield(); loop(); }] *)
Definition waitIdle : Run Display unit :=
  iter (fun _ : unit => d ← get;
                        if _busy d then yield;; loop;; mret (inl tt) else mret (inr tt)) tt.

Definition prepareWrite : Run Display unit :=
  waitIdle;;
  onPanel (emit Bus.BeginTransaction);;
  onPanel (emit (Bus.ChipSelect false)).

(** [_buffer[i] = v] *)
Definition store (i v : Z) : Run Display unit := fun _ d =>
  if (0 <=? i) && (i <? Z.of_nat (length (_buffer d))) then
    Ok tt {| panel := panel d; _busy := _busy d;
             _buffer := <[Z.to_nat i := v]> (_buffer d);
             raced := raced d || _busy d |}
  else Undefined (BufferBounds i) d.

(** [((uint8_t * )buffer)[i]]: the target is little-endian. *)
Definition bufferByte (buffer : list Z) (i : Z) : Checked Z :=
  w ← index buffer (Z.quot i 2) BufferBounds;
  Val (if Z.rem i 2 =? 0 then Z.land w 255 else Z.shiftr w 8).

Definition write (len : Z) : Run Display unit :=
  onPanel spiWait;;
  for_ (uint16 len) (fun i =>
    d ← get;
    b ← check (bufferByte (_buffer d) i);
    onPanel (emit (Bus.Transfer b))).

(** The first loop of writeFillRectangle: [uint16_t i] against the
    32-bit [len]. *)
Definition fillPattern (len color : Z) : Run Display unit :=
  iter (fun i => if i <? len
                 then store i (bswap16 color);; mret (inl (uint16 (i + 1)))
                 else mret (inr tt)) 0.

(** Its second loop. *)
Definition writeBursts (n_pixels len : Z) : Run Display unit :=
  iter (fun n_pixels => if 0 <? n_pixels
                        then let count := uint16 (min n_pixels len) in
                             write (uint32 (count * 2));;
                             mret (inl (uint32 (n_pixels - count)))
                        else mret (inr tt)) n_pixels.

Definition writeFillRectangle (x y width height color : Z) : Run Display unit :=
  let x := uint16 x in
  let y := uint16 y in
  let width := uint16 width in
  let height := uint16 height in
  let color := uint16 color in
  onPanel (writeSetWindow x y width height);;
  d ← get;
  if INT_MAX <? width * height then check (Bad (SignedOverflow (width * height)))
  else
    let n_pixels := uint32 (width * height) in
    let len := min n_pixels (Hardware.width (_hardware (panel d)) * row_size) in
    fillPattern len color;;
    writeBursts n_pixels len.

Definition fillRectangle (x y width height color : Z) : Run Display unit :=
  waitIdle;;
  prepareWrite;;
  writeFillRectangle x y width height color;;
  setBusy true.

Definition fillScreen (color : Z) : Run Display unit :=
  d ← get;
  fillRectangle 0 0 (Pixels.width (_pixels (panel d))) (Pixels.height (_pixels (panel d))) color.

Definition reset (orientation color : Z) : Run Display unit :=
  onPanel (emit (Bus.ChipSelect false));;
  onPanel (emit (Bus.DataCommand true));;
  onPanel (emit (Bus.ResetPin false));;
  onPanel (emit (Bus.Delay 1));;
  onPanel (emit (Bus.ResetPin true));;
  onPanel (emit (Bus.Delay 5));;
  setBusy false;;
  prepareWrite;;
  onPanel writeReset;;
  onPanel (writeSetOrientation (uint16 orientation));;
  d ← get;
  writeFillRectangle 0 0 (Pixels.width (_pixels (panel d))) (Pixels.height (_pixels (panel d))) color;;
  onPanel finishWrite.

Definition setArea (x row width : Z) (justify : Justify) (foreground background : Z)
  : Run Display unit :=
  modify (fun d => with_panel (with_area
    {| Area.justify := justify; Area.x := uint16 x; Area.row := uint8 row;
       Area.width := uint16 width; Area.foreground := uint16 foreground;
       Area.background := uint16 background; Area.cursor := 0 |} (panel d)) d).

Definition setColor (color : Z) : Run Display unit :=
  modify (fun d => with_panel (with_area (Area.with_foreground (uint16 color) (_area (panel d)))
                                         (panel d)) d).

(** [_area.cursor = c] *)
Definition placeCursor (c : Z) (d : Display) : Display :=
  with_panel (with_area (Area.with_cursor c (_area (panel d))) (panel d)) d.

Definition setCursor (c : Z) : Run Display unit := modify (placeCursor c).

(** Initialize offscreen buffer with background color. *)
Definition initializeBuffer : Run Display unit :=
  d ← get;
  let a := _area (panel d) in
  for_ row_size (fun y =>
    for_ (Area.width a) (fun x =>
      store (y * Area.width a + x) (bswap16 (Area.background a)))).

(** Offload the writing of the buffer. *)
Definition flushBuffer : Run Display unit :=
  prepareWrite;;
  d ← get;
  let a := _area (panel d) in
  onPanel (writeSetWindow (Area.x a) (uint16 (Area.row a * row_size)) (Area.width a) row_size);;
  write (uint32 (Area.width a * row_size * 2));;
  setBusy true.

(** One pixel of renderChar's inner loop; the loop carries
    [(o, map, bit)]. *)
Definition renderPixel (font : Font) (glyph : Glyph.t) (width x y color iy ix : Z)
    (st : Z * Z * Z) : Run Display (Z * Z * Z) :=
  let '(o, map, bit) := st in
  '(o, map) ← (if Z.land bit 7 =? 0
               then m ← check (index (bitmaps font) o BitmapBounds);
                    mret (uint16 (o + 1), uint8 m)
               else mret (o, map));
  let bit := uint8 (bit + 1) in
  (if negb (Z.land map 128 =? 0)
   then let bx := uint16 (x + Glyph.xStart glyph + ix) in
        let by_ := uint16 (y + Glyph.yStart glyph + iy) in
        store (width * by_ + bx) (bswap16 color)
   else mret tt);;
  mret (o, uint8 (Z.shiftl map 1), bit).

(** [buffer] is always [_buffer]; [width] and [c] are [uint8_t]
    parameters. *)
Definition renderChar (font : Font) (width x y c color : Z) : Run Display Z :=
  let width := uint8 width in
  glyph ← check (getGlyph font c);
  forAcc (Z.to_nat (Glyph.height glyph)) 0 (fun iy st =>
    forAcc (Z.to_nat (Glyph.width glyph)) 0 (fun ix st =>
      renderPixel font glyph width x y color iy ix st) st)
    (Glyph.offset glyph, 0, 0);;
  mret (Glyph.advance glyph).

Definition drawChar (c : Z) : Run Display unit :=
  waitIdle;;
  d ← get;
  (if Area.cursor (_area (panel d)) =? 0 then initializeBuffer else mret tt);;
  d ← get;
  let a := _area (panel d) in
  adv ← renderChar fontDefault (Area.width a) (Area.cursor a) baseline c (Area.foreground a);
  setCursor (uint16 (Area.cursor a + adv)).

(** [while (s[len - 1] == ' ') len--;] with [uint8_t len]. *)
Definition stripNext (c len : Z) : Z + Z :=
  if c =? 32 then inl (uint8 (len - 1)) else inr len.

Definition stripTrailing (s : list Z) (len : Z) : Run Display Z :=
  iter (fun len => c ← check (char_at s (len - 1)); mret (stripNext c len)) len.

(** Lines 253-269 of print: the measurements, in the order they are
    made.  [tried] is a ghost record of the fonts measured. *)
Inductive FontId := Default | Condensed | CondensedSmall.

Definition fontOf (id : FontId) : Font :=
  match id with
  | Default => fontDefault
  | Condensed => fontCondensed
  | CondensedSmall => fontCondensedSmall
  end.

Record Layout := {
  font : FontId;
  text : list Z;
  textWidth : Z;
  tried : list FontId
}.

Definition selectFont (s : list Z) (len areaWidth : Z) : Checked Layout :=
  '(w, t) ← getTextWidth s len fontDefault;
  let l := {| font := Default; text := t; textWidth := w; tried := [Default] |} in
  l ← (if areaWidth <? textWidth l
       then '(w, t) ← getTextWidth s len fontCondensed;
            Val {| font := Condensed; text := t; textWidth := w;
                   tried := tried l ++ [Condensed] |}
       else Val l);
  if areaWidth <? textWidth l
  then '(w, t) ← getTextWidth s len fontCondensedSmall;
       Val {| font := CondensedSmall; text := t; textWidth := w;
              tried := tried l ++ [CondensedSmall] |}
  else Val l.

(** Lines 271-286: the clamp and the [switch]. *)
Definition clampWidth (areaWidth textWidth : Z) : Z :=
  if areaWidth <? textWidth then areaWidth else textWidth.

Definition justifyCursor (j : Justify) (areaWidth textWidth : Z) : Z :=
  match j with
  | Left => 0
  | Center => uint16 (Z.quot (areaWidth - textWidth) 2)
  | Right => uint16 (areaWidth - textWidth)
  end.

Definition startCursor (j : Justify) (areaWidth measured : Z) : Z :=
  justifyCursor j areaWidth (clampWidth areaWidth measured).

(** Lines 290-298: the render loop over the characters of [text]. *)
Fixpoint renderText (font : Font) (text : list Z) : Run Display unit :=
  match text with
  | [] => mret tt
  | c :: rest =>
    g ← check (getGlyph font c);
    let advance := Glyph.advance g in
    d ← get;
    let a := _area (panel d) in
    if Area.width a <? Area.cursor a + advance then mret tt
    else
      renderChar font (Area.width a) (Area.cursor a) baseline c (Area.foreground a);;
      setCursor (uint16 (Area.cursor a + advance));;
      renderText font rest
  end.

(** print, from line 288 on. *)
Definition paint (l : Layout) : Run Display unit :=
  initializeBuffer;;
  renderText (fontOf (font l)) (text l);;
  setCursor 0;;
  flushBuffer.

(** print, from the justification on. *)
Definition printLayout (l : Layout) : Run Display unit :=
  d ← get;
  let a := _area (panel d) in
  setCursor (startCursor (Area.justify a) (Area.width a) (textWidth l));;
  paint l.

(** [print(const char s[] = NULL)]: [None] is the null pointer. *)
Definition print (s : option (list Z)) : Run Display unit :=
  waitIdle;;
  match s with
  | None =>
    d ← get;
    (if Area.cursor (_area (panel d)) =? 0 then initializeBuffer else mret tt);;
    flushBuffer
  | Some s =>
    let len := uint8 (strlen s) in
    if len =? 0 then mret tt
    else
      let len := if 32 <? len then 32 else len in
      len ← stripTrailing s len;
      d ← get;
      l ← check (selectFont s len (Area.width (_area (panel d))));
      printLayout l
  end.

End Display.

(** ** V2ST7789.cpp: the ST7789 adapter *)

Module ST7789.

Definition CMD_SWRESET : Z := 1.
Definition CMD_SLPIN : Z := 16.
Definition CMD_SLPOUT : Z := 17.
Definition CMD_NORON : Z := 19.
Definition CMD_INVON : Z := 33.
Definition CMD_DISPOFF : Z := 40.
Definition CMD_DISPON : Z := 41.
Definition CMD_CASET : Z := 42.
Definition CMD_RASET : Z := 43.
Definition CMD_RAMWR : Z := 44.
Definition CMD_MADCTL : Z := 54.
Definition CMD_COLMOD : Z := 58.
Definition CMD_MADCTL_MY : Z := 128.
Definition CMD_MADCTL_MX : Z := 64.
Definition CMD_MADCTL_MV : Z := 32.
Definition CMD_MADCTL_RGB : Z := 0.

Definition writeSetWindow (x y width height : Z) : Run Panel unit :=
  p ← get;
  let x_start := uint16 (x + Pixels.x_start (_pixels p)) in
  let x_end := uint16 (x_start + width - 1) in
  writeCommand CMD_CASET
    [uint8 (Z.shiftr x_start 8); Z.land x_start 255;
     uint8 (Z.shiftr x_end 8); Z.land x_end 255] 4;;
  let y_start := uint16 (y + Pixels.y_start (_pixels p)) in
  let y_end := uint16 (y_start + height - 1) in
  writeCommand CMD_RASET
    [uint8 (Z.shiftr y_start 8); Z.land y_start 255;
     uint8 (Z.shiftr y_end 8); Z.land y_end 255] 4;;
  writeCommand CMD_RAMWR [] 0.

Definition setPixels (width height x_start y_start : Z) : Run Panel unit :=
  modify (with_pixels {| Pixels.width := width; Pixels.height := height;
                         Pixels.x_start := uint16 x_start;
                         Pixels.y_start := uint16 y_start |}).

Definition writeSetOrientation (angle : Z) : Run Panel unit :=
  p ← get;
  let hw := _hardware p in
  let w := Hardware.width hw in
  let h := Hardware.height hw in
  let centered := Hardware.y_centered hw in
  command ←
    (if angle =? 0 then
       setPixels w h (Z.quot (240 - w) 2) (if centered then Z.quot (320 - h) 2 else 0);;
       mret CMD_MADCTL_RGB
     else if angle =? 90 then
       setPixels h w (if centered then Z.quot (320 - h) 2 else 0) (Z.quot (240 - w + 1) 2);;
       mret (Z.lor (Z.lor CMD_MADCTL_MX CMD_MADCTL_MV) CMD_MADCTL_RGB)
     else if angle =? 180 then
       setPixels w h (Z.quot (240 - w + 1) 2)
                 (if centered then Z.quot (320 - h) 2 else 320 - h);;
       mret (Z.lor (Z.lor CMD_MADCTL_MX CMD_MADCTL_MY) CMD_MADCTL_RGB)
     else if angle =? 270 then
       setPixels h w (if centered then Z.quot (320 - h) 2 else 320 - h)
                 (Z.quot (240 - w) 2);;
       mret (Z.lor (Z.lor CMD_MADCTL_MY CMD_MADCTL_MV) CMD_MADCTL_RGB)
     else mret 0);
  writeCommand CMD_MADCTL [command] 1.

(** [(cmd, nArgs, args, delay)] *)
Definition commands : list (Z * Z * list Z * Z) :=
  [ (CMD_SWRESET, 0, [0], 5);
    (CMD_SLPOUT, 0, [0], 0);
    (CMD_COLMOD, 1, [85], 0);
    (CMD_MADCTL, 1, [8], 0);
    (CMD_INVON, 0, [0], 0);
    (CMD_NORON, 0, [0], 0);
    (CMD_DISPON, 0, [0], 0) ].

Fixpoint writeCommands (l : list (Z * Z * list Z * Z)) : Run Panel unit :=
  match l with
  | [] => mret tt
  | (cmd, nArgs, args, delay) :: l' =>
    writeCommand cmd args nArgs;;
    emit (Bus.Delay delay);;
    writeCommands l'
  end.

Definition writeReset : Run Panel unit := writeCommands commands.

Definition controller : Controller :=
  Build_Controller writeReset writeSetOrientation writeSetWindow.

Definition enable (on : bool) : Run Display unit :=
  prepareWrite;;
  onPanel (writeCommand (if on then CMD_DISPON else CMD_DISPOFF) [] 0);;
  onPanel finishWrite.

Definition sleep (on : bool) : Run Display unit :=
  prepareWrite;;
  onPanel (writeCommand (if on then CMD_SLPIN else CMD_SLPOUT) [] 0);;
  onPanel finishWrite.

End ST7789.

(** ** Definitions used to state the properties *)

(** The advance of the glyph of [c], 0 where the table has none. *)
Definition glyphAdvance (f : Font) (c : Z) : Z :=
  match getGlyph f c with
  | Val g => Glyph.advance g
  | Bad _ => 0
  end.

Definition sumAdvance (f : Font) (s : list Z) : Z :=
  foldr (fun c acc => glyphAdvance f c + acc) 0 s.

(** Every glyph of [text] rendered at the cursor, one after the other,
    with no test against the area width. *)
Fixpoint drawAll (f : Font) (text : list Z) : Run Display unit :=
  match text with
  | [] => mret tt
  | c :: rest =>
    d ← get;
    let a := _area (panel d) in
    adv ← renderChar f (Area.width a) (Area.cursor a) baseline c (Area.foreground a);
    setCursor (uint16 (Area.cursor a + adv));;
    drawAll f rest
  end.

(** The public calls of a Display; the last two are those the ST7789
    class adds. *)
Inductive Call :=
| CallReset (orientation color : Z)
| CallLoop
| CallFillRectangle (x y width height color : Z)
| CallFillScreen (color : Z)
| CallSetArea (x row width : Z) (justify : Justify) (foreground background : Z)
| CallSetColor (color : Z)
| CallDrawChar (c : Z)
| CallPrint (s : option (list Z))
| CallEnable (on : bool)
| CallSleep (on : bool).

Section Calls.
Context {ctl : Controller} {fonts : Fonts}.

Definition call (c : Call) : Run Display unit :=
  match c with
  | CallReset o col => reset o col
  | CallLoop => loop
  | CallFillRectangle x y w h col => fillRectangle x y w h col
  | CallFillScreen col => fillScreen col
  | CallSetArea x r w j fg bg => setArea x r w j fg bg
  | CallSetColor col => setColor col
  | CallDrawChar c => drawChar c
  | CallPrint s => print s
  | CallEnable on => ST7789.enable on
  | CallSleep on => ST7789.sleep on
  end.

(** One step: a call made in [d] with some fuel, and the state it ends
    in, whether it returned, blocked or went wrong. *)
Inductive step : Display -> Display -> Prop :=
| step_call c fuel d : step d (final (call c fuel d)).

Inductive reachable (d0 : Display) : Display -> Prop :=
| reach_start : reachable d0 d0
| reach_step d d' : reachable d0 d -> step d d' -> reachable d0 d'.

End Calls.

(** What holds of an outcome: [Q] of a returned value and its state,
    [R] of the state a run blocked or went wrong in. *)
Definition post {S A} (Q : A -> S -> Prop) (R : S -> Prop) (r : Res S A) : Prop :=
  match r with
  | Ok a s => Q a s
  | Undefined _ s => R s
  | Blocked s => R s
  end.

(** From a state with [P], with any fuel. *)
Definition triple {S A} (P : S -> Prop) (m : Run S A) (Q : A -> S -> Prop) (R : S -> Prop)
  : Prop :=
  forall fuel s, P s -> post Q R (m fuel s).

(** No store has raced a transfer; and the same with no transfer
    pending. *)
Definition safe (d : Display) : Prop := raced d = false.
Definition idle (d : Display) : Prop := raced d = false /\ _busy d = false.

(** [m] keeps [P]: from a state with [P] every outcome has [P]. *)
Definition keeps {S A} (P : S -> Prop) (m : Run S A) : Prop :=
  triple P m (fun _ => P) P.

(** [P] does not depend on the protected members a controller can
    change; [P] survives a store to the buffer. *)
Definition panelFree (P : Display -> Prop) : Prop :=
  forall p d, P d -> P (with_panel p d).
Definition storeFree (P : Display -> Prop) : Prop :=
  forall i v d, P d ->
    P {| panel := panel d; _busy := _busy d;
         _buffer := <[Z.to_nat i := v]> (_buffer d);
         raced := raced d || _busy d |}.

(** The number of cells writeFillRectangle fills. *)
Definition fillLen (d : Display) (width height : Z) : Z :=
  min (uint32 (uint16 width * uint16 height))
      (Hardware.width (_hardware (panel d)) * row_size).

(** The cells [0 .. n) of a buffer all hold [v]. *)
Definition filled (n v : Z) (buffer : list Z) : Prop :=
  forall i, 0 <= i < n -> buffer !! Z.to_nat i = Some v.

(** ** A miniature font set and panel to run the model on *)

Definition demoGlyph (advance k : Z) : Glyph.t :=
  if k =? 0
  then {| Glyph.offset := 0; Glyph.width := 0; Glyph.height := 0;
          Glyph.advance := advance; Glyph.xStart := 0; Glyph.yStart := 0 |}
  else {| Glyph.offset := k; Glyph.width := 2; Glyph.height := 2;
          Glyph.advance := advance; Glyph.xStart := 0; Glyph.yStart := -2 |}.

Definition demoFont (advance : Z) : Font :=
  {| bitmaps := map (fun k => Z.of_nat k mod 15 * 16 + 16) (seq 0 95);
     glyphs := map (fun k => demoGlyph advance (Z.of_nat k)) (seq 0 95) |}.

Definition demoFonts : Fonts :=
  {| fontDefault := demoFont 6; fontCondensed := demoFont 4; fontCondensedSmall := demoFont 3 |}.

Definition demoPanel (areaWidth : Z) (j : Justify) : Panel :=
  {| _hardware := {| Hardware.width := 24; Hardware.height := 60; Hardware.y_centered := false |};
     _pixels := {| Pixels.width := 24; Pixels.height := 60; Pixels.x_start := 108;
                   Pixels.y_start := 0 |};
     _area := {| Area.justify := j; Area.x := 0; Area.row := 0; Area.width := areaWidth;
                 Area.foreground := 65535; Area.background := 31; Area.cursor := 0 |};
     _spi := {| Bus.busy_at := fun _ => false; Bus.polls := 0; Bus.wire := [] |} |}.

Definition demoDisplay (areaWidth : Z) (j : Justify) : Display :=
  {| panel := demoPanel areaWidth j; _busy := false;
     _buffer := replicate 1440 0; raced := false |}.

(** "abc", "abcd" and three spaces *)
Definition abc : list Z := [97; 98; 99].
Definition abcd : list Z := [97; 98; 99; 100].
Definition spaces3 : list Z := [32; 32; 32].

(** Predicates on a Display that the proofs carry through a run. *)
Definition hardwareIs (hw : Hardware.t) (d : Display) : Prop := _hardware (panel d) = hw.

(** The text area, apart from the cursor. *)
Definition areaIs (width foreground cursor : Z) (d : Display) : Prop :=
  Area.width (_area (panel d)) = width
  /\ Area.foreground (_area (panel d)) = foreground
  /\ Area.cursor (_area (panel d)) = cursor.

Definition busyFree (P : Display -> Prop) : Prop :=
  forall b d, P d -> P (with_busy b d).

Definition bufferIs (b : list Z) (d : Display) : Prop := _buffer d = b.

(** What a wait leaves of the text area: the bus is all it touches. *)
Definition areaOf (a : Area.t) (d : Display) : Prop := _area (panel d) = a.

Definition notBusy (d : Display) : Prop := _busy d = false.

(** With [N] units of fuel or more, from a state with [P], [m] returns,
    and [Q] holds of what it returns. *)
Definition returns {S A} (N : nat) (P : S -> Prop) (m : Run S A) (Q : A -> S -> Prop)
  : Prop :=
  forall fuel s, (N <= fuel)%nat -> P s -> exists a s', m fuel s = Ok a s' /\ Q a s'.

(** A bus that never reports busy. *)
Definition quietBus (p : Panel) : Prop := forall k, Bus.busy_at (_spi p) k = false.

Definition quiet (d : Display) : Prop := quietBus (panel d).

(** The state writeFillRectangle needs: a quiet bus, and the buffer
    that begin allocated, [_hardware.width * row_size] cells. *)
Definition ready (hw : Hardware.t) (d : Display) : Prop :=
  quiet d /\ hardwareIs hw d
  /\ Z.of_nat (length (_buffer d)) = Hardware.width hw * row_size.

(** ** Definitions used to state further properties *)

(** A byte getTextWidth can be given without harm: a control byte below
    20 (skipped), a character of the font, or a byte above 0x7f
    (dropped). *)
Definition harmless (b : Z) : Prop := 1 <= b <= 19 \/ 32 <= b <= 126 \/ 128 <= b <= 255.

Section PrintBody.
Context {ctl : Controller} {fonts : Fonts}.

(** What print does once the wait is over, for a string whose length
    is [len] after the cut at 32. *)
Definition printBody (s : list Z) (len : Z) : Run Display unit :=
  len ← stripTrailing s len;
  d ← get;
  l ← check (selectFont s len (Area.width (_area (panel d))));
  printLayout l.

End PrintBody.

(** A Display whose buffer holds [v] in the cells before [k] and is the
    buffer [b0] from there on, with the protected members [p] and the
    busy flag [busy]. *)
Definition cleared (p : Panel) (busy : bool) (b0 : list Z) (v k : Z) (d : Display) : Prop :=
  panel d = p /\ _busy d = busy
  /\ _buffer d = replicate (Z.to_nat k) v ++ drop (Z.to_nat k) b0.

Definition glyphBit (font : Font) (g : Glyph.t) (k : Z) : bool :=
  match bitmaps font !! Z.to_nat (uint16 (Glyph.offset g + k / 8)) with
  | Some m => Z.testbit m (7 - k mod 8)
  | None => false
  end.

Definition glyphPixel (font : Font) (g : Glyph.t) (ix iy : Z) : bool :=
  glyphBit font g (iy * Glyph.width g + ix).

Definition glyphCell (g : Glyph.t) (width x y ix iy : Z) : Z :=
  uint8 width * uint16 (y + Glyph.yStart g + iy) + uint16 (x + Glyph.xStart g + ix).

(** The loop variables of renderChar before the pixel number [k]. *)
Definition walked (font : Font) (g : Glyph.t) (k : Z) (st : Z * Z * Z) : Prop :=
  let '(o, map, bit) := st in
  o = uint16 (Glyph.offset g + (k + 7) / 8)
  /\ bit = uint8 k
  /\ (k mod 8 <> 0 ->
      exists m, bitmaps font !! Z.to_nat (uint16 (Glyph.offset g + k / 8)) = Some m
                /\ map = uint8 (m * 2 ^ (k mod 8))).

(** The buffer [b] is [b0] with the set pixels among the first [k] of
    the glyph stored. *)
Definition rendered (font : Font) (g : Glyph.t) (width x y color : Z) (b0 : list Z) (k : Z)
    (b : list Z) : Prop :=
  length b = length b0
  /\ (forall ix iy, 0 <= ix < Glyph.width g -> 0 <= iy < Glyph.height g ->
        iy * Glyph.width g + ix < k -> glyphPixel font g ix iy = true ->
        b !! Z.to_nat (glyphCell g width x y ix iy) = Some (bswap16 color))
  /\ (forall j, (forall ix iy, 0 <= ix < Glyph.width g -> 0 <= iy < Glyph.height g ->
                   iy * Glyph.width g + ix < k -> glyphPixel font g ix iy = true ->
                   Z.to_nat (glyphCell g width x y ix iy) <> j) ->
        b !! j = b0 !! j).

Definition rendering (font : Font) (g : Glyph.t) (width x y color : Z) (p : Panel)
    (busy : bool) (b0 : list Z) (k : Z) (st : Z * Z * Z) (d : Display) : Prop :=
  walked font g k st /\ panel d = p /\ _busy d = busy
  /\ rendered font g width x y color b0 k (_buffer d).

(** The Panel after [n] more polls of the bus, and after the events
    [es], oldest first, were put on the wire. *)
Definition polled (n : nat) (p : Panel) : Panel :=
  with_spi {| Bus.busy_at := Bus.busy_at (_spi p); Bus.polls := (n + Bus.polls (_spi p))%nat;
              Bus.wire := Bus.wire (_spi p) |} p.

Definition sent (es : list Bus.Event) (p : Panel) : Panel :=
  with_spi {| Bus.busy_at := Bus.busy_at (_spi p); Bus.polls := Bus.polls (_spi p);
              Bus.wire := rev es ++ Bus.wire (_spi p) |} p.

(** A command byte and its arguments, as writeCommand sends them. *)
Definition commandEvents (command : Z) (args : list Z) : list Bus.Event :=
  [Bus.DataCommand false; Bus.Transfer (uint8 command); Bus.DataCommand true]
  ++ map (fun b => Bus.Transfer (uint8 b)) args.

(** The bytes of 16-bit cells in the order write sends them: the low
    byte of a cell and then its high byte. *)
Definition cellEvents (cells : list Z) : list Bus.Event :=
  flat_map (fun w => [Bus.Transfer (Z.land w 255); Bus.Transfer (Z.shiftr w 8)]) cells.

(** A 16-bit value on the wire, high byte first. *)
Definition be16 (v : Z) : list Bus.Event :=
  [Bus.Transfer (v / 256); Bus.Transfer (v mod 256)].

(** [n] pixels of one colour on the wire. *)
Definition pixelEvents (n : nat) (color : Z) : list Bus.Event :=
  concat (replicate n (be16 (uint16 color))).

(** The window commands of the ST7789: the column range, the row range
    and the start of the memory write. *)
Definition windowEvents (xs xe ys ye : Z) : list Bus.Event :=
  [Bus.DataCommand false; Bus.Transfer 42; Bus.DataCommand true] ++ be16 xs ++ be16 xe
  ++ [Bus.DataCommand false; Bus.Transfer 43; Bus.DataCommand true] ++ be16 ys ++ be16 ye
  ++ [Bus.DataCommand false; Bus.Transfer 44; Bus.DataCommand true].

(** The same for a Display. *)
Definition onWire (k : nat) (es : list Bus.Event) (d : Display) : Display :=
  with_panel (sent es (polled k (panel d))) d.

(** What reset does to the pins before the first transaction: chip
    select low, data/command high, and the reset line low for 1 ms, then
    high for 5 ms. *)
Definition resetPinEvents : list Bus.Event :=
  [Bus.ChipSelect false; Bus.DataCommand true; Bus.ResetPin false; Bus.Delay 1;
   Bus.ResetPin true; Bus.Delay 5].

(** The initialisation the ST7789 adapter sends: SWRESET and 5 ms,
    SLPOUT, COLMOD 0x55 (16 bit per pixel), MADCTL 0x08, INVON, NORON,
    DISPON. *)
Definition initEvents : list Bus.Event :=
  commandEvents 1 [] ++ [Bus.Delay 5]
  ++ commandEvents 17 [] ++ [Bus.Delay 0]
  ++ commandEvents 58 [85] ++ [Bus.Delay 0]
  ++ commandEvents 54 [8] ++ [Bus.Delay 0]
  ++ commandEvents 33 [] ++ [Bus.Delay 0]
  ++ commandEvents 19 [] ++ [Bus.Delay 0]
  ++ commandEvents 41 [] ++ [Bus.Delay 0].

(** A Display with a transfer pending on a bus that is busy for its
    first three polls. *)
Definition demoPending : Display :=
  {| panel := with_spi {| Bus.busy_at := fun k => Nat.ltb k 3; Bus.polls := 0; Bus.wire := [] |}
                (demoPanel 20 Left);
     _busy := true; _buffer := replicate 1440 0; raced := false |}.

(** A panel of 1100 columns with its buffer. *)
Definition widePanel : Display :=
  {| panel := {| _hardware := {| Hardware.width := 1100; Hardware.height := 60;
                                 Hardware.y_centered := false |};
                 _pixels := {| Pixels.width := 1100; Pixels.height := 60;
                               Pixels.x_start := 0; Pixels.y_start := 0 |};
                 _area := {| Area.justify := Left; Area.x := 0; Area.row := 0;
                             Area.width := 0; Area.foreground := 65535;
                             Area.background := 0; Area.cursor := 0 |};
                 _spi := {| Bus.busy_at := fun _ => false; Bus.polls := 0; Bus.wire := [] |} |};
     _busy := false; _buffer := replicate (Z.to_nat 66000) 0; raced := false |}.

(** The protected members of [d] but for the cursor, no transfer
    pending, and a buffer as long as that of [d]. *)
Definition rowState (d s : Display) : Prop :=
  (exists c, panel s = panel (placeCursor c d))
  /\ _busy s = false /\ length (_buffer s) = length (_buffer d).

(** * Properties *)

(** ** Fixed-width arithmetic *)

Lemma uint8_small z : 0 <= z < 256 -> uint8 z = z.
Proof. intros Hz. unfold uint8. apply Z.mod_small. lia. Qed.

Lemma uint16_small z : 0 <= z < 65536 -> uint16 z = z.
Proof. intros Hz. unfold uint16. apply Z.mod_small. lia. Qed.

Lemma uint8_range z : 0 <= uint8 z < 256.
Proof. unfold uint8. apply Z.mod_pos_bound. lia. Qed.

Lemma uint16_range z : 0 <= uint16 z < 65536.
Proof. unfold uint16. apply Z.mod_pos_bound. lia. Qed.

(** ** Glyph lookup *)

Lemma index_Val {A} (l : list A) i oob a :
  index l i oob = Val a <-> 0 <= i /\ l !! Z.to_nat i = Some a.
Proof.
  unfold index. destruct (Z.leb_spec 0 i) as [Hi|Hi].
  - destruct (l !! Z.to_nat i) eqn:E; split; intros Hx.
    + inversion Hx. subst. auto.
    + destruct Hx as [_ Hx]. congruence.
    + discriminate.
    + destruct Hx as [_ Hx]. discriminate.
  - split; [discriminate | lia].
Qed.

Lemma index_negative {A} (l : list A) i oob : i < 0 -> index l i oob = Bad (oob i).
Proof. intros Hi. unfold index. destruct (Z.leb_spec 0 i); [lia | reflexivity]. Qed.

Lemma printable_range c : printable c = true <-> 32 <= c <= 126.
Proof. unfold printable. rewrite andb_true_iff, !Z.leb_le. tauto. Qed.

Lemma glyphOk_advance g : glyphOk g = true -> 0 <= Glyph.advance g < 256.
Proof.
  unfold glyphOk. rewrite !andb_true_iff, !Z.leb_le, !Z.ltb_lt. tauto.
Qed.

Lemma fontOk_glyph f c :
  fontOk f = true -> printable c = true ->
  exists g, getGlyph f c = Val g /\ glyphOk g = true.
Proof.
  intros Hf Hc. apply printable_range in Hc.
  unfold fontOk in Hf. apply andb_true_iff in Hf as [Hlen Hall].
  apply Z.eqb_eq in Hlen.
  unfold getGlyph, glyphIndex. rewrite uint8_small by lia.
  destruct (glyphs f !! Z.to_nat (c - 32)) as [g|] eqn:E.
  - exists g. split.
    + apply index_Val. split; [lia | exact E].
    + rewrite forallb_forall in Hall. apply Hall.
      apply list_elem_of_In, list_elem_of_lookup. eauto.
  - apply lookup_ge_None in E. lia.
Qed.

Lemma glyphAdvance_range f c :
  fontOk f = true -> printable c = true -> 0 <= glyphAdvance f c < 256.
Proof.
  intros Hf Hc. destruct (fontOk_glyph f c Hf Hc) as (g & Hg & Hok).
  unfold glyphAdvance. rewrite Hg. now apply glyphOk_advance.
Qed.

Lemma sumAdvance_app f s t : sumAdvance f (s ++ t) = sumAdvance f s + sumAdvance f t.
Proof. induction s as [|c s IH]; simpl; [reflexivity | rewrite IH; lia]. Qed.

Lemma sumAdvance_range f s :
  fontOk f = true -> forallb printable s = true ->
  0 <= sumAdvance f s <= 255 * Z.of_nat (length s).
Proof.
  intros Hf. induction s as [|c s IH]; simpl; intros Hs; [lia|].
  apply andb_true_iff in Hs as [Hc Hs].
  pose proof (glyphAdvance_range f c Hf Hc). specialize (IH Hs). lia.
Qed.

(** ** Reading a string *)

Lemma char_at_app s c rest :
  char_at (s ++ c :: rest) (Z.of_nat (length s)) = Val (uint8 c).
Proof.
  unfold char_at. rewrite length_app. simpl length.
  destruct (Z.leb_spec 0 (Z.of_nat (length s))); [|lia].
  destruct (Z.ltb_spec (Z.of_nat (length s)) (Z.of_nat (length s + S (length rest))))%nat; [|lia].
  simpl. rewrite Nat2Z.id. rewrite app_nth2 by lia.
  replace (length s - length s)%nat with 0%nat by lia. reflexivity.
Qed.

Lemma char_at_end s : char_at s (Z.of_nat (length s)) = Val 0.
Proof.
  unfold char_at. rewrite Z.ltb_irrefl, andb_false_r, Z.eqb_refl. reflexivity.
Qed.

(** ** getTextWidth on printable text *)

Lemma getTextWidth_from_printable f n : forall pre rest w rep text,
  fontOk f = true -> forallb printable rest = true ->
  Z.of_nat (length text) + Z.of_nat n <= 32 ->
  0 <= w -> w + 255 * Z.of_nat n < 65536 ->
  getTextWidth_from n (pre ++ rest) f (Z.of_nat (length pre)) w rep text
  = Val (w + sumAdvance f (take n rest), text ++ take n rest).
Proof.
  induction n as [|n IH]; intros pre rest w rep text Hf Hrest Hlen Hw Hsum.
  - simpl. rewrite Z.add_0_r, app_nil_r. reflexivity.
  - destruct rest as [|c rest].
    + simpl. rewrite app_nil_r, char_at_end. simpl.
      rewrite Z.add_0_r, app_nil_r. reflexivity.
    + simpl in Hrest. apply andb_true_iff in Hrest as [Hc Hrest].
      pose proof Hc as Hr. apply printable_range in Hr.
      simpl getTextWidth_from. rewrite char_at_app. rewrite uint8_small by lia.
      simpl.
      destruct (Z.eqb_spec c 0); [lia|].
      destruct (Z.ltb_spec c 20); [lia|].
      destruct (Z.ltb_spec 127 c); [lia|].
      unfold pushText.
      destruct (Z.ltb_spec (Z.of_nat (length text)) 32); [|lia]. simpl.
      destruct (fontOk_glyph f c Hf Hc) as (g & Hg & Hok).
      pose proof (glyphOk_advance g Hok) as Hadv.
      rewrite Hg. simpl.
      rewrite uint16_small by lia.
      replace (pre ++ c :: rest) with ((pre ++ [c]) ++ rest)
        by (rewrite <- app_assoc; reflexivity).
      replace (Z.of_nat (length pre) + 1) with (Z.of_nat (length (pre ++ [c])))
        by (rewrite length_app; simpl; lia).
      rewrite IH; try assumption; try lia.
      * unfold glyphAdvance. rewrite Hg. rewrite <- app_assoc. simpl.
        f_equal. f_equal. lia.
      * rewrite length_app. simpl. lia.
Qed.

Lemma getTextWidth_printable (f : Font) (s : list Z) (len : Z) :
  fontOk f = true -> forallb printable s = true -> 0 <= len <= 32 ->
  getTextWidth s len f
  = Val (sumAdvance f (take (Z.to_nat len) s), take (Z.to_nat len) s).
Proof.
  intros Hf Hs Hlen. unfold getTextWidth. rewrite uint8_small by lia.
  change (getTextWidth_from (Z.to_nat len) ([] ++ s) f (Z.of_nat (length (@nil Z))) 0 false []
          = Val (0 + sumAdvance f (take (Z.to_nat len) s), [] ++ take (Z.to_nat len) s)).
  apply getTextWidth_from_printable; try assumption; simpl; lia.
Qed.



(** C1. A run of bytes above 0x7f adds nothing: for the two bytes of a
    UTF-8 'a-umlaut' getTextWidth returns width 0 and no character, with
    any font, where one '#' was to be measured and kept. *)
Theorem getTextWidth_utf8_run_lost (f : Font) :
  getTextWidth [195; 164] 2 f = Val (0, []).
Proof. reflexivity. Qed.

(** The same between two letters: "a", the two bytes, "b" is measured
    and kept as "ab". *)
Example getTextWidth_utf8_between_letters :
  getTextWidth [97; 195; 164; 98] 4 (demoFont 6) = Val (12, [97; 98]).
Proof. reflexivity. Qed.

(** C9. A byte from 20 to 31 is not skipped: getTextWidth hands it to
    getGlyph, whose index [c - 0x20] is computed in [int] and is negative
    (from -12 to -1, no wrap-around), so the read is before the start of
    the glyph table, whatever the font. *)
Theorem getTextWidth_control_byte_out_of_table (f : Font) (b : Z) (rest : list Z) (len : Z) :
  20 <= b <= 31 ->
  1 <= len <= 255 ->
  getTextWidth (b :: rest) len f = Bad (GlyphBounds (b - 32))
  /\ glyphIndex b = b - 32
  /\ -12 <= glyphIndex b <= -1.
Proof.
  intros Hb Hlen.
  assert (Hi : glyphIndex b = b - 32) by (unfold glyphIndex; rewrite uint8_small; lia).
  split; [|split; [exact Hi | lia]].
  unfold getTextWidth. rewrite uint8_small by lia.
  destruct (Z.to_nat len) as [|n] eqn:En; [lia|].
  simpl getTextWidth_from.
  change (char_at (b :: rest) 0) with (Val (A:=Z) (uint8 b)).
  rewrite uint8_small by lia. simpl.
  destruct (Z.eqb_spec b 0); [lia|].
  destruct (Z.ltb_spec b 20); [lia|].
  destruct (Z.ltb_spec 127 b); [lia|].
  simpl. unfold getGlyph. rewrite index_negative by lia. rewrite Hi. reflexivity.
Qed.

Lemma getTextWidth_control_byte_out_of_table_witness :
  getTextWidth [20; 97] 2 (demoFont 6) = Bad (GlyphBounds (-12)).
Proof.
  apply (getTextWidth_control_byte_out_of_table (demoFont 6) 20 [97] 2); lia.
Defined.

(** C9, as it was stated: the index does not wrap around as an unsigned
    byte; for the byte 20 it is -12, not 244. *)
Lemma glyphIndex_does_not_wrap :
  glyphIndex 20 = -12 /\ uint8 (20 - 32) = 244 /\ glyphIndex 20 <> uint8 (20 - 32).
Proof. repeat split. discriminate. Qed.

(** ** Rules for [triple] *)

Section Triple.
Context {S : Type}.
Implicit Types (P R : S -> Prop).

Lemma triple_ret {A} P (a : A) (Q : A -> S -> Prop) R :
  (forall s, P s -> Q a s) -> triple P (mret a) Q R.
Proof. intros HQ fuel s Hs. simpl. auto. Qed.

Lemma triple_bind {A B} P (m : Run S A) (k : A -> Run S B) Q1 (Q : B -> S -> Prop) R :
  triple P m Q1 R -> (forall a, triple (Q1 a) (k a) Q R) -> triple P (m ≫= k) Q R.
Proof.
  intros Hm Hk fuel s Hs. specialize (Hm fuel s Hs).
  unfold mbind, Run_bind. destruct (m fuel s) as [a s'|f s'|s']; simpl in *; auto.
  apply Hk, Hm.
Qed.

Lemma triple_weaken {A} P P' (m : Run S A) (Q Q' : A -> S -> Prop) R R' :
  triple P' m Q' R' ->
  (forall s, P s -> P' s) -> (forall a s, Q' a s -> Q a s) -> (forall s, R' s -> R s) ->
  triple P m Q R.
Proof.
  intros Hm HP HQ HR fuel s Hs. specialize (Hm fuel s (HP s Hs)).
  destruct (m fuel s); simpl in *; auto.
Qed.

Lemma triple_get P (Q : S -> S -> Prop) R :
  (forall s, P s -> Q s s) -> triple P get Q R.
Proof. intros HQ fuel s Hs. simpl. auto. Qed.

Lemma triple_modify P (f : S -> S) (Q : unit -> S -> Prop) R :
  (forall s, P s -> Q tt (f s)) -> triple P (modify f) Q R.
Proof. intros HQ fuel s Hs. simpl. auto. Qed.

Lemma triple_check {A} P (c : Checked A) (Q : A -> S -> Prop) R :
  (forall a s, c = Val a -> P s -> Q a s) -> (forall s, P s -> R s) -> triple P (check c) Q R.
Proof. intros HQ HR fuel s Hs. unfold check. destruct c; simpl; auto. Qed.

Lemma triple_if {A} P (b : bool) (m1 m2 : Run S A) (Q : A -> S -> Prop) R :
  (b = true -> triple P m1 Q R) -> (b = false -> triple P m2 Q R) ->
  triple P (if b then m1 else m2) Q R.
Proof. destruct b; auto. Qed.

Lemma triple_iter_ {A B} (I : A -> S -> Prop) (step : A -> Run S (A + B))
    (Q : B -> S -> Prop) R n :
  (forall x, triple (I x) (step x)
               (fun r s => match r with inl x' => I x' s | inr b => Q b s end) R) ->
  (forall x s, I x s -> R s) ->
  forall x, triple (I x) (iter_ n step x) Q R.
Proof.
  intros Hstep HR. induction n as [|n IH]; intros x.
  - intros fuel s Hs. simpl. eauto.
  - simpl. eapply triple_bind; [apply Hstep|].
    intros [x'|b]; [apply IH | apply triple_ret; auto].
Qed.

Lemma triple_iter {A B} (I : A -> S -> Prop) (step : A -> Run S (A + B))
    (Q : B -> S -> Prop) R x :
  (forall x, triple (I x) (step x)
               (fun r s => match r with inl x' => I x' s | inr b => Q b s end) R) ->
  (forall x s, I x s -> R s) ->
  triple (I x) (iter step x) Q R.
Proof.
  intros Hstep HR fuel s Hs. unfold iter.
  exact (triple_iter_ I step Q R fuel Hstep HR x fuel s Hs).
Qed.

Lemma triple_forAcc {A} (J : A -> S -> Prop) (body : Z -> A -> Run S A) R n :
  (forall i a, triple (J a) (body i a) J R) ->
  forall lo a, triple (J a) (forAcc n lo body a) J R.
Proof.
  intros Hbody. induction n as [|n IH]; intros lo a; simpl.
  - apply triple_ret. auto.
  - eapply triple_bind; [apply Hbody | intros a'; apply IH].
Qed.

Lemma triple_for P (body : Z -> Run S unit) R n :
  (forall i, triple P (body i) (fun _ => P) R) ->
  triple P (for_ n body) (fun _ => P) R.
Proof.
  intros Hbody. unfold for_.
  apply (triple_forAcc (fun _ => P) (fun i _ => body i) R (Z.to_nat n)).
  intros i _. apply Hbody.
Qed.

End Triple.

(** A protected member function leaves what it cannot reach alone. *)
Lemma triple_onPanel {A} (P : Display -> Prop) (m : Run Panel A) :
  (forall p d, P d -> P (with_panel p d)) ->
  triple P (onPanel m) (fun _ => P) P.
Proof.
  intros HP fuel d Hd. unfold onPanel.
  destruct (m fuel (panel d)); simpl; auto.
Qed.

(** ** What the functions keep *)

Section Keeps.
Context {S : Type}.
Implicit Types (P : S -> Prop).

Lemma keeps_ret {A} P (a : A) : keeps P (mret a).
Proof. apply triple_ret. auto. Qed.

Lemma keeps_bind {A B} P (m : Run S A) (k : A -> Run S B) :
  keeps P m -> (forall a, keeps P (k a)) -> keeps P (m ≫= k).
Proof. intros Hm Hk. eapply triple_bind; [apply Hm | apply Hk]. Qed.

Lemma keeps_get P : keeps P get.
Proof. apply triple_get. auto. Qed.

Lemma keeps_check {A} P (c : Checked A) : keeps P (check c).
Proof. apply triple_check; auto. Qed.

Lemma keeps_modify P (f : S -> S) : (forall s, P s -> P (f s)) -> keeps P (modify f).
Proof. intros Hf. apply triple_modify. auto. Qed.

Lemma keeps_iter {A B} P (step : A -> Run S (A + B)) x :
  (forall x, keeps P (step x)) -> keeps P (iter step x).
Proof.
  intros Hstep. apply (triple_iter (fun _ => P)); [|auto].
  intros x'. eapply triple_weaken; [apply Hstep | auto | | auto].
  intros [?|?]; auto.
Qed.

Lemma keeps_forAcc {A} P (body : Z -> A -> Run S A) n lo a :
  (forall i a, keeps P (body i a)) -> keeps P (forAcc n lo body a).
Proof. intros Hbody. apply (triple_forAcc (fun _ => P)). apply Hbody. Qed.

Lemma keeps_for P (body : Z -> Run S unit) n :
  (forall i, keeps P (body i)) -> keeps P (for_ n body).
Proof. intros Hbody. apply triple_for. apply Hbody. Qed.

End Keeps.

(** Splits a goal [keeps P m] along the structure of [m]. *)
Ltac keeps_step :=
  lazymatch goal with
  | |- keeps _ (mret _) => apply keeps_ret
  | |- keeps _ (_ ≫= _) => apply keeps_bind; [|intros ?]
  | |- keeps _ get => apply keeps_get
  | |- keeps _ yield => apply keeps_ret
  | |- keeps _ (check _) => apply keeps_check
  | |- keeps _ (iter _ _) => apply keeps_iter; intros ?
  | |- keeps _ (forAcc _ _ _ _) => apply keeps_forAcc; intros ? ?
  | |- keeps _ (for_ _ _) => apply keeps_for; intros ?
  | |- keeps _ (if ?b then _ else _) => destruct b
  | |- keeps _ (match ?x with _ => _ end) => destruct x
  | |- keeps _ (let '(_, _) := ?x in _) => destruct x
  end.

Create HintDb keeps.

Ltac keeps_auto := repeat first [ solve [eauto with keeps] | keeps_step ].

Lemma panelFree_safe : panelFree safe.
Proof. intros p d Hd. exact Hd. Qed.

Lemma panelFree_idle : panelFree idle.
Proof. intros p d Hd. exact Hd. Qed.

Lemma storeFree_idle : storeFree idle.
Proof.
  intros i v d [Hr Hb]. split; simpl; [|exact Hb]. rewrite Hr, Hb. reflexivity.
Qed.

#[global] Hint Resolve panelFree_safe panelFree_idle storeFree_idle : keeps.

Lemma keeps_onPanel {A} P (m : Run Panel A) : panelFree P -> keeps P (onPanel m).
Proof. intros HP. apply triple_onPanel. exact HP. Qed.

Lemma keeps_store P i v : storeFree P -> keeps P (store i v).
Proof.
  intros HP fuel d Hd. unfold store.
  destruct ((0 <=? i) && (i <? Z.of_nat (length (_buffer d)))); simpl; auto.
Qed.

Lemma keeps_setCursor P c : panelFree P -> keeps P (setCursor c).
Proof. intros HP. apply keeps_modify. intros d Hd. apply HP, Hd. Qed.

Lemma keeps_setArea P x row width j fg bg :
  panelFree P -> keeps P (setArea x row width j fg bg).
Proof. intros HP. apply keeps_modify. intros d Hd. apply HP, Hd. Qed.

Lemma keeps_setColor P c : panelFree P -> keeps P (setColor c).
Proof. intros HP. apply keeps_modify. intros d Hd. apply HP, Hd. Qed.

#[global] Hint Resolve keeps_onPanel keeps_store keeps_setCursor keeps_setArea
  keeps_setColor : keeps.

Lemma keeps_initializeBuffer P : storeFree P -> keeps P initializeBuffer.
Proof. intros HS. unfold initializeBuffer. keeps_auto. Qed.

Lemma keeps_renderChar P font width x y c color :
  storeFree P -> keeps P (renderChar font width x y c color).
Proof.
  intros HS. unfold renderChar, renderPixel. keeps_auto.
Qed.

#[global] Hint Resolve keeps_initializeBuffer keeps_renderChar : keeps.

Lemma keeps_write P len : panelFree P -> keeps P (write len).
Proof. intros HP. unfold write. keeps_auto. Qed.

#[global] Hint Resolve keeps_write : keeps.

Lemma keeps_writeBursts P n_pixels len : panelFree P -> keeps P (writeBursts n_pixels len).
Proof. intros HP. unfold writeBursts. keeps_auto. Qed.

Lemma keeps_fillPattern P len color :
  panelFree P -> storeFree P -> keeps P (fillPattern len color).
Proof. intros HP HS. unfold fillPattern. keeps_auto. Qed.

Lemma keeps_stripTrailing P s len : keeps P (stripTrailing s len).
Proof. unfold stripTrailing. keeps_auto. Qed.

#[global] Hint Resolve keeps_writeBursts keeps_fillPattern keeps_stripTrailing : keeps.

Lemma keeps_renderText P font text :
  panelFree P -> storeFree P -> keeps P (renderText font text).
Proof.
  intros HP HS. induction text as [|c rest IH]; simpl; keeps_auto.
Qed.

Lemma keeps_drawAll P font text :
  panelFree P -> storeFree P -> keeps P (drawAll font text).
Proof.
  intros HP HS. induction text as [|c rest IH]; simpl; keeps_auto.
Qed.

#[global] Hint Resolve keeps_renderText keeps_drawAll : keeps.

Section KeepsDisplay.
Context {ctl : Controller} {fonts : Fonts}.

Lemma keeps_writeFillRectangle P x y width height color :
  panelFree P -> storeFree P -> keeps P (writeFillRectangle x y width height color).
Proof. intros HP HS. unfold writeFillRectangle. keeps_auto. Qed.

End KeepsDisplay.

#[global] Hint Resolve keeps_writeFillRectangle : keeps.

(** ** The busy flag *)

Lemma safe_of_idle d : idle d -> safe d.
Proof. intros [Hr _]. exact Hr. Qed.

Lemma keeps_setBusy_safe b : keeps safe (setBusy b).
Proof. apply keeps_modify. intros d Hd. exact Hd. Qed.

Lemma setBusy_false_idle : triple safe (setBusy false) (fun _ => idle) safe.
Proof. apply triple_modify. intros d Hd. split; [exact Hd | reflexivity]. Qed.

#[global] Hint Resolve keeps_setBusy_safe : keeps.

Lemma keeps_loop_safe : keeps safe loop.
Proof. unfold loop. keeps_auto. Qed.

#[global] Hint Resolve keeps_loop_safe : keeps.

(** The wait loop returns only with [_busy] cleared. *)
Lemma waitIdle_idle : triple safe waitIdle (fun _ => idle) safe.
Proof.
  unfold waitIdle. apply (triple_iter (fun _ => safe)); [|auto].
  intros []. eapply triple_bind.
  - apply (triple_get safe (fun d s => s = d /\ safe s)). auto.
  - intros d. destruct (_busy d) eqn:Hb.
    + eapply triple_bind with (Q1 := fun _ => safe).
      * apply triple_ret. intros s [_ Hs]. exact Hs.
      * intros ?. eapply triple_bind; [apply keeps_loop_safe|].
        intros ?. apply triple_ret. auto.
    + apply triple_ret. intros s [-> Hs]. split; assumption.
Qed.

Lemma prepareWrite_idle : triple safe prepareWrite (fun _ => idle) safe.
Proof.
  unfold prepareWrite. eapply triple_bind; [apply waitIdle_idle|]. intros ?.
  eapply triple_weaken with (P' := idle) (Q' := fun _ => idle) (R' := idle);
    auto using safe_of_idle.
  change (keeps idle (onPanel (emit Bus.BeginTransaction);;
                      onPanel (emit (Bus.ChipSelect false)))).
  keeps_auto.
Qed.

(** [m] runs with the flag clear and may leave it set. *)
Lemma triple_idle_body {A} (m : Run Display A) :
  keeps idle m -> triple idle m (fun _ => idle) safe.
Proof. intros Hm. eapply triple_weaken; [apply Hm | auto | auto | apply safe_of_idle]. Qed.

Section Busy.
Context {ctl : Controller} {fonts : Fonts}.

Lemma flushBuffer_safe : triple idle flushBuffer (fun _ => safe) safe.
Proof.
  unfold flushBuffer.
  eapply triple_bind.
  { eapply triple_weaken; [apply prepareWrite_idle | apply safe_of_idle | | ];
      intros; eassumption. }
  intros ?. eapply triple_bind; [apply triple_idle_body, keeps_get|]. intros d.
  eapply triple_bind; [apply triple_idle_body; keeps_auto|]. intros ?.
  eapply triple_bind; [apply triple_idle_body; keeps_auto|]. intros ?.
  eapply triple_weaken; [apply keeps_setBusy_safe | apply safe_of_idle | auto | auto].
Qed.

Lemma drawChar_safe c : keeps safe (drawChar c).
Proof.
  unfold drawChar. eapply triple_bind; [apply waitIdle_idle|]. intros ?.
  eapply triple_weaken with (P' := idle) (Q' := fun _ => idle) (R' := idle);
    auto using safe_of_idle.
  match goal with |- triple idle ?m _ _ => change (keeps idle m) end.
  keeps_auto.
Qed.

Lemma fillRectangle_safe x y width height color :
  keeps safe (fillRectangle x y width height color).
Proof.
  unfold fillRectangle. eapply triple_bind; [apply waitIdle_idle|]. intros ?.
  eapply triple_bind.
  { eapply triple_weaken; [apply prepareWrite_idle | apply safe_of_idle | | ];
      intros; eassumption. }
  intros ?. eapply triple_bind; [apply triple_idle_body; keeps_auto|]. intros ?.
  eapply triple_weaken; [apply keeps_setBusy_safe | apply safe_of_idle | auto | auto].
Qed.

Lemma fillScreen_safe color : keeps safe (fillScreen color).
Proof.
  unfold fillScreen. apply keeps_bind; [apply keeps_get|]. intros d.
  apply fillRectangle_safe.
Qed.

Lemma reset_safe orientation color : keeps safe (reset orientation color).
Proof.
  unfold reset.
  do 6 (apply keeps_bind; [keeps_auto|]; intros ?).
  eapply triple_bind; [apply keeps_setBusy_safe|]. intros ?.
  eapply triple_bind; [apply prepareWrite_idle|]. intros ?.
  eapply triple_weaken with (P' := idle) (Q' := fun _ => idle) (R' := idle);
    auto using safe_of_idle.
  match goal with |- triple idle ?m _ _ => change (keeps idle m) end.
  keeps_auto.
Qed.

Lemma printLayout_safe l : triple idle (printLayout l) (fun _ => safe) safe.
Proof.
  unfold printLayout, paint.
  eapply triple_bind; [apply triple_idle_body, keeps_get|]. intros d.
  do 4 (eapply triple_bind; [apply triple_idle_body; keeps_auto|]; intros ?).
  apply flushBuffer_safe.
Qed.

Lemma print_safe s : keeps safe (print s).
Proof.
  unfold print. eapply triple_bind; [apply waitIdle_idle|]. intros ?.
  destruct s as [s|].
  - destruct (uint8 (strlen s) =? 0).
    + apply triple_ret. apply safe_of_idle.
    + eapply triple_bind; [apply triple_idle_body; keeps_auto|]. intros len.
      eapply triple_bind; [apply triple_idle_body, keeps_get|]. intros d.
      eapply triple_bind; [apply triple_idle_body; keeps_auto|]. intros l.
      apply printLayout_safe.
  - eapply triple_bind; [apply triple_idle_body, keeps_get|]. intros d.
    eapply triple_bind; [apply triple_idle_body; keeps_auto|]. intros ?.
    apply flushBuffer_safe.
Qed.

Lemma enable_safe on : keeps safe (ST7789.enable on).
Proof.
  unfold ST7789.enable. eapply triple_bind; [apply prepareWrite_idle|]. intros ?.
  eapply triple_weaken with (P' := idle) (Q' := fun _ => idle) (R' := idle);
    auto using safe_of_idle.
  match goal with |- triple idle ?m _ _ => change (keeps idle m) end.
  keeps_auto.
Qed.

Lemma sleep_safe on : keeps safe (ST7789.sleep on).
Proof.
  unfold ST7789.sleep. eapply triple_bind; [apply prepareWrite_idle|]. intros ?.
  eapply triple_weaken with (P' := idle) (Q' := fun _ => idle) (R' := idle);
    auto using safe_of_idle.
  match goal with |- triple idle ?m _ _ => change (keeps idle m) end.
  keeps_auto.
Qed.

Lemma call_safe c : keeps safe (call c).
Proof.
  destruct c; simpl.
  - apply reset_safe.
  - apply keeps_loop_safe.
  - apply fillRectangle_safe.
  - apply fillScreen_safe.
  - apply keeps_setArea, panelFree_safe.
  - apply keeps_setColor, panelFree_safe.
  - apply drawChar_safe.
  - apply print_safe.
  - apply enable_safe.
  - apply sleep_safe.
Qed.

Lemma final_keeps {A} (P : Display -> Prop) (m : Run Display A) fuel d :
  keeps P m -> P d -> P (final (m fuel d)).
Proof.
  intros Hm Hd. specialize (Hm fuel d Hd). destruct (m fuel d); exact Hm.
Qed.

End Busy.

(** C2. Whatever calls are made, with whatever fuel and whatever the
    bus answers, no store to the offscreen buffer executes while [_busy]
    is set: [raced] stays clear in every reachable state, also in those a
    call blocked or went wrong in; and the wait loop that print, drawChar
    and fillRectangle start with returns only with [_busy] cleared. *)
Theorem buffer_never_stored_while_busy {ctl : Controller} {fonts : Fonts} (d0 d : Display) :
  raced d0 = false ->
  reachable d0 d ->
  raced d = false
  /\ forall fuel d', waitIdle fuel d = Ok tt d' -> _busy d' = false /\ raced d' = false.
Proof.
  intros H0 Hreach.
  assert (Hd : safe d).
  { induction Hreach as [|d d' _ IH Hstep]; [exact H0|].
    destruct Hstep as [c fuel d]. apply final_keeps; [apply call_safe | exact IH]. }
  split; [exact Hd|].
  intros fuel d' Hw. pose proof (waitIdle_idle fuel d Hd) as Hp.
  rewrite Hw in Hp. destruct Hp as [Hr Hb]. split; assumption.
Qed.

Lemma buffer_never_stored_while_busy_witness :
  raced (final (call (ctl := ST7789.controller) (fonts := demoFonts) (CallDrawChar 97) 5%nat
          (final (call (ctl := ST7789.controller) (fonts := demoFonts)
                   (CallPrint (Some abc)) 5%nat (demoDisplay 20 Left))))) = false.
Proof.
  refine (proj1 (buffer_never_stored_while_busy (ctl := ST7789.controller) (fonts := demoFonts)
                   (demoDisplay 20 Left) _ eq_refl _)).
  eapply reach_step; [eapply reach_step; [apply reach_start|]|]; apply step_call.
Defined.

(** The flag is raised by a store made while a transfer is pending. *)
Example store_while_busy_is_seen :
  raced (final (store 0 7 1%nat (with_busy true (demoDisplay 20 Left)))) = true.
Proof. reflexivity. Qed.

(** ** writeFillRectangle *)

Lemma filled_le n m v b : m <= n -> filled n v b -> filled m v b.
Proof. intros Hle Hf i Hi. apply Hf. lia. Qed.

Lemma store_fills i v :
  triple (fun d => 0 <= i /\ filled i v (_buffer d)) (store i v)
         (fun _ d => 0 <= i /\ filled (i + 1) v (_buffer d)) (fun _ => True).
Proof.
  intros fuel d [Hi Hf]. unfold store.
  destruct (Z.leb_spec 0 i); [|lia].
  destruct (Z.ltb_spec i (Z.of_nat (length (_buffer d)))); simpl; [|exact I].
  split; [exact Hi|]. intros j Hj. destruct (Z.eq_dec j i) as [->|Hne].
  - apply list_lookup_insert_eq. lia.
  - rewrite list_lookup_insert_ne by lia. apply Hf. lia.
Qed.

Lemma fillPattern_fills len color :
  triple (fun _ => True) (fillPattern len color)
         (fun _ d => filled len (bswap16 color) (_buffer d)) (fun _ => True).
Proof.
  unfold fillPattern. intros fuel d _.
  apply (triple_iter (fun i d => 0 <= i /\ filled i (bswap16 color) (_buffer d)) _
           (fun _ d => filled len (bswap16 color) (_buffer d)) (fun _ => True)).
  - intros i. destruct (Z.ltb_spec i len).
    + eapply triple_bind; [apply store_fills|]. intros ?.
      apply triple_ret. intros d' [Hi Hf].
      pose proof (uint16_range (i + 1)).
      split; [lia|].
      apply filled_le with (i + 1); [|exact Hf].
      unfold uint16. apply Z.mod_le; lia.
    + apply triple_ret. intros d' [_ Hf]. apply filled_le with i; [lia | exact Hf].
  - auto.
  - split; [lia|]. intros j Hj. lia.
Qed.

Lemma triple_and {S A} (P1 P2 : S -> Prop) (m : Run S A) (Q1 Q2 : A -> S -> Prop) R1 R2 :
  triple P1 m Q1 R1 -> triple P2 m Q2 R2 ->
  triple (fun s => P1 s /\ P2 s) m (fun a s => Q1 a s /\ Q2 a s) (fun s => R1 s /\ R2 s).
Proof.
  intros H1 H2 fuel s [Hs1 Hs2]. specialize (H1 fuel s Hs1). specialize (H2 fuel s Hs2).
  destruct (m fuel s); simpl in *; auto.
Qed.

Lemma panelFree_hardwareIs hw : panelFree (hardwareIs hw).
Proof. intros p d Hd. exact Hd. Qed.

Lemma storeFree_hardwareIs hw : storeFree (hardwareIs hw).
Proof. intros i v d Hd. exact Hd. Qed.

Lemma panelFree_filled hw n v :
  panelFree (fun d => hardwareIs hw d /\ filled n v (_buffer d)).
Proof. intros p d Hd. exact Hd. Qed.

Lemma panelFree_bufferIs hw b :
  panelFree (fun d => hardwareIs hw d /\ _buffer d = b).
Proof. intros p d Hd. exact Hd. Qed.

#[global] Hint Resolve panelFree_hardwareIs storeFree_hardwareIs panelFree_filled
  panelFree_bufferIs : keeps.

(** A store of the value a filled cell already holds changes nothing. *)
Lemma store_again hw b n i v :
  filled n v b -> i < n ->
  keeps (fun d => hardwareIs hw d /\ _buffer d = b) (store i v).
Proof.
  intros Hf Hi fuel d [Hhw Hb]. unfold store.
  destruct (Z.leb_spec 0 i); simpl; [|auto].
  destruct (Z.ltb_spec i (Z.of_nat (length (_buffer d)))); simpl; [|auto].
  split; [exact Hhw|]. rewrite Hb. apply list_insert_id. apply Hf. lia.
Qed.

Lemma fillPattern_again hw b len color :
  filled len (bswap16 color) b ->
  keeps (fun d => hardwareIs hw d /\ _buffer d = b) (fillPattern len color).
Proof.
  intros Hf. unfold fillPattern. apply keeps_iter. intros i.
  destruct (Z.ltb_spec i len).
  - apply keeps_bind; [eapply store_again; eassumption|]. intros ?. apply keeps_ret.
  - apply keeps_ret.
Qed.

Lemma triple_assume {S A} (F : Prop) (P : S -> Prop) (m : Run S A) Q R :
  (F -> triple P m Q R) -> triple (fun s => F /\ P s) m Q R.
Proof. intros Hm fuel s [HF Hs]. apply Hm; assumption. Qed.

Section Fill.
Context {ctl : Controller}.

Lemma writeFillRectangle_fills hw x y width height color :
  triple (hardwareIs hw) (writeFillRectangle x y width height color)
    (fun _ d => hardwareIs hw d /\
                filled (min (uint32 (uint16 width * uint16 height))
                            (Hardware.width hw * row_size))
                       (bswap16 (uint16 color)) (_buffer d))
    (fun _ => True).
Proof.
  unfold writeFillRectangle.
  eapply triple_bind.
  { eapply triple_weaken; [apply (keeps_onPanel (hardwareIs hw)) | | | ]; auto with keeps.
    intros ? s Hs. exact Hs. }
  intros ?. eapply triple_bind.
  { apply (triple_get _ (fun d s => hardwareIs hw d /\ hardwareIs hw s)). auto. }
  intros d. apply triple_assume. intros Hd. unfold hardwareIs in Hd. rewrite Hd.
  destruct (INT_MAX <? uint16 width * uint16 height).
  { apply triple_check; [discriminate | auto]. }
  eapply triple_bind.
  - eapply triple_weaken;
      [apply (triple_and _ _ _ _ _ _ _ (keeps_fillPattern (hardwareIs hw) _ _
                (panelFree_hardwareIs hw) (storeFree_hardwareIs hw))
                (fillPattern_fills _ _))
      | | | ].
    + intros s Hs. split; [exact Hs | exact I].
    + intros ? s Hs. exact Hs.
    + auto.
  - intros ?. eapply triple_weaken; [apply keeps_writeBursts | | | ].
    + apply (panelFree_filled hw).
    + intros s Hs. exact Hs.
    + intros ? s Hs. exact Hs.
    + auto.
Qed.

Lemma writeFillRectangle_again hw b x y width height color :
  filled (min (uint32 (uint16 width * uint16 height)) (Hardware.width hw * row_size))
         (bswap16 (uint16 color)) b ->
  keeps (fun d => hardwareIs hw d /\ _buffer d = b)
        (writeFillRectangle x y width height color).
Proof.
  intros Hf. unfold writeFillRectangle.
  apply keeps_bind; [auto with keeps|]. intros ?.
  eapply triple_bind.
  { apply (triple_get _ (fun d s => hardwareIs hw d /\ (hardwareIs hw s /\ _buffer s = b))).
    intros s Hs. split; [apply Hs | exact Hs]. }
  intros d. apply triple_assume. intros Hd. unfold hardwareIs in Hd. rewrite Hd.
  destruct (INT_MAX <? uint16 width * uint16 height).
  { apply keeps_check. }
  apply keeps_bind; [apply fillPattern_again, Hf|]. intros ?.
  auto with keeps.
Qed.

(** C8. Once writeFillRectangle has returned, the cells it filled all
    hold the byte-swapped colour, and running it again with the same
    arguments, with any fuel and whatever the bus answers, leaves the
    buffer as the first run left it. *)
Theorem writeFillRectangle_idempotent (x y width height color : Z)
    (fuel1 fuel2 : nat) (d d1 : Display) :
  writeFillRectangle x y width height color fuel1 d = Ok tt d1 ->
  filled (fillLen d width height) (bswap16 (uint16 color)) (_buffer d1)
  /\ _buffer (final (writeFillRectangle x y width height color fuel2 d1)) = _buffer d1.
Proof.
  intros Hrun.
  pose proof (writeFillRectangle_fills (_hardware (panel d)) x y width height color
                fuel1 d eq_refl) as H1.
  rewrite Hrun in H1. destruct H1 as [Hhw Hf]. split; [exact Hf|].
  pose proof (writeFillRectangle_again (_hardware (panel d)) (_buffer d1)
                x y width height color Hf fuel2 d1 (conj Hhw eq_refl)) as H2.
  destruct (writeFillRectangle x y width height color fuel2 d1); apply H2.
Qed.

End Fill.

Lemma writeFillRectangle_idempotent_witness :
  _buffer (final (writeFillRectangle (ctl := ST7789.controller) 0 0 24 60 31 2000%nat
            (final (writeFillRectangle (ctl := ST7789.controller) 0 0 24 60 31 2000%nat
                      (demoDisplay 20 Left)))))
  = replicate 1440 7936.
Proof.
  refine (eq_trans (proj2 (writeFillRectangle_idempotent (ctl := ST7789.controller)
            0 0 24 60 31 2000%nat 2000%nat (demoDisplay 20 Left)
            (final (writeFillRectangle (ctl := ST7789.controller) 0 0 24 60 31 2000%nat
                      (demoDisplay 20 Left))) _)) _).
  - vm_compute. reflexivity.
  - vm_compute. reflexivity.
Defined.

(** ** print: the length, the trailing spaces *)

Lemma waitIdle_not_busy n d : _busy d = false -> waitIdle (S n) d = Ok tt d.
Proof.
  intros Hb. unfold waitIdle, iter. simpl. unfold mbind, Run_bind. simpl.
  rewrite Hb. reflexivity.
Qed.

Lemma strlen_range s : 0 <= strlen s <= Z.of_nat (length s).
Proof.
  induction s as [|b s IH]; simpl; [lia|].
  destruct (uint8 b =? 0); lia.
Qed.

Lemma char_at_before s : char_at s (-1) = Bad (StringBounds (-1)).
Proof.
  unfold char_at. destruct (Z.leb_spec 0 (-1)); [lia|]. cbn [andb].
  destruct (Z.eqb_spec (-1) (Z.of_nat (length s))); [lia | reflexivity].
Qed.

Lemma char_at_lookup s i b :
  s !! i = Some b -> char_at s (Z.of_nat i) = Val (uint8 b).
Proof.
  intros Hb. pose proof (lookup_lt_Some _ _ _ Hb) as Hlt.
  unfold char_at. destruct (Z.leb_spec 0 (Z.of_nat i)); [|lia].
  destruct (Z.ltb_spec (Z.of_nat i) (Z.of_nat (length s))); [|lia]. simpl.
  rewrite Nat2Z.id, nth_lookup, Hb. reflexivity.
Qed.

(** From a length whose bytes below are all spaces the loop walks down
    to 0 and then reads [s[-1]]. *)
Lemma stripTrailing_all_spaces s n : forall len fuel (d : Display),
  Forall (fun b => uint8 b = 32) (take (Z.to_nat len) s) ->
  0 <= len <= Z.of_nat (length s) -> len < 256 ->
  (Z.to_nat len < n)%nat ->
  iter_ n (fun len => c ← check (char_at s (len - 1)); mret (stripNext c len)) len fuel d
  = Undefined (StringBounds (-1)) d.
Proof.
  induction n as [|n IH]; intros len fuel d Hsp Hlen H8 Hn; [lia|].
  simpl. unfold mbind, Run_bind, check.
  destruct (Z.eq_dec len 0) as [->|Hne].
  - simpl Z.sub. rewrite char_at_before. reflexivity.
  - destruct (s !! Z.to_nat (len - 1)) as [b|] eqn:Eb.
    2:{ apply lookup_ge_None in Eb. lia. }
    replace (len - 1) with (Z.of_nat (Z.to_nat (len - 1))) at 1 by lia.
    rewrite (char_at_lookup _ _ _ Eb).
    assert (Hb : uint8 b = 32).
    { rewrite Forall_lookup in Hsp. apply (Hsp (Z.to_nat (len - 1))).
      rewrite lookup_take_lt by lia. exact Eb. }
    rewrite Hb. simpl. unfold stripNext. simpl.
    rewrite uint8_small by lia.
    apply IH; try lia.
    apply Forall_lookup. intros i x Hx. rewrite Forall_lookup in Hsp.
    apply (Hsp i). pose proof (lookup_lt_Some _ _ _ Hx) as Hlt.
    rewrite length_take in Hlt.
    rewrite lookup_take_lt in Hx by lia. rewrite lookup_take_lt by lia. exact Hx.
Qed.

(** C10. For a string whose length, taken as [uint8_t], is not zero,
    and whose first min(that length, 32) bytes are all spaces, the loop
    that strips trailing spaces walks [len] down to zero without
    stopping there and reads [s[-1]], before the start of the string;
    and the decrement it would then make takes [len] from 0 to 255. *)
Theorem print_all_spaces_reads_before_string {ctl : Controller} {fonts : Fonts}
    (s : list Z) (fuel : nat) (d : Display) :
  uint8 (strlen s) <> 0 ->
  Forall (fun b => uint8 b = 32) (take (Z.to_nat (min (uint8 (strlen s)) 32)) s) ->
  _busy d = false ->
  (33 < fuel)%nat ->
  print (Some s) fuel d = Undefined (StringBounds (-1)) d
  /\ stripNext 32 0 = inl 255.
Proof.
  intros Hlen Hsp Hb Hfuel. split; [|reflexivity].
  destruct fuel as [|n]; [lia|].
  unfold print. unfold mbind at 1. unfold Run_bind at 1.
  rewrite waitIdle_not_busy by exact Hb.
  destruct (Z.eqb_spec (uint8 (strlen s)) 0) as [|_]; [contradiction|].
  pose proof (strlen_range s) as Hs. pose proof (uint8_range (strlen s)) as H8.
  assert (Hle : uint8 (strlen s) <= strlen s) by (unfold uint8; apply Z.mod_le; lia).
  unfold mbind at 1. unfold Run_bind at 1. unfold stripTrailing, iter.
  rewrite stripTrailing_all_spaces; [reflexivity | | | | ].
  - unfold min in Hsp. destruct (Z.ltb_spec 32 (uint8 (strlen s)));
      destruct (Z.ltb_spec (uint8 (strlen s)) 32); try exact Hsp; try lia.
    replace (uint8 (strlen s)) with 32 by lia. exact Hsp.
  - destruct (Z.ltb_spec 32 (uint8 (strlen s))); lia.
  - destruct (Z.ltb_spec 32 (uint8 (strlen s))); lia.
  - destruct (Z.ltb_spec 32 (uint8 (strlen s))); lia.
Qed.

Lemma print_all_spaces_reads_before_string_witness :
  print (ctl := ST7789.controller) (fonts := demoFonts) (Some spaces3) 40%nat
        (demoDisplay 20 Left)
  = Undefined (StringBounds (-1)) (demoDisplay 20 Left).
Proof.
  refine (proj1 (print_all_spaces_reads_before_string (ctl := ST7789.controller)
                   (fonts := demoFonts) spaces3 40%nat (demoDisplay 20 Left) _ _ _ _)).
  - discriminate.
  - repeat constructor.
  - reflexivity.
  - lia.
Defined.

(** C10, as it was stated: a string of 256 spaces is not empty and its
    first 32 bytes are spaces, but its length is 0 as [uint8_t]; print
    returns at once and reads nothing before the string. *)
Lemma print_256_spaces_returns :
  strlen (replicate 256 32) = 256
  /\ Forall (fun b => b = 32) (take 32 (replicate 256 32))
  /\ print (ctl := ST7789.controller) (fonts := demoFonts) (Some (replicate 256 32)) 40%nat
           (demoDisplay 20 Left)
     = Ok tt (demoDisplay 20 Left).
Proof.
  split; [reflexivity|]. split; [|reflexivity].
  apply Forall_forall. intros b Hb. apply elem_of_take in Hb as (i & Hb & _).
  apply lookup_replicate in Hb. tauto.
Qed.

(** ** print: the choice of the font and the start of the cursor *)



Lemma quot_floor a : 0 <= a -> Z.quot a 2 = a / 2.
Proof. intros Ha. apply Z.quot_div_nonneg; lia. Qed.

(** C5. With the measured width first clamped to the area width, print
    puts the cursor at 0 for Left, at (area width - text width) / 2,
    rounded down, for Center, and at area width - text width for Right,
    and paints from there; for an area 100 wide and a text 40 wide that
    is 0, 30 and 60. *)
Theorem print_start_cursor {ctl : Controller} {fonts : Fonts}
    (l : Layout) (fuel : nat) (d : Display) :
  let a := _area (panel d) in
  let tw := Z.min (textWidth l) (Area.width a) in
  0 <= Area.width a < 65536 ->
  0 <= textWidth l ->
  printLayout l fuel d
  = paint l fuel
      (placeCursor match Area.justify a with
                   | Left => 0
                   | Center => (Area.width a - tw) / 2
                   | Right => Area.width a - tw
                   end d)
  /\ startCursor Left 100 40 = 0
  /\ startCursor Center 100 40 = 30
  /\ startCursor Right 100 40 = 60.
Proof.
  intros a tw HW Htw. split; [|repeat split].
  assert (Hc : startCursor (Area.justify a) (Area.width a) (textWidth l)
               = match Area.justify a with
                 | Left => 0
                 | Center => (Area.width a - tw) / 2
                 | Right => Area.width a - tw
                 end).
  { unfold startCursor, clampWidth, justifyCursor. subst tw.
    destruct (Z.ltb_spec (Area.width a) (textWidth l)).
    - rewrite Z.min_r by lia. rewrite Z.sub_diag.
      destruct (Area.justify a); reflexivity.
    - rewrite Z.min_l by lia.
      destruct (Area.justify a); [reflexivity | |].
      + rewrite quot_floor by lia. apply uint16_small.
        split; [apply Z.div_pos; lia|].
        apply Z.le_lt_trans with (Area.width a - textWidth l); [|lia].
        apply Z.div_le_upper_bound; lia.
      + apply uint16_small. lia. }
  unfold printLayout. unfold mbind at 1. unfold Run_bind at 1. simpl.
  fold a. rewrite Hc. reflexivity.
Qed.

Lemma print_start_cursor_witness :
  printLayout (ctl := ST7789.controller) (fonts := demoFonts)
    {| font := Default; text := abc; textWidth := 18; tried := [Default] |} 5%nat
    (demoDisplay 20 Right)
  = paint (ctl := ST7789.controller) (fonts := demoFonts)
      {| font := Default; text := abc; textWidth := 18; tried := [Default] |} 5%nat
      (placeCursor 2 (demoDisplay 20 Right)).
Proof.
  refine (proj1 (print_start_cursor (ctl := ST7789.controller) (fonts := demoFonts)
            {| font := Default; text := abc; textWidth := 18; tried := [Default] |} 5%nat
            (demoDisplay 20 Right) _ _)); simpl; lia.
Defined.

(** C5, as it was stated: "abcd" measures 12 in the narrowest font, the
    area is 10 wide; the cursor starts at 0 for Center and for Right,
    not at (10 - 12) / 2 and not at 10 - 12. *)
Lemma start_cursor_of_overflowing_text :
  selectFont (fonts := demoFonts) abcd 4 10
  = Val {| font := CondensedSmall; text := abcd; textWidth := 12;
           tried := [Default; Condensed; CondensedSmall] |}
  /\ startCursor Center 10 12 = 0 /\ (10 - 12) / 2 = -1
  /\ startCursor Right 10 12 = 0 /\ 10 - 12 = -2
  /\ Area.cursor (_area (panel (placeCursor (startCursor Center 10 12)
                                  (demoDisplay 10 Center)))) <> (10 - 12) / 2.
Proof. repeat split. discriminate. Qed.

(** ** The render loop *)

Lemma storeFree_panelIs p : storeFree (fun d => panel d = p).
Proof. intros i v d Hd. exact Hd. Qed.

Lemma bind_unit_ret {S} (m : Run S unit) fuel s : (m;; mret tt) fuel s = m fuel s.
Proof.
  unfold mbind, Run_bind. destruct (m fuel s) as [[] s'| |]; reflexivity.
Qed.

(** renderChar returns the advance of the glyph and touches nothing of
    the protected members. *)
Lemma renderChar_returns font width x y c color g p :
  getGlyph font c = Val g ->
  triple (fun d => panel d = p) (renderChar font width x y c color)
         (fun a d => a = Glyph.advance g /\ panel d = p) (fun _ => True).
Proof.
  intros Hg. unfold renderChar. rewrite Hg.
  eapply triple_bind.
  { apply (triple_check _ _ (fun g' d => g' = g /\ panel d = p) (fun _ => True)); [|auto].
    intros g' d Hv Hd. inversion Hv. auto. }
  intros g'. apply triple_assume. intros ->.
  eapply triple_bind.
  - eapply triple_weaken with (P' := fun d => panel d = p)
      (Q' := fun _ d => panel d = p) (R' := fun d => panel d = p);
      [|auto|intros ? ? Hx; exact Hx|auto].
    match goal with |- triple _ ?m _ _ => change (keeps (fun d => panel d = p) m) end.
    unfold renderPixel. pose proof (storeFree_panelIs p). keeps_auto.
  - intros ?. apply triple_ret. auto.
Qed.

Lemma renderText_cons font c rest fuel d g :
  getGlyph font c = Val g ->
  renderText font (c :: rest) fuel d
  = let a := _area (panel d) in
    if Area.width a <? Area.cursor a + Glyph.advance g then Ok tt d
    else match renderChar font (Area.width a) (Area.cursor a) baseline c
                          (Area.foreground a) fuel d with
         | Ok _ d1 => renderText font rest fuel
                        (placeCursor (uint16 (Area.cursor a + Glyph.advance g)) d1)
         | Undefined e d1 => Undefined e d1
         | Blocked d1 => Blocked d1
         end.
Proof.
  intros Hg. simpl. rewrite Hg. unfold mbind, Run_bind. simpl.
  destruct (Area.width (_area (panel d)) <? Area.cursor (_area (panel d)) + Glyph.advance g);
    [reflexivity|].
  destruct (renderChar _ _ _ _ _ _ fuel d); reflexivity.
Qed.

Lemma drawAll_cons font c rest fuel d :
  drawAll font (c :: rest) fuel d
  = let a := _area (panel d) in
    match renderChar font (Area.width a) (Area.cursor a) baseline c
                     (Area.foreground a) fuel d with
    | Ok adv d1 => drawAll font rest fuel (placeCursor (uint16 (Area.cursor a + adv)) d1)
    | Undefined e d1 => Undefined e d1
    | Blocked d1 => Blocked d1
    end.
Proof.
  simpl. unfold mbind, Run_bind. simpl.
  destruct (renderChar _ _ _ _ _ _ fuel d); reflexivity.
Qed.

Lemma drawAll_app font pre rest fuel d :
  drawAll font (pre ++ rest) fuel d = (drawAll font pre;; drawAll font rest) fuel d.
Proof.
  revert d. induction pre as [|c pre IH]; intros d; [reflexivity|].
  change ((c :: pre) ++ rest) with (c :: (pre ++ rest)).
  unfold mbind, Run_bind in *. rewrite !drawAll_cons. cbv zeta.
  destruct (renderChar _ _ _ _ _ _ fuel d); [apply IH | reflexivity | reflexivity].
Qed.

(** One glyph drawn: the state it leaves when it returns. *)
Lemma renderChar_step font c g fuel d W fg cur :
  getGlyph font c = Val g ->
  areaIs W fg cur d ->
  0 <= cur -> 0 <= Glyph.advance g -> cur + Glyph.advance g < 65536 ->
  match renderChar font W cur baseline c fg fuel d with
  | Ok adv d1 => adv = Glyph.advance g
                 /\ areaIs W fg (cur + Glyph.advance g)
                           (placeCursor (uint16 (cur + Glyph.advance g)) d1)
  | _ => True
  end.
Proof.
  intros Hg (HW & Hfg & Hcur) H0 Ha Hlt.
  pose proof (renderChar_returns font W cur baseline c fg g (panel d) Hg fuel d eq_refl) as Hr.
  destruct (renderChar font W cur baseline c fg fuel d) as [adv d1| |]; [|exact I|exact I].
  destruct Hr as [-> Hp]. split; [reflexivity|].
  unfold areaIs, placeCursor. simpl. rewrite Hp.
  rewrite uint16_small by lia. auto.
Qed.

Lemma forallb_cons_printable c s :
  forallb printable (c :: s) = true -> printable c = true /\ forallb printable s = true.
Proof. simpl. intros H. apply andb_true_iff in H. exact H. Qed.

(** While the glyphs fit, the loop of print draws each of them. *)
Lemma renderText_app_fits font pre rest fuel W fg : forall cur d,
  fontOk font = true -> forallb printable pre = true ->
  areaIs W fg cur d -> 0 <= cur -> cur + sumAdvance font pre <= W -> W < 65536 ->
  renderText font (pre ++ rest) fuel d
  = match drawAll font pre fuel d with
    | Ok _ d' => renderText font rest fuel d'
    | Undefined e d' => Undefined e d'
    | Blocked d' => Blocked d'
    end.
Proof.
  induction pre as [|c pre IH]; intros cur d Hf Hp Ha H0 Hfit HW; [reflexivity|].
  apply forallb_cons_printable in Hp as [Hc Hp].
  destruct (fontOk_glyph font c Hf Hc) as (g & Hg & Hok).
  pose proof (glyphOk_advance g Hok) as Hadv.
  pose proof (sumAdvance_range font pre Hf Hp) as Hsum.
  simpl sumAdvance in Hfit. unfold glyphAdvance in Hfit. rewrite Hg in Hfit.
  change ((c :: pre) ++ rest) with (c :: (pre ++ rest)).
  rewrite (renderText_cons font c (pre ++ rest) fuel d g Hg), drawAll_cons. cbv zeta.
  pose proof Ha as (HaW & Hafg & Hacur). rewrite HaW, Hafg, Hacur.
  destruct (Z.ltb_spec W (cur + Glyph.advance g)); [lia|].
  pose proof (renderChar_step font c g fuel d W fg cur Hg Ha H0 (proj1 Hadv)) as Hstep.
  destruct (renderChar font W cur baseline c fg fuel d) as [adv d1| |];
    [|reflexivity|reflexivity].
  destruct Hstep as [-> Ha1]; [lia|].
  apply (IH (cur + Glyph.advance g)); try assumption; lia.
Qed.

(** The area after the glyphs of [pre] were drawn. *)
Lemma drawAll_area font pre fuel W fg : forall cur d,
  fontOk font = true -> forallb printable pre = true ->
  areaIs W fg cur d -> 0 <= cur -> cur + sumAdvance font pre < 65536 ->
  match drawAll font pre fuel d with
  | Ok _ d' => areaIs W fg (cur + sumAdvance font pre) d'
  | _ => True
  end.
Proof.
  induction pre as [|c pre IH]; intros cur d Hf Hp Ha H0 Hfit.
  - simpl. rewrite Z.add_0_r. exact Ha.
  - apply forallb_cons_printable in Hp as [Hc Hp].
    destruct (fontOk_glyph font c Hf Hc) as (g & Hg & Hok).
    pose proof (glyphOk_advance g Hok) as Hadv.
    pose proof (sumAdvance_range font pre Hf Hp) as Hsum.
    simpl sumAdvance in *. unfold glyphAdvance in *. rewrite Hg in *.
    rewrite drawAll_cons. cbv zeta.
    pose proof Ha as (HaW & Hafg & Hacur). rewrite HaW, Hafg, Hacur.
    pose proof (renderChar_step font c g fuel d W fg cur Hg Ha H0 (proj1 Hadv)) as Hstep.
    destruct (renderChar font W cur baseline c fg fuel d) as [adv d1| |];
      [|exact I|exact I].
    destruct Hstep as [-> Ha1]; [lia|].
    rewrite Z.add_assoc. apply IH; try assumption; lia.
Qed.

(** C4. The glyphs before [c] fit.  If the cursor plus the advance of
    [c] is at most the area width (equal to it, at the boundary), [c] is
    drawn like the glyphs before it and the loop goes on with the rest; a
    string that ends with [c] is then drawn in full.  If it is more (by
    one unit or by any amount), the loop stops there: what print has
    drawn is the glyphs before [c], and [c] and all that follows are
    dropped. *)
Theorem renderText_stops_at_first_overflow (font : Font) (pre : list Z) (c : Z)
    (post : list Z) (fuel : nat) (d : Display) (width foreground cursor : Z) :
  areaIs width foreground cursor d ->
  fontOk font = true ->
  forallb printable (pre ++ [c]) = true ->
  0 <= cursor ->
  width < 65536 ->
  cursor + sumAdvance font pre <= width ->
  renderText font (pre ++ c :: post) fuel d
  = (if width <? cursor + sumAdvance font pre + glyphAdvance font c
     then drawAll font pre fuel d
     else (drawAll font (pre ++ [c]);; renderText font post) fuel d)
  /\ renderText font (pre ++ [c]) fuel d
     = (if width <? cursor + sumAdvance font pre + glyphAdvance font c
        then drawAll font pre fuel d
        else drawAll font (pre ++ [c]) fuel d).
Proof.
  intros Ha Hf Hp H0 HW Hfit.
  rewrite forallb_app in Hp. apply andb_true_iff in Hp as [Hp Hc].
  apply forallb_cons_printable in Hc as [Hc _].
  destruct (fontOk_glyph font c Hf Hc) as (g & Hg & Hok).
  pose proof (glyphOk_advance g Hok) as Hadv.
  pose proof (sumAdvance_range font pre Hf Hp) as Hsum.
  assert (Hreach : glyphAdvance font c = Glyph.advance g)
    by (unfold glyphAdvance; rewrite Hg; reflexivity).
  rewrite Hreach.
  assert (Hgen : forall rest,
    renderText font (pre ++ c :: rest) fuel d
    = if width <? cursor + sumAdvance font pre + Glyph.advance g
      then drawAll font pre fuel d
      else (drawAll font (pre ++ [c]);; renderText font rest) fuel d).
  { intros rest.
    rewrite (renderText_app_fits font pre (c :: rest) fuel _ _ _ d Hf Hp Ha H0 Hfit HW).
    unfold mbind, Run_bind. rewrite drawAll_app. unfold mbind, Run_bind.
    pose proof (drawAll_area font pre fuel _ _ _ d Hf Hp Ha H0 ltac:(lia)) as Hd'.
    destruct (drawAll font pre fuel d) as [[] d'| |].
    - rewrite (renderText_cons font c rest fuel d' g Hg), drawAll_cons. cbv zeta.
      destruct Hd' as (HaW & Hafg & Hacur). rewrite HaW, Hafg, Hacur.
      destruct (Z.ltb_spec width (cursor + sumAdvance font pre + Glyph.advance g));
        [reflexivity|].
      pose proof (renderChar_returns font width (cursor + sumAdvance font pre) baseline c
                    foreground g (panel d') Hg fuel d' eq_refl) as Hr.
      destruct (renderChar font width (cursor + sumAdvance font pre) baseline c
                  foreground fuel d') as [adv d1| |];
        [|reflexivity|reflexivity].
      destruct Hr as [-> _]. reflexivity.
    - destruct (width <? cursor + sumAdvance font pre + Glyph.advance g); reflexivity.
    - destruct (width <? cursor + sumAdvance font pre + Glyph.advance g); reflexivity. }
  split; [apply Hgen|].
  rewrite Hgen.
  destruct (width <? cursor + sumAdvance font pre + Glyph.advance g); [reflexivity|].
  apply (bind_unit_ret (drawAll font (pre ++ [c]))).
Qed.

Lemma renderText_stops_at_first_overflow_witness :
  renderText (demoFont 6) ([97; 98] ++ [99]) 5%nat (demoDisplay 18 Left)
  = (if 18 <? 0 + sumAdvance (demoFont 6) [97; 98] + glyphAdvance (demoFont 6) 99
     then drawAll (demoFont 6) [97; 98] 5%nat (demoDisplay 18 Left)
     else drawAll (demoFont 6) ([97; 98] ++ [99]) 5%nat (demoDisplay 18 Left)).
Proof.
  refine (proj2 (renderText_stops_at_first_overflow (demoFont 6) [97; 98] 99 []
                   5%nat (demoDisplay 18 Left) 18 65535 0 _ _ _ _ _ _)).
  - repeat split.
  - reflexivity.
  - reflexivity.
  - lia.
  - lia.
  - vm_compute. discriminate.
Defined.

(** At the boundary, 0 + 6 + 6 + 6 = 18, the three glyphs are drawn. *)
Example renderText_at_boundary :
  renderText (demoFont 6) abc 5%nat (demoDisplay 18 Left)
  = drawAll (demoFont 6) abc 5%nat (demoDisplay 18 Left).
Proof. vm_compute. reflexivity. Qed.

(** One unit less of area width and the third glyph is dropped. *)
Example renderText_one_unit_short :
  renderText (demoFont 6) abc 5%nat (demoDisplay 17 Left)
  = drawAll (demoFont 6) [97; 98] 5%nat (demoDisplay 17 Left).
Proof. vm_compute. reflexivity. Qed.

(** ** drawChar and print *)

Lemma keeps_setBusy P b : busyFree P -> keeps P (setBusy b).
Proof. intros HP. apply keeps_modify. intros d Hd. apply HP, Hd. Qed.

#[global] Hint Resolve keeps_setBusy : keeps.

Lemma keeps_loop P : panelFree P -> busyFree P -> keeps P loop.
Proof. intros HP HB. unfold loop. keeps_auto. Qed.

#[global] Hint Resolve keeps_loop : keeps.

(** The wait loop returns only with [_busy] cleared, whatever else is
    known of the state. *)
Lemma waitIdle_returns_idle P :
  keeps P loop -> triple P waitIdle (fun _ d => P d /\ _busy d = false) P.
Proof.
  intros Hloop. unfold waitIdle. apply (triple_iter (fun _ => P)); [|auto].
  intros []. eapply triple_bind.
  - apply (triple_get P (fun d s => s = d /\ P s)). auto.
  - intros d. destruct (_busy d) eqn:Hb.
    + eapply triple_bind with (Q1 := fun _ => P).
      * apply triple_ret. intros s [_ Hs]. exact Hs.
      * intros ?. eapply triple_bind; [apply Hloop|].
        intros ?. apply triple_ret. auto.
    + apply triple_ret. intros s [-> Hs]. split; assumption.
Qed.

Lemma keeps_waitIdle P : panelFree P -> busyFree P -> keeps P waitIdle.
Proof.
  intros HP HB. eapply triple_weaken;
    [apply (waitIdle_returns_idle P); auto with keeps | auto | | auto].
  intros ? s [Hs _]. exact Hs.
Qed.

#[global] Hint Resolve keeps_waitIdle : keeps.

Lemma keeps_prepareWrite P : panelFree P -> busyFree P -> keeps P prepareWrite.
Proof. intros HP HB. unfold prepareWrite. keeps_auto. Qed.

#[global] Hint Resolve keeps_prepareWrite : keeps.

Section Flush.
Context {ctl : Controller}.

Lemma keeps_flushBuffer P : panelFree P -> busyFree P -> keeps P flushBuffer.
Proof. intros HP HB. unfold flushBuffer. keeps_auto. Qed.

End Flush.

#[global] Hint Resolve keeps_flushBuffer : keeps.

Lemma panelFree_bufferIs' b : panelFree (bufferIs b).
Proof. intros p d Hd. exact Hd. Qed.

Lemma busyFree_bufferIs b : busyFree (bufferIs b).
Proof. intros x d Hd. exact Hd. Qed.

#[global] Hint Resolve panelFree_bufferIs' busyFree_bufferIs : keeps.

Lemma keeps_onPanel_lift {A} (Pp : Panel -> Prop) (P : Display -> Prop) (m : Run Panel A) :
  (forall d, P d -> Pp (panel d)) ->
  (forall p d, P d -> Pp p -> P (with_panel p d)) ->
  keeps Pp m -> keeps P (onPanel m).
Proof.
  intros H1 H2 Hm fuel d Hd. specialize (Hm fuel (panel d) (H1 d Hd)).
  unfold onPanel. destruct (m fuel (panel d)); simpl in *; auto.
Qed.

Lemma keeps_isBusy_area a : keeps (fun p => _area p = a) isBusy.
Proof. intros fuel p Hp. exact Hp. Qed.

Lemma keeps_emit_area a e : keeps (fun p => _area p = a) (emit e).
Proof. apply keeps_modify. intros p Hp. exact Hp. Qed.

#[global] Hint Resolve keeps_isBusy_area keeps_emit_area : keeps.

Lemma keeps_finishWrite_area a : keeps (fun p => _area p = a) finishWrite.
Proof. unfold finishWrite, spiWait. keeps_auto. Qed.

Lemma keeps_loop_area a : keeps (areaOf a) loop.
Proof.
  unfold loop.
  assert (Hlift : forall A (m : Run Panel A),
             keeps (fun p => _area p = a) m -> keeps (areaOf a) (onPanel m)).
  { intros A m. apply keeps_onPanel_lift; unfold areaOf; auto. }
  assert (Hbusy : busyFree (areaOf a)) by (intros b d Hd; exact Hd).
  pose proof (Hlift _ _ (keeps_isBusy_area a)).
  pose proof (Hlift _ _ (keeps_finishWrite_area a)).
  keeps_auto.
Qed.

Lemma waitIdle_area a fuel d d0 :
  _area (panel d) = a -> waitIdle fuel d = Ok tt d0 ->
  _area (panel d0) = a /\ _busy d0 = false /\ exists n, fuel = S n.
Proof.
  intros Ha Hw.
  pose proof (waitIdle_returns_idle (areaOf a) (keeps_loop_area a) fuel d Ha) as Hp.
  rewrite Hw in Hp. destruct Hp as [Ha0 Hb]. repeat split; try assumption.
  destruct fuel as [|n]; [discriminate | eauto].
Qed.

Lemma placeCursor_same c d : Area.cursor (_area (panel d)) = c -> placeCursor c d = d.
Proof.
  destruct d as [[hw px [j x r w fg bg cur] spi] busy buf rc]. simpl.
  intros ->. reflexivity.
Qed.

(** A successful run of [m] from [P], when [m] keeps [P], ends in [P]. *)
Lemma keeps_Ok {A} (P : Display -> Prop) (m : Run Display A) fuel d :
  keeps P m -> P d -> forall a d', m fuel d = Ok a d' -> P d'.
Proof. intros Hm Hd a d' Hr. specialize (Hm fuel d Hd). rewrite Hr in Hm. exact Hm. Qed.

Lemma panelFree_notBusy : panelFree notBusy.
Proof. intros p d Hd. exact Hd. Qed.

Lemma storeFree_notBusy : storeFree notBusy.
Proof. intros i v d Hd. exact Hd. Qed.

Lemma storeFree_areaOf a : storeFree (areaOf a).
Proof. intros i v d Hd. exact Hd. Qed.

#[global] Hint Resolve panelFree_notBusy storeFree_notBusy storeFree_areaOf : keeps.

Lemma strlen_printable s : forallb printable s = true -> strlen s = Z.of_nat (length s).
Proof.
  induction s as [|c s IH]; [reflexivity|]. intros Hs.
  apply forallb_cons_printable in Hs as [Hc Hs]. apply printable_range in Hc.
  simpl strlen. rewrite uint8_small by lia.
  destruct (Z.eqb_spec c 0); [lia|]. rewrite IH by exact Hs. simpl length. lia.
Qed.

Lemma run_bind {S A B} (m : Run S A) (k : A -> Run S B) fuel s :
  (m ≫= k) fuel s
  = match m fuel s with
    | Ok a s' => k a fuel s'
    | Undefined f s' => Undefined f s'
    | Blocked s' => Blocked s'
    end.
Proof. reflexivity. Qed.

Section DrawPrint.
Context {ctl : Controller} {fonts : Fonts}.

Lemma drawChar_after_wait c fuel d d0 :
  waitIdle fuel d = Ok tt d0 -> _busy d0 = false ->
  drawChar c fuel d = drawChar c fuel d0.
Proof.
  intros Hw Hb. destruct fuel as [|n]; [discriminate|].
  unfold drawChar. rewrite !(run_bind waitIdle).
  rewrite Hw, (waitIdle_not_busy n d0 Hb). reflexivity.
Qed.

Lemma print_after_wait s fuel d d0 :
  waitIdle fuel d = Ok tt d0 -> _busy d0 = false ->
  print s fuel d = print s fuel d0.
Proof.
  intros Hw Hb. destruct fuel as [|n]; [discriminate|].
  unfold print. rewrite !(run_bind waitIdle).
  rewrite Hw, (waitIdle_not_busy n d0 Hb). reflexivity.
Qed.

(** With no transfer pending and the cursor past 0, drawChar draws its
    glyph at the cursor and moves on. *)
Lemma drawChar_moved c n d :
  _busy d = false -> Area.cursor (_area (panel d)) <> 0 ->
  drawChar c (S n) d = drawAll fontDefault [c] (S n) d.
Proof.
  intros Hb Hc. rewrite drawAll_cons. unfold drawChar, mbind, Run_bind.
  rewrite (waitIdle_not_busy n d Hb). unfold get. cbv beta iota zeta.
  destruct (Z.eqb_spec (Area.cursor (_area (panel d))) 0); [contradiction|].
  unfold mret, Run_ret. cbv beta iota.
  destruct (renderChar _ _ _ _ _ _ (S n) d); reflexivity.
Qed.

(** With the cursor at 0 it first clears the buffer. *)
Lemma drawChar_first c n d :
  _busy d = false -> Area.cursor (_area (panel d)) = 0 ->
  drawChar c (S n) d = (initializeBuffer;; drawAll fontDefault [c]) (S n) d.
Proof.
  intros Hb Hc. unfold drawChar, mbind, Run_bind.
  rewrite (waitIdle_not_busy n d Hb). unfold get. cbv beta iota zeta.
  rewrite Hc. change (0 =? 0) with true. cbv beta iota.
  destruct (initializeBuffer (S n) d) as [[] dI| |]; [|reflexivity|reflexivity].
  rewrite drawAll_cons. cbv zeta.
  destruct (renderChar _ _ _ _ _ _ (S n) dI); reflexivity.
Qed.

(** Three characters drawn one by one, from an idle display with the
    cursor at 0: the buffer is cleared once and the three glyphs are
    drawn in a row, provided the first advance is not 0. *)
Lemma drawChar_three_times c1 c2 c3 n d W fg :
  fontOk fontDefault = true ->
  forallb printable [c1; c2; c3] = true ->
  glyphAdvance fontDefault c1 <> 0 ->
  _busy d = false ->
  areaIs W fg 0 d ->
  sumAdvance fontDefault [c1; c2; c3] < 65536 ->
  (drawChar c1;; drawChar c2;; drawChar c3) (S n) d
  = (initializeBuffer;; drawAll fontDefault [c1; c2; c3]) (S n) d.
Proof.
  intros Hf Hp Hadv Hb Ha Hsum.
  pose proof Hp as Hp'.
  apply forallb_cons_printable in Hp' as [Hp1 Hp'].
  apply forallb_cons_printable in Hp' as [Hp2 Hp'].
  apply forallb_cons_printable in Hp' as [Hp3 _].
  pose proof (glyphAdvance_range _ _ Hf Hp1) as Hr1.
  pose proof (glyphAdvance_range _ _ Hf Hp2) as Hr2.
  pose proof (glyphAdvance_range _ _ Hf Hp3) as Hr3.
  simpl sumAdvance in Hsum.
  rewrite (run_bind (drawChar c1)).
  rewrite drawChar_first by (try exact Hb; apply Ha).
  rewrite !(run_bind initializeBuffer).
  pose proof (keeps_Ok notBusy initializeBuffer (S n) d
                (keeps_initializeBuffer _ storeFree_notBusy) Hb) as HbI.
  pose proof (keeps_Ok (fun s => panel s = panel d) initializeBuffer (S n) d
                (keeps_initializeBuffer _ (storeFree_panelIs _)) eq_refl) as HpI.
  destruct (initializeBuffer (S n) d) as [[] dI| |]; [|reflexivity|reflexivity].
  specialize (HbI tt dI eq_refl). specialize (HpI tt dI eq_refl).
  assert (HaI : areaIs W fg 0 dI) by (unfold areaIs in *; rewrite HpI; exact Ha).
  change [c1; c2; c3] with ([c1] ++ [c2; c3]). rewrite drawAll_app.
  rewrite (run_bind (drawAll fontDefault [c1])).
  pose proof (drawAll_area fontDefault [c1] (S n) W fg 0 dI Hf
                ltac:(simpl; rewrite Hp1; reflexivity) HaI ltac:(lia)
                ltac:(simpl; lia)) as Ha1.
  pose proof (keeps_Ok notBusy (drawAll fontDefault [c1]) (S n) dI
                (keeps_drawAll _ _ _ panelFree_notBusy storeFree_notBusy) HbI) as Hb1.
  destruct (drawAll fontDefault [c1] (S n) dI) as [[] d1| |]; [|reflexivity|reflexivity].
  specialize (Hb1 tt d1 eq_refl). simpl sumAdvance in Ha1.
  rewrite (run_bind (drawChar c2)).
  rewrite drawChar_moved by (try exact Hb1; destruct Ha1 as (_ & _ & ->); lia).
  change [c2; c3] with ([c2] ++ [c3]). rewrite drawAll_app.
  rewrite (run_bind (drawAll fontDefault [c2])).
  pose proof (drawAll_area fontDefault [c2] (S n) W fg _ d1 Hf
                ltac:(simpl; rewrite Hp2; reflexivity) Ha1 ltac:(lia)
                ltac:(simpl; lia)) as Ha2.
  pose proof (keeps_Ok notBusy (drawAll fontDefault [c2]) (S n) d1
                (keeps_drawAll _ _ _ panelFree_notBusy storeFree_notBusy) Hb1) as Hb2.
  destruct (drawAll fontDefault [c2] (S n) d1) as [[] d2| |]; [|reflexivity|reflexivity].
  specialize (Hb2 tt d2 eq_refl). simpl sumAdvance in Ha2.
  apply drawChar_moved; [exact Hb2|]. destruct Ha2 as (_ & _ & ->). lia.
Qed.

Lemma selectFont_fits s len W wd td :
  getTextWidth s len fontDefault = Val (wd, td) -> wd <= W ->
  selectFont s len W
  = Val {| font := Default; text := td; textWidth := wd; tried := [Default] |}.
Proof.
  intros Hd Hfit. unfold selectFont. rewrite Hd. simpl.
  destruct (Z.ltb_spec W wd); [lia|]. simpl.
  destruct (Z.ltb_spec W wd); [lia | reflexivity].
Qed.

Lemma print_three_fitting c1 c2 c3 n d W fg :
  fontOk fontDefault = true ->
  forallb printable [c1; c2; c3] = true ->
  c3 <> 32 ->
  _busy d = false ->
  areaIs W fg 0 d ->
  Area.justify (_area (panel d)) = Left ->
  W < 65536 ->
  sumAdvance fontDefault [c1; c2; c3] <= W ->
  print (Some [c1; c2; c3]) (S n) d
  = (initializeBuffer;; drawAll fontDefault [c1; c2; c3];; setCursor 0;; flushBuffer) (S n) d.
Proof.
  intros Hf Hp Hc3 Hb Ha Hj HW Hsum.
  pose proof Hp as Hp'.
  apply forallb_cons_printable in Hp' as [Hp1 Hp'].
  apply forallb_cons_printable in Hp' as [Hp2 Hp'].
  apply forallb_cons_printable in Hp' as [Hp3 _].
  apply printable_range in Hp3.
  unfold print. rewrite (run_bind waitIdle), (waitIdle_not_busy n d Hb).
  rewrite (strlen_printable _ Hp). change (uint8 (Z.of_nat (length [c1; c2; c3]))) with 3.
  cbv beta iota. change (3 =? 0) with false. change (32 <? 3) with false. cbv iota.
  rewrite (run_bind (stripTrailing _ _)).
  assert (Hstrip : stripTrailing [c1; c2; c3] 3 (S n) d = Ok 3 d).
  { unfold stripTrailing, iter. simpl iter_. rewrite !run_bind.
    change (char_at [c1; c2; c3] (3 - 1)) with (Val (A:=Z) (uint8 c3)).
    rewrite uint8_small by lia. simpl. unfold stripNext.
    destruct (Z.eqb_spec c3 32); [contradiction | reflexivity]. }
  rewrite Hstrip.
  rewrite (run_bind get). unfold get at 1. cbv beta iota.
  destruct Ha as (HaW & Hafg & Hacur). rewrite HaW.
  assert (Hsel : selectFont [c1; c2; c3] 3 W
                 = Val {| font := Default; text := [c1; c2; c3];
                          textWidth := sumAdvance fontDefault [c1; c2; c3];
                          tried := [Default] |}).
  { apply selectFont_fits; [|exact Hsum].
    apply (getTextWidth_printable fontDefault [c1; c2; c3] 3 Hf Hp). lia. }
  rewrite Hsel. rewrite (run_bind (check _)). simpl check. cbv beta iota.
  unfold printLayout. rewrite (run_bind get). unfold get at 1. cbv beta iota zeta.
  rewrite Hj. change (startCursor Left _ _) with 0.
  rewrite (run_bind (setCursor 0)). unfold setCursor at 1. unfold modify.
  rewrite (placeCursor_same 0 d Hacur).
  unfold paint. simpl fontOf. simpl text.
  rewrite !(run_bind initializeBuffer).
  pose proof (keeps_Ok (fun s => panel s = panel d) initializeBuffer (S n) d
                (keeps_initializeBuffer _ (storeFree_panelIs _)) eq_refl) as HpI.
  destruct (initializeBuffer (S n) d) as [[] dI| |]; [|reflexivity|reflexivity].
  specialize (HpI tt dI eq_refl).
  assert (HaI : areaIs W fg 0 dI) by (unfold areaIs; rewrite HpI; auto).
  rewrite (run_bind (renderText _ _)), (run_bind (drawAll _ _)).
  pose proof (renderText_app_fits fontDefault [c1; c2; c3] [] (S n) W fg 0 dI Hf Hp HaI
                ltac:(lia) ltac:(lia) HW) as Hrt.
  rewrite app_nil_r in Hrt. rewrite Hrt.
  destruct (drawAll fontDefault [c1; c2; c3] (S n) dI) as [[] d3| |]; reflexivity.
Qed.
End DrawPrint.




(** print never hands a trailing space to the renderer: "ab " is
    printed as "ab" is. *)
Example print_strips_trailing_space :
  print (ctl := ST7789.controller) (fonts := demoFonts) (Some [97; 98; 32]) 5%nat
        (demoDisplay 20 Left)
  = print (ctl := ST7789.controller) (fonts := demoFonts) (Some [97; 98]) 5%nat
          (demoDisplay 20 Left).
Proof. vm_compute. reflexivity. Qed.

(** ** Runs that return *)

Section Returns.
Context {S : Type}.
Implicit Types (P : S -> Prop).

Lemma returns_ret {A} N P (a : A) (Q : A -> S -> Prop) :
  (forall s, P s -> Q a s) -> returns N P (mret a) Q.
Proof. intros HQ fuel s _ Hs. exists a, s. split; [reflexivity | auto]. Qed.

Lemma returns_bind {A B} N P (m : Run S A) (k : A -> Run S B) Q1 (Q : B -> S -> Prop) :
  returns N P m Q1 -> (forall a, returns N (Q1 a) (k a) Q) -> returns N P (m ≫= k) Q.
Proof.
  intros Hm Hk fuel s Hfuel Hs.
  destruct (Hm fuel s Hfuel Hs) as (a & s' & Hr & Ha).
  destruct (Hk a fuel s' Hfuel Ha) as (b & s'' & Hr' & Hb).
  exists b, s''. split; [|exact Hb]. rewrite run_bind, Hr. exact Hr'.
Qed.

Lemma returns_weaken {A} N N' P P' (m : Run S A) (Q Q' : A -> S -> Prop) :
  returns N' P' m Q' -> (N' <= N)%nat ->
  (forall s, P s -> P' s) -> (forall a s, Q' a s -> Q a s) ->
  returns N P m Q.
Proof.
  intros Hm HN HP HQ fuel s Hfuel Hs.
  destruct (Hm fuel s ltac:(lia) (HP s Hs)) as (a & s' & Hr & Ha). eauto.
Qed.

Lemma returns_assume {A} N (F : Prop) P (m : Run S A) Q :
  (F -> returns N P m Q) -> returns N (fun s => F /\ P s) m Q.
Proof. intros Hm fuel s Hfuel [HF Hs]. apply Hm; assumption. Qed.

Lemma returns_get N P (Q : S -> S -> Prop) :
  (forall s, P s -> Q s s) -> returns N P get Q.
Proof. intros HQ fuel s _ Hs. exists s, s. split; [reflexivity | auto]. Qed.

Lemma returns_modify N P (f : S -> S) (Q : unit -> S -> Prop) :
  (forall s, P s -> Q tt (f s)) -> returns N P (modify f) Q.
Proof. intros HQ fuel s _ Hs. exists tt, (f s). split; [reflexivity | auto]. Qed.

Lemma returns_check {A} N P (a : A) (Q : A -> S -> Prop) :
  (forall s, P s -> Q a s) -> returns N P (check (Val a)) Q.
Proof. intros HQ fuel s _ Hs. exists a, s. split; [reflexivity | auto]. Qed.

(** A loop whose body returns and lowers a measure of the loop
    variable returns, given one unit of fuel more than the measure. *)
Lemma returns_iter_ {A B} N (I : A -> S -> Prop) (mu : A -> nat)
    (step : A -> Run S (A + B)) (Q : B -> S -> Prop) :
  (forall x, returns N (I x) (step x)
               (fun r s => match r with
                           | inl x' => I x' s /\ (mu x' < mu x)%nat
                           | inr b => Q b s
                           end)) ->
  forall n x fuel s, (mu x < n)%nat -> (N <= fuel)%nat -> I x s ->
  exists b s', iter_ n step x fuel s = Ok b s' /\ Q b s'.
Proof.
  intros Hstep. induction n as [|n IH]; intros x fuel s Hn Hfuel Hs; [lia|].
  simpl. rewrite run_bind.
  destruct (Hstep x fuel s Hfuel Hs) as ([x'|b] & s' & Hr & Hpost); rewrite Hr.
  - destruct Hpost as [Hx' Hmu]. apply IH; [lia | exact Hfuel | exact Hx'].
  - exists b, s'. split; [reflexivity | exact Hpost].
Qed.

Lemma returns_iter {A B} N (I : A -> S -> Prop) (mu : A -> nat)
    (step : A -> Run S (A + B)) (Q : B -> S -> Prop) x :
  (forall x, returns N (I x) (step x)
               (fun r s => match r with
                           | inl x' => I x' s /\ (mu x' < mu x)%nat
                           | inr b => Q b s
                           end)) ->
  returns (Nat.max N (Datatypes.S (mu x))) (I x) (iter step x) Q.
Proof.
  intros Hstep fuel s Hfuel Hs. unfold iter.
  apply (returns_iter_ N I mu step Q Hstep); [lia | lia | exact Hs].
Qed.

Lemma returns_forAcc {A} N (J : A -> S -> Prop) (body : Z -> A -> Run S A) (lo0 hi : Z) :
  (forall i a, lo0 <= i < hi -> returns N (J a) (body i a) (fun a' s => J a' s)) ->
  forall n lo a, lo0 <= lo -> lo + Z.of_nat n <= hi ->
  returns N (J a) (forAcc n lo body a) (fun a' s => J a' s).
Proof.
  intros Hbody. induction n as [|n IH]; intros lo a Hlo Hhi; simpl.
  - apply returns_ret. auto.
  - eapply returns_bind; [apply Hbody; lia|]. intros a'. apply IH; lia.
Qed.

Lemma returns_for N P (body : Z -> Run S unit) n :
  (forall i, 0 <= i < n -> returns N P (body i) (fun _ => P)) ->
  returns N P (for_ n body) (fun _ => P).
Proof.
  intros Hbody. unfold for_.
  apply (returns_forAcc N (fun _ => P) (fun i _ => body i) 0 (Z.max n 0)); [|lia|lia].
  intros i _ Hi. apply Hbody. lia.
Qed.

End Returns.

Lemma returns_isBusy_quiet : returns 0 quietBus isBusy (fun b p => b = false /\ quietBus p).
Proof.
  intros fuel p _ Hq. eexists _, _. split; [reflexivity|]. split; [apply Hq|].
  intros k. apply Hq.
Qed.

Lemma returns_emit_quiet N e : returns N quietBus (emit e) (fun _ => quietBus).
Proof. apply returns_modify. intros p Hq k. apply Hq. Qed.

Lemma returns_spiWait_quiet : returns 1 quietBus spiWait (fun _ => quietBus).
Proof.
  unfold spiWait. intros fuel p Hfuel Hq.
  apply (returns_iter 0 (fun _ => quietBus) (fun _ => 0%nat) _ (fun _ => quietBus) tt);
    [|simpl; lia|exact Hq].
  intros []. eapply returns_bind; [apply returns_isBusy_quiet|].
  intros b. apply returns_assume. intros ->. apply returns_ret. auto.
Qed.

Lemma returns_writeCommand_quiet command data len :
  uint8 len <= Z.of_nat (length data) ->
  returns 1 quietBus (writeCommand command data len) (fun _ => quietBus).
Proof.
  intros Hlen. unfold writeCommand.
  eapply returns_bind; [apply returns_spiWait_quiet|]. intros ?.
  do 3 (eapply returns_bind; [apply returns_emit_quiet|]; intros ?).
  apply returns_for. intros i Hi.
  destruct (data !! Z.to_nat i) as [b|] eqn:Eb.
  2:{ apply lookup_ge_None in Eb. lia. }
  assert (Hidx : index data i DataBounds = Val b) by (apply index_Val; split; [lia | exact Eb]).
  rewrite Hidx.
  eapply returns_bind; [apply returns_check; intros s Hs; exact Hs|]. intros ?.
  apply returns_emit_quiet.
Qed.

Lemma returns_ST7789_writeSetWindow x y width height :
  returns 1 quietBus (ST7789.writeSetWindow x y width height) (fun _ => quietBus).
Proof.
  unfold ST7789.writeSetWindow.
  eapply returns_bind; [apply (returns_get _ _ (fun _ => quietBus)); auto|]. intros p.
  eapply returns_bind; [apply returns_writeCommand_quiet; vm_compute; discriminate|].
  intros ?.
  eapply returns_bind; [apply returns_writeCommand_quiet; vm_compute; discriminate|].
  intros ?.
  apply returns_writeCommand_quiet; vm_compute; discriminate.
Qed.

Lemma panelFree_hw_length hw :
  panelFree (fun d => hardwareIs hw d
                      /\ Z.of_nat (length (_buffer d)) = Hardware.width hw * row_size).
Proof. intros p d Hd. exact Hd. Qed.

Lemma returns_onPanel_quiet {A} N (m : Run Panel A) (P : Display -> Prop) :
  panelFree P -> returns N quietBus m (fun _ => quietBus) ->
  returns N (fun d => quiet d /\ P d) (onPanel m) (fun _ d => quiet d /\ P d).
Proof.
  intros HP Hm fuel d Hfuel [Hq Hd].
  destruct (Hm fuel (panel d) Hfuel Hq) as (a & p' & Hr & Hq').
  exists a, (with_panel p' d). unfold onPanel. rewrite Hr.
  split; [reflexivity|]. split; [exact Hq' | apply HP, Hd].
Qed.

Lemma returns_onPanel_ready {A} N (m : Run Panel A) hw :
  returns N quietBus m (fun _ => quietBus) ->
  returns N (ready hw) (onPanel m) (fun _ => ready hw).
Proof.
  intros Hm. apply (returns_onPanel_quiet N m _ (panelFree_hw_length hw) Hm).
Qed.

Lemma returns_store_ready N hw i v :
  0 <= i < Hardware.width hw * row_size ->
  returns N (ready hw) (store i v) (fun _ => ready hw).
Proof.
  intros Hi fuel d _ (Hq & Hhw & Hlen). unfold store.
  destruct (Z.leb_spec 0 i); [|lia].
  destruct (Z.ltb_spec i (Z.of_nat (length (_buffer d)))); [|lia]. simpl.
  eexists _, _. split; [reflexivity|]. repeat split; try assumption.
  simpl. rewrite length_insert. exact Hlen.
Qed.

Lemma bufferByte_in_range (b : list Z) i :
  0 <= i < 2 * Z.of_nat (length b) -> exists x, bufferByte b i = Val x.
Proof.
  intros Hi. unfold bufferByte.
  assert (Hq : 0 <= Z.quot i 2 < Z.of_nat (length b)).
  { rewrite Z.quot_div_nonneg by lia. split; [apply Z.div_pos; lia|].
    apply Z.div_lt_upper_bound; lia. }
  destruct (b !! Z.to_nat (Z.quot i 2)) as [w|] eqn:Ew.
  2:{ apply lookup_ge_None in Ew. lia. }
  assert (Hidx : index b (Z.quot i 2) BufferBounds = Val w)
    by (apply index_Val; split; [lia | exact Ew]).
  rewrite Hidx. simpl. eauto.
Qed.

Lemma returns_write_ready hw len :
  uint16 len <= 2 * (Hardware.width hw * row_size) ->
  returns 1 (ready hw) (write len) (fun _ => ready hw).
Proof.
  intros Hlen. unfold write.
  eapply returns_bind; [apply returns_onPanel_ready, returns_spiWait_quiet|]. intros ?.
  apply returns_for. intros i Hi.
  eapply returns_bind.
  { apply (returns_get _ _ (fun d s => ready hw d /\ ready hw s)). auto. }
  intros d. apply returns_assume. intros (_ & _ & Hl).
  destruct (bufferByte_in_range (_buffer d) i ltac:(lia)) as (x & Hx). rewrite Hx.
  eapply returns_bind; [apply returns_check; intros s Hs; exact Hs|]. intros ?.
  apply returns_onPanel_ready, returns_emit_quiet.
Qed.

Lemma returns_fillPattern_ready hw len color :
  0 <= len <= Hardware.width hw * row_size ->
  Hardware.width hw * row_size <= 65535 ->
  returns (Datatypes.S (Z.to_nat len)) (ready hw) (fillPattern len color) (fun _ => ready hw).
Proof.
  intros Hlen Hcap fuel d Hfuel Hd. unfold fillPattern.
  apply (returns_iter 0 (fun i d => 0 <= i <= len /\ ready hw d)
           (fun i => Z.to_nat (len - i)) _ (fun _ => ready hw) 0); [|lia|split; [lia|exact Hd]].
  intros i. apply returns_assume. intros Hi.
  destruct (Z.ltb_spec i len).
  - eapply returns_bind; [apply returns_store_ready; lia|]. intros ?.
    apply returns_ret. intros s Hs. rewrite uint16_small by lia.
    split; [split; [lia | exact Hs] | lia].
  - apply returns_ret. auto.
Qed.

Lemma returns_writeBursts_ready hw n_pixels len :
  0 <= n_pixels < 4294967296 ->
  1 <= len <= Hardware.width hw * row_size ->
  Hardware.width hw * row_size <= 65535 ->
  returns (Datatypes.S (Z.to_nat n_pixels)) (ready hw) (writeBursts n_pixels len)
          (fun _ => ready hw).
Proof.
  intros Hn Hlen Hcap fuel d Hfuel Hd. unfold writeBursts.
  apply (returns_iter 1 (fun n d => 0 <= n <= n_pixels /\ ready hw d)
           (fun n => Z.to_nat n) _ (fun _ => ready hw) n_pixels);
    [|lia|split; [lia|exact Hd]].
  intros n. apply returns_assume. intros Hn'.
  destruct (Z.ltb_spec 0 n).
  - assert (Hmin : 1 <= min n len <= len).
    { unfold min. destruct (Z.ltb_spec n len); lia. }
    assert (Hmin' : min n len <= n).
    { unfold min. destruct (Z.ltb_spec n len); lia. }
    rewrite (uint16_small (min n len)) by lia.
    eapply returns_bind.
    + apply returns_write_ready.
      pose proof (uint16_range (uint32 (min n len * 2))).
      assert (uint32 (min n len * 2) = min n len * 2)
        by (unfold uint32; apply Z.mod_small; lia).
      assert (uint16 (min n len * 2) <= min n len * 2)
        by (unfold uint16; apply Z.mod_le; lia).
      rewrite H1. lia.
    + intros ?. apply returns_ret. intros s Hs.
      assert (uint32 (n - min n len) = n - min n len)
        by (unfold uint32; apply Z.mod_small; lia).
      rewrite H0. split; [split; [lia | exact Hs] | lia].
  - apply returns_ret. auto.
Qed.

(** With the ST7789 hooks, a bus that is never busy and a buffer of
    1 to 65535 cells as begin allocates it, writeFillRectangle returns
    when given more fuel than there are pixels to send. *)
Lemma writeFillRectangle_returns hw x y width height color :
  1 <= Hardware.width hw * row_size <= 65535 ->
  uint16 width * uint16 height <= INT_MAX ->
  returns (Datatypes.S (Datatypes.S (Z.to_nat (uint16 width * uint16 height)))) (ready hw)
          (writeFillRectangle (ctl := ST7789.controller) x y width height color)
          (fun _ => ready hw).
Proof.
  intros Hcap Hmul. unfold writeFillRectangle.
  pose proof (uint16_range width). pose proof (uint16_range height).
  assert (Hn : 0 <= uint16 width * uint16 height) by nia.
  assert (Hu : uint32 (uint16 width * uint16 height) = uint16 width * uint16 height)
    by (unfold uint32, INT_MAX in *; apply Z.mod_small; lia).
  eapply returns_bind.
  { eapply returns_weaken;
      [apply (returns_onPanel_ready _ _ hw), (returns_ST7789_writeSetWindow _ _ _ _)
      | lia | auto | ].
    intros ? s Hs. exact Hs. }
  intros ?. eapply returns_bind.
  { apply (returns_get _ _ (fun d s => ready hw d /\ ready hw s)). auto. }
  intros d. apply returns_assume. intros (_ & Hhw & _). unfold hardwareIs in Hhw.
  rewrite Hhw, Hu.
  destruct (Z.ltb_spec INT_MAX (uint16 width * uint16 height)); [lia|].
  assert (Hmin : 0 <= min (uint16 width * uint16 height) (Hardware.width hw * row_size)
                 <= Hardware.width hw * row_size).
  { unfold min. destruct (Z.ltb_spec (uint16 width * uint16 height)
                            (Hardware.width hw * row_size)); lia. }
  assert (Hmin' : min (uint16 width * uint16 height) (Hardware.width hw * row_size)
                  <= uint16 width * uint16 height).
  { unfold min. destruct (Z.ltb_spec (uint16 width * uint16 height)
                            (Hardware.width hw * row_size)); lia. }
  eapply returns_bind.
  { eapply returns_weaken; [apply (returns_fillPattern_ready hw); lia | lia | auto | ].
    intros ? s Hs. exact Hs. }
  intros ?.
  destruct (Z.eq_dec (uint16 width * uint16 height) 0) as [Hz|Hnz].
  - rewrite Hz. intros fuel s Hfuel Hs. exists tt, s. split; [|exact Hs].
    destruct fuel as [|fuel]; [lia|]. reflexivity.
  - eapply returns_weaken; [apply (returns_writeBursts_ready hw) | | auto | ].
    + unfold INT_MAX in *. lia.
    + unfold min in *. destruct (Z.ltb_spec (uint16 width * uint16 height)
                                   (Hardware.width hw * row_size)); lia.
    + lia.
    + lia.
    + intros ? s Hs. exact Hs.
Qed.

(** Both runs of C8 exist: from such a state the function returns, and
    returns again from the state it left. *)
Lemma writeFillRectangle_twice_returns hw x y width height color d :
  ready hw d ->
  1 <= Hardware.width hw * row_size <= 65535 ->
  uint16 width * uint16 height <= INT_MAX ->
  exists fuel d1 d2,
    writeFillRectangle (ctl := ST7789.controller) x y width height color fuel d = Ok tt d1
    /\ writeFillRectangle (ctl := ST7789.controller) x y width height color fuel d1 = Ok tt d2
    /\ _buffer d2 = _buffer d1.
Proof.
  intros Hd Hcap Hmul.
  set (fuel := Datatypes.S (Datatypes.S (Z.to_nat (uint16 width * uint16 height)))).
  destruct (writeFillRectangle_returns hw x y width height color Hcap Hmul fuel d
              (le_n _) Hd) as ([] & d1 & Hr1 & Hd1).
  destruct (writeFillRectangle_returns hw x y width height color Hcap Hmul fuel d1
              (le_n _) Hd1) as ([] & d2 & Hr2 & Hd2).
  exists fuel, d1, d2. split; [exact Hr1|]. split; [exact Hr2|].
  pose proof (writeFillRectangle_fills (ctl := ST7789.controller) (_hardware (panel d))
                x y width height color fuel d eq_refl) as H1.
  rewrite Hr1 in H1. destruct H1 as [Hhw Hf].
  pose proof (writeFillRectangle_again (ctl := ST7789.controller) (_hardware (panel d))
                (_buffer d1) x y width height color Hf fuel d1 (conj Hhw eq_refl)) as H2.
  rewrite Hr2 in H2. apply H2.
Qed.

(** * Further properties *)

(** ** getTextWidth: what it reads, measures and keeps *)

Lemma char_at_app_l s t i : 0 <= i < Z.of_nat (length s) -> char_at (s ++ t) i = char_at s i.
Proof.
  intros Hi. unfold char_at. rewrite length_app.
  destruct (Z.leb_spec 0 i); [|lia].
  destruct (Z.ltb_spec i (Z.of_nat (length s + length t)%nat)); [|lia].
  destruct (Z.ltb_spec i (Z.of_nat (length s))); [|lia]. simpl.
  rewrite app_nth1 by lia. reflexivity.
Qed.

Lemma char_at_in s i : 0 <= i < Z.of_nat (length s) ->
  char_at s i = Val (uint8 (nth (Z.to_nat i) s 0)).
Proof.
  intros Hi. unfold char_at.
  destruct (Z.leb_spec 0 i); [|lia].
  destruct (Z.ltb_spec i (Z.of_nat (length s))); [|lia]. reflexivity.
Qed.

(** getTextWidth reads [s[i]] for the indices from [i] on only. *)
Lemma getTextWidth_from_ext f n : forall s t i w rep text,
  (forall j, i <= j < i + Z.of_nat n -> char_at s j = char_at t j) ->
  getTextWidth_from n s f i w rep text = getTextWidth_from n t f i w rep text.
Proof.
  induction n as [|n IH]; intros s t i w rep text Hag; [reflexivity|].
  simpl. rewrite (Hag i) by lia.
  assert (Hnext : forall w rep text,
            getTextWidth_from n s f (i + 1) w rep text
            = getTextWidth_from n t f (i + 1) w rep text).
  { intros. apply IH. intros j Hj. apply Hag. lia. }
  destruct (char_at t i) as [c|e]; simpl; [|reflexivity].
  destruct (c =? 0); [reflexivity|].
  destruct (c <? 20); [apply Hnext|].
  destruct (127 <? c).
  - destruct rep; apply Hnext.
  - destruct (pushText text c); simpl; [|reflexivity].
    destruct (getGlyph f c); simpl; [apply Hnext | reflexivity].
Qed.

Lemma getTextWidth_ext f s t len :
  (forall j, 0 <= j < uint8 len -> char_at s j = char_at t j) ->
  getTextWidth s len f = getTextWidth t len f.
Proof.
  intros Hag. unfold getTextWidth. apply getTextWidth_from_ext.
  intros j Hj. apply Hag. pose proof (uint8_range len). lia.
Qed.

Lemma getTextWidth_from_terminated f n : forall s rest i w rep text,
  0 <= i <= Z.of_nat (length s) ->
  getTextWidth_from n (s ++ 0 :: rest) f i w rep text = getTextWidth_from n s f i w rep text.
Proof.
  induction n as [|n IH]; intros s rest i w rep text Hi; [reflexivity|].
  simpl. destruct (Z.eq_dec i (Z.of_nat (length s))) as [->|Hne].
  - rewrite char_at_app, char_at_end. reflexivity.
  - rewrite char_at_app_l by lia.
    assert (Hnext : forall w rep text,
              getTextWidth_from n (s ++ 0 :: rest) f (i + 1) w rep text
              = getTextWidth_from n s f (i + 1) w rep text).
    { intros. apply IH. lia. }
    destruct (char_at s i) as [c|e]; simpl; [|reflexivity].
    destruct (c =? 0); [reflexivity|].
    destruct (c <? 20); [apply Hnext|].
    destruct (127 <? c).
    + destruct rep; apply Hnext.
    + destruct (pushText text c); simpl; [|reflexivity].
      destruct (getGlyph f c); simpl; [apply Hnext | reflexivity].
Qed.

Lemma getTextWidth_from_in_string f n : forall s i w rep text e,
  0 <= i <= Z.of_nat (length s) ->
  getTextWidth_from n s f i w rep text <> Bad (StringBounds e).
Proof.
  induction n as [|n IH]; intros s i w rep text e Hi; [discriminate|].
  simpl. destruct (Z.eq_dec i (Z.of_nat (length s))) as [->|Hne].
  - rewrite char_at_end. discriminate.
  - rewrite char_at_in by lia. simpl.
    assert (Hnext : forall w rep text,
              getTextWidth_from n s f (i + 1) w rep text <> Bad (StringBounds e)).
    { intros. apply IH. lia. }
    destruct (_ =? 0); [discriminate|].
    destruct (_ <? 20); [apply Hnext|].
    destruct (127 <? _).
    + destruct rep; apply Hnext.
    + unfold pushText. destruct (_ <? 32); simpl; [|discriminate].
      unfold getGlyph, index. destruct (0 <=? _); simpl; [|discriminate].
      destruct (_ !! _); simpl; [apply Hnext | discriminate].
Qed.

(** X1. getTextWidth stops at the terminator: whatever [len] is, the
    bytes after a NUL are neither read nor measured, and no read is made
    outside the string and its terminator. *)
Theorem getTextWidth_stops_at_terminator (f : Font) (s rest : list Z) (len : Z) :
  getTextWidth (s ++ 0 :: rest) len f = getTextWidth s len f
  /\ forall i, getTextWidth s len f <> Bad (StringBounds i).
Proof.
  split.
  - unfold getTextWidth. apply getTextWidth_from_terminated. lia.
  - intros i. unfold getTextWidth. apply getTextWidth_from_in_string. lia.
Qed.

Lemma sumAdvance_cons f c s : sumAdvance f (c :: s) = glyphAdvance f c + sumAdvance f s.
Proof. reflexivity. Qed.

Lemma harmless_range b : harmless b -> 1 <= b <= 255.
Proof. unfold harmless. lia. Qed.

Lemma getTextWidth_from_filter f n : forall pre rest w rep text,
  fontOk f = true -> Forall harmless rest ->
  Z.of_nat (length text) + Z.of_nat n <= 32 ->
  0 <= w -> w + 255 * Z.of_nat n < 65536 ->
  getTextWidth_from n (pre ++ rest) f (Z.of_nat (length pre)) w rep text
  = Val (w + sumAdvance f (List.filter printable (take n rest)),
         text ++ List.filter printable (take n rest)).
Proof.
  induction n as [|n IH]; intros pre rest w rep text Hf Hrest Hlen Hw Hsum.
  - simpl. rewrite Z.add_0_r, app_nil_r. reflexivity.
  - destruct rest as [|c rest].
    + simpl. rewrite app_nil_r, char_at_end. simpl.
      rewrite Z.add_0_r, app_nil_r. reflexivity.
    + inversion Hrest as [|? ? Hc Hrest']; subst.
      pose proof (harmless_range c Hc) as Hr.
      simpl getTextWidth_from. rewrite char_at_app. rewrite uint8_small by lia.
      cbn [mbind Checked_bind].
      destruct (Z.eqb_spec c 0); [lia|].
      assert (Hshift : forall w rep text,
         Z.of_nat (length text) + Z.of_nat n <= 32 -> 0 <= w -> w + 255 * Z.of_nat n < 65536 ->
         getTextWidth_from n (pre ++ c :: rest) f (Z.of_nat (length pre) + 1) w rep text
         = Val (w + sumAdvance f (List.filter printable (take n rest)),
                text ++ List.filter printable (take n rest))).
      { intros w' rep' text' H1 H2 H3.
        replace (pre ++ c :: rest) with ((pre ++ [c]) ++ rest)
          by (rewrite <- app_assoc; reflexivity).
        replace (Z.of_nat (length pre) + 1) with (Z.of_nat (length (pre ++ [c])))
          by (rewrite length_app; simpl; lia).
        apply IH; assumption. }
      cbn [take List.filter].
      destruct (Z.ltb_spec c 20).
      * assert (Hp : printable c = false).
        { unfold printable. destruct (Z.leb_spec 32 c); [lia | reflexivity]. }
        rewrite Hp. apply Hshift; lia.
      * destruct (Z.ltb_spec 127 c).
        -- assert (Hp : printable c = false).
           { unfold printable. destruct (Z.leb_spec c 126); [lia|].
             apply andb_false_r. }
           rewrite Hp. destruct rep; apply Hshift; lia.
        -- assert (Hp : printable c = true).
           { apply printable_range. unfold harmless in Hc. lia. }
           rewrite Hp. unfold pushText.
           destruct (Z.ltb_spec (Z.of_nat (length text)) 32); [|lia].
           cbn [mbind Checked_bind].
           destruct (fontOk_glyph f c Hf Hp) as (g & Hg & Hok).
           pose proof (glyphOk_advance g Hok) as Hadv.
           rewrite Hg. cbn [mbind Checked_bind].
           rewrite uint16_small by lia.
           rewrite Hshift; [| rewrite length_app; simpl; lia | lia | lia].
           rewrite sumAdvance_cons. unfold glyphAdvance. rewrite Hg.
           rewrite <- app_assoc. simpl. f_equal. f_equal. lia.
Qed.

(** X2. What getTextWidth measures and keeps.  For a font with the table
    Font.h declares and at most 32 bytes to read, none of them from 20 to
    31 or 127: the control bytes below 20 and the bytes above 0x7f are
    left out, the characters of the font are kept in their order, and the
    width is the sum of their advances. *)
Theorem getTextWidth_filters (f : Font) (s : list Z) (len : Z) :
  fontOk f = true ->
  Forall harmless s ->
  0 <= len <= 32 ->
  getTextWidth s len f
  = Val (sumAdvance f (List.filter printable (take (Z.to_nat len) s)),
         List.filter printable (take (Z.to_nat len) s)).
Proof.
  intros Hf Hs Hlen. unfold getTextWidth. rewrite uint8_small by lia.
  change (getTextWidth_from (Z.to_nat len) ([] ++ s) f (Z.of_nat (length (@nil Z))) 0 false []
          = Val (0 + sumAdvance f (List.filter printable (take (Z.to_nat len) s)),
                 [] ++ List.filter printable (take (Z.to_nat len) s))).
  apply getTextWidth_from_filter; try assumption; simpl; lia.
Qed.

Lemma getTextWidth_filters_witness :
  getTextWidth [97; 9; 195; 164; 98] 5 (demoFont 6)
  = Val (sumAdvance (demoFont 6)
           (List.filter printable (take (Z.to_nat 5) [97; 9; 195; 164; 98])),
         List.filter printable (take (Z.to_nat 5) [97; 9; 195; 164; 98])).
Proof.
  apply (getTextWidth_filters (demoFont 6) [97; 9; 195; 164; 98] 5).
  - reflexivity.
  - repeat constructor; unfold harmless; lia.
  - lia.
Defined.

(** X3. The byte 0x7f passes the test [c > 0x7f] and is looked up like a
    character of the font: its index is 95, one past the last of the 95
    glyphs of a table for 0x20 .. 0x7e. *)
Theorem getTextWidth_del_past_table (f : Font) (rest : list Z) (len : Z) :
  fontOk f = true ->
  1 <= len <= 255 ->
  getTextWidth (127 :: rest) len f = Bad (GlyphBounds 95).
Proof.
  intros Hf Hlen. unfold getTextWidth. rewrite uint8_small by lia.
  destruct (Z.to_nat len) as [|n] eqn:En; [lia|].
  simpl getTextWidth_from.
  change (char_at (127 :: rest) 0) with (Val (A:=Z) (uint8 127)).
  change (uint8 127) with 127. cbn [mbind Checked_bind].
  change (127 =? 0) with false. change (127 <? 20) with false.
  change (127 <? 127) with false. cbv iota.
  change (pushText [] 127) with (Val [127]). cbn [mbind Checked_bind].
  unfold fontOk in Hf. apply andb_true_iff in Hf as [Hl _]. apply Z.eqb_eq in Hl.
  unfold getGlyph, glyphIndex, index. change (uint8 127 - 32) with 95.
  change (0 <=? 95) with true. cbv iota.
  destruct (glyphs f !! Z.to_nat 95) eqn:E; [|reflexivity].
  apply lookup_lt_Some in E. lia.
Qed.

Lemma getTextWidth_del_past_table_witness :
  getTextWidth [127] 1 (demoFont 6) = Bad (GlyphBounds 95).
Proof. apply (getTextWidth_del_past_table (demoFont 6) [] 1); [reflexivity | lia]. Defined.


Lemma char_at_Bad s i e : char_at s i = Bad e -> e = StringBounds i.
Proof.
  unfold char_at. destruct (_ && _); [discriminate|].
  destruct (_ =? _); [discriminate|]. intros H. inversion H. reflexivity.
Qed.

Lemma getGlyph_Bad f c e : getGlyph f c = Bad e -> e = GlyphBounds (glyphIndex c).
Proof.
  unfold getGlyph, index. destruct (0 <=? _).
  - destruct (_ !! _); [discriminate|]. intros H. inversion H. reflexivity.
  - intros H. inversion H. reflexivity.
Qed.

Lemma getTextWidth_from_fits f n : forall s i w rep text,
  Z.of_nat (length text) + Z.of_nat n <= 32 ->
  match getTextWidth_from n s f i w rep text with
  | Val (_, t) => Z.of_nat (length t) <= Z.of_nat (length text) + Z.of_nat n
  | Bad (TextBounds _) => False
  | Bad _ => True
  end.
Proof.
  induction n as [|n IH]; intros s i w rep text Hlen.
  - simpl. lia.
  - simpl.
    assert (Hnext : forall w rep,
      match getTextWidth_from n s f (i + 1) w rep text with
      | Val (_, t) => Z.of_nat (length t) <= Z.of_nat (length text) + Z.of_nat (S n)
      | Bad (TextBounds _) => False
      | Bad _ => True
      end).
    { intros w' rep'. specialize (IH s (i + 1) w' rep' text ltac:(lia)).
      destruct (getTextWidth_from n s f (i + 1) w' rep' text) as [[? t]|[]]; try exact IH.
      lia. }
    destruct (char_at s i) as [c|e] eqn:Ec; simpl.
    2:{ apply char_at_Bad in Ec. subst e. exact I. }
    destruct (c =? 0); [lia|].
    destruct (c <? 20); [apply Hnext|].
    destruct (127 <? c).
    + destruct rep; apply Hnext.
    + unfold pushText. destruct (Z.ltb_spec (Z.of_nat (length text)) 32); [|lia]. simpl.
      destruct (getGlyph f c) as [g|e] eqn:Eg; simpl.
      2:{ apply getGlyph_Bad in Eg. subst e. exact I. }
      specialize (IH s (i + 1) (uint16 (w + Glyph.advance g)) false (text ++ [c])).
      rewrite length_app in IH. simpl length in IH. specialize (IH ltac:(lia)).
      destruct (getTextWidth_from n s f (i + 1) _ false (text ++ [c])) as [[? t]|[]];
        try exact IH.
      lia.
Qed.

Lemma getTextWidth_from_overflows f n : forall pre rest w rep text,
  fontOk f = true -> forallb printable rest = true ->
  Z.of_nat (length text) <= 32 ->
  32 - Z.of_nat (length text) < Z.of_nat n ->
  32 - Z.of_nat (length text) < Z.of_nat (length rest) ->
  getTextWidth_from n (pre ++ rest) f (Z.of_nat (length pre)) w rep text
  = Bad (TextBounds 32).
Proof.
  induction n as [|n IH]; intros pre rest w rep text Hf Hrest Ht Hn Hl; [lia|].
  destruct rest as [|c rest]; [simpl in Hl; lia|].
  apply forallb_cons_printable in Hrest as [Hc Hrest].
  pose proof Hc as Hr. apply printable_range in Hr.
  simpl getTextWidth_from. rewrite char_at_app. rewrite uint8_small by lia.
  cbn [mbind Checked_bind].
  destruct (Z.eqb_spec c 0); [lia|].
  destruct (Z.ltb_spec c 20); [lia|].
  destruct (Z.ltb_spec 127 c); [lia|].
  unfold pushText.
  destruct (Z.ltb_spec (Z.of_nat (length text)) 32).
  - cbn [mbind Checked_bind].
    destruct (fontOk_glyph f c Hf Hc) as (g & Hg & Hok). rewrite Hg.
    cbn [mbind Checked_bind].
    replace (pre ++ c :: rest) with ((pre ++ [c]) ++ rest)
      by (rewrite <- app_assoc; reflexivity).
    replace (Z.of_nat (length pre) + 1) with (Z.of_nat (length (pre ++ [c])))
      by (rewrite length_app; simpl; lia).
    simpl length in Hl.
    apply IH; try assumption; rewrite ?length_app; simpl length; lia.
  - cbn [mbind Checked_bind]. f_equal. f_equal. lia.
Qed.

(** X4. [char text[32]] holds what getTextWidth keeps as long as [len]
    is at most 32, as print makes it: no store is made past its end and
    at most [len] characters are kept.  getTextWidth itself does not
    check: given 33 characters of the font it stores the last at
    [text[32]]. *)
Theorem getTextWidth_text_capacity (f : Font) (s : list Z) (len : Z) :
  (0 <= len <= 32 ->
   (forall i, getTextWidth s len f <> Bad (TextBounds i))
   /\ forall w t, getTextWidth s len f = Val (w, t) -> Z.of_nat (length t) <= len)
  /\ (33 <= len <= 255 ->
      fontOk f = true -> forallb printable s = true -> 33 <= Z.of_nat (length s) ->
      getTextWidth s len f = Bad (TextBounds 32)).
Proof.
  split.
  - intros Hlen.
    pose proof (getTextWidth_from_fits f (Z.to_nat (uint8 len)) s 0 0 false []) as H.
    rewrite uint8_small in H by lia. simpl length in H. specialize (H ltac:(lia)).
    unfold getTextWidth. rewrite uint8_small by lia.
    destruct (getTextWidth_from (Z.to_nat len) s f 0 0 false []) as [[w t]|e].
    + split; [discriminate|]. intros w' t' Hv. inversion Hv. subst. lia.
    + split; [|discriminate]. intros i Hi. inversion Hi. subst. exact H.
  - intros Hlen Hf Hs Hl. unfold getTextWidth. rewrite uint8_small by lia.
    apply (getTextWidth_from_overflows f (Z.to_nat len) [] s 0 false []);
      try assumption; simpl length; lia.
Qed.

Lemma getTextWidth_text_capacity_witness :
  (forall w t, getTextWidth abc 3 (demoFont 6) = Val (w, t) -> Z.of_nat (length t) <= 3)
  /\ getTextWidth (replicate 33 97) 33 (demoFont 6) = Bad (TextBounds 32).
Proof.
  split.
  - apply (proj1 (getTextWidth_text_capacity (demoFont 6) abc 3)). lia.
  - apply (proj2 (getTextWidth_text_capacity (demoFont 6) (replicate 33 97) 33));
      [lia | reflexivity | reflexivity | simpl; lia].
Defined.

(** ** print: what of the string it reads *)

Lemma uint8_le z : 0 <= z -> uint8 z <= z.
Proof. intros Hz. unfold uint8. apply Z.mod_le; lia. Qed.

Lemma strlen_take s : forall m, 0 <= m <= strlen s -> strlen (take (Z.to_nat m) s) = m.
Proof.
  induction s as [|b s IH]; intros m Hm; simpl in *.
  - replace m with 0 by lia. reflexivity.
  - destruct (Z.eq_dec m 0) as [->|Hne]; [reflexivity|].
    destruct (uint8 b =? 0) eqn:Eb; [lia|].
    replace (Z.to_nat m) with (S (Z.to_nat (m - 1))) by lia.
    simpl. rewrite Eb. rewrite IH by lia. lia.
Qed.

Lemma char_at_take s (m : nat) j :
  0 <= j < Z.of_nat m -> (m <= length s)%nat -> char_at (take m s) j = char_at s j.
Proof.
  intros Hj Hm.
  destruct (s !! Z.to_nat j) as [b|] eqn:Eb.
  2:{ apply lookup_ge_None in Eb. lia. }
  replace j with (Z.of_nat (Z.to_nat j)) by lia.
  rewrite (char_at_lookup s _ b Eb).
  apply char_at_lookup. rewrite lookup_take_lt by lia. exact Eb.
Qed.

(** The stripping loop reads [s[len - 1]] downwards only. *)
Lemma stripTrailing_ext (s t : list Z) n : forall len fuel (d : Display),
  0 <= len < 256 ->
  (forall j, -1 <= j < len -> char_at s j = char_at t j) ->
  iter_ n (fun len => c ← check (char_at s (len - 1)); mret (stripNext c len)) len fuel d
  = iter_ n (fun len => c ← check (char_at t (len - 1)); mret (stripNext c len)) len fuel d.
Proof.
  induction n as [|n IH]; intros len fuel d Hlen Hag; [reflexivity|].
  simpl. rewrite !run_bind. rewrite (Hag (len - 1)) by lia.
  destruct (char_at t (len - 1)) as [c|e] eqn:Ec; simpl; [|reflexivity].
  unfold stripNext. destruct (c =? 32); [|reflexivity].
  destruct (Z.eq_dec len 0) as [->|Hne].
  { simpl in Ec. rewrite char_at_before in Ec. discriminate. }
  rewrite uint8_small by lia.
  apply IH; [lia|]. intros j Hj. apply Hag. lia.
Qed.

Lemma stripTrailing_result (s : list Z) n : forall len fuel (d : Display) r d',
  0 <= len < 256 ->
  iter_ n (fun len => c ← check (char_at s (len - 1)); mret (stripNext c len)) len fuel d
  = Ok r d' ->
  1 <= r <= len /\ d' = d.
Proof.
  induction n as [|n IH]; intros len fuel d r d' Hlen; [discriminate|].
  simpl. rewrite !run_bind.
  destruct (char_at s (len - 1)) as [c|e] eqn:Ec; simpl; [|discriminate].
  destruct (Z.eq_dec len 0) as [->|Hne].
  { simpl in Ec. rewrite char_at_before in Ec. discriminate. }
  unfold stripNext. destruct (c =? 32).
  - rewrite uint8_small by lia. intros Hr. apply IH in Hr as [Hr ->]; [|lia].
    split; [lia | reflexivity].
  - intros Hr. inversion Hr. subst. split; [lia | reflexivity].
Qed.

Section PrintReads.
Context {ctl : Controller} {fonts : Fonts}.

Lemma selectFont_ext s t len W :
  (forall j, 0 <= j < uint8 len -> char_at s j = char_at t j) ->
  selectFont s len W = selectFont t len W.
Proof.
  intros Hag. unfold selectFont.
  rewrite !(getTextWidth_ext _ s t len Hag). reflexivity.
Qed.


Lemma printBody_ext s t len fuel d :
  0 <= len <= 32 ->
  (forall j, -1 <= j < len -> char_at s j = char_at t j) ->
  printBody s len fuel d = printBody t len fuel d.
Proof.
  intros Hlen Hag. unfold printBody. rewrite !(run_bind (stripTrailing _ _)).
  unfold stripTrailing, iter.
  rewrite (stripTrailing_ext s t fuel len fuel d ltac:(lia) Hag).
  destruct (iter_ fuel _ len fuel d) as [r d'| |] eqn:Er; [|reflexivity|reflexivity].
  apply stripTrailing_result in Er as [Hr ->]; [|lia].
  rewrite !(run_bind get). unfold get. cbv beta iota.
  rewrite (selectFont_ext s t r).
  - reflexivity.
  - intros j Hj. rewrite uint8_small in Hj by lia. apply Hag. lia.
Qed.


Lemma print_Some s fuel d :
  print (Some s) fuel d
  = (waitIdle;;
     if uint8 (strlen s) =? 0 then mret tt
     else printBody s (if 32 <? uint8 (strlen s) then 32 else uint8 (strlen s))) fuel d.
Proof. reflexivity. Qed.

Lemma print_prefix s fuel d :
  print (Some s) fuel d
  = print (Some (take (Z.to_nat (min (uint8 (strlen s)) 32)) s)) fuel d.
Proof.
  pose proof (strlen_range s) as Hs. pose proof (uint8_range (strlen s)) as H8.
  pose proof (uint8_le (strlen s) ltac:(lia)) as Hle.
  set (m := min (uint8 (strlen s)) 32).
  assert (Hm : m = if 32 <? uint8 (strlen s) then 32 else uint8 (strlen s)).
  { unfold m, min. destruct (Z.ltb_spec (uint8 (strlen s)) 32);
      destruct (Z.ltb_spec 32 (uint8 (strlen s))); lia. }
  assert (Hm32 : 0 <= m <= 32 /\ m <= uint8 (strlen s)).
  { rewrite Hm. destruct (Z.ltb_spec 32 (uint8 (strlen s))); lia. }
  assert (Ht : strlen (take (Z.to_nat m) s) = m) by (apply strlen_take; lia).
  rewrite !print_Some, Ht. rewrite !(run_bind waitIdle).
  destruct (waitIdle fuel d) as [[] d0| |]; [|reflexivity|reflexivity].
  rewrite (uint8_small m) by lia.
  destruct (Z.eqb_spec (uint8 (strlen s)) 0) as [H0|H0].
  - assert (m = 0) by (rewrite Hm, H0; reflexivity). subst m.
    destruct (Z.eqb_spec (min (uint8 (strlen s)) 32) 0); [reflexivity | lia].
  - assert (m <> 0).
    { rewrite Hm. destruct (Z.ltb_spec 32 (uint8 (strlen s))); lia. }
    destruct (Z.eqb_spec m 0); [lia|].
    rewrite <- Hm. destruct (Z.ltb_spec 32 m); [lia|].
    apply printBody_ext; [lia|].
    intros j Hj. destruct (Z.eq_dec j (-1)) as [->|Hne].
    + rewrite !char_at_before. reflexivity.
    + symmetry. apply char_at_take; lia.
Qed.

Lemma stripTrailing_fuel (s : list Z) n1 : forall n2 len fuel (d : Display),
  0 <= len < 256 -> (Z.to_nat len < n1)%nat -> (Z.to_nat len < n2)%nat ->
  iter_ n1 (fun len => c ← check (char_at s (len - 1)); mret (stripNext c len)) len fuel d
  = iter_ n2 (fun len => c ← check (char_at s (len - 1)); mret (stripNext c len)) len fuel d.
Proof.
  induction n1 as [|n1 IH]; intros n2 len fuel d Hlen H1 H2; [lia|].
  destruct n2 as [|n2]; [lia|].
  simpl. rewrite !run_bind.
  destruct (char_at s (len - 1)) as [c|e] eqn:Ec; simpl; [|reflexivity].
  destruct (Z.eq_dec len 0) as [->|Hne].
  { simpl in Ec. rewrite char_at_before in Ec. discriminate. }
  unfold stripNext. destruct (c =? 32); [|reflexivity].
  rewrite uint8_small by lia. apply IH; lia.
Qed.

Lemma stripTrailing_spaces (body : list Z) (J : nat) k (i : nat) : forall fuel (d : Display),
  (i <= J)%nat -> Z.of_nat (length body) + Z.of_nat J < 256 ->
  iter_ (k + i) (fun len => c ← check (char_at (body ++ replicate J 32) (len - 1));
                            mret (stripNext c len))
        (Z.of_nat (length body) + Z.of_nat i) fuel d
  = iter_ k (fun len => c ← check (char_at (body ++ replicate J 32) (len - 1));
                        mret (stripNext c len))
          (Z.of_nat (length body)) fuel d.
Proof.
  induction i as [|i IH]; intros fuel d Hi HJ.
  - rewrite Nat.add_0_r, Z.add_0_r. reflexivity.
  - replace (k + S i)%nat with (S (k + i)) by lia.
    cbn [iter_]. rewrite run_bind.
    replace (Z.of_nat (length body) + Z.of_nat (S i) - 1)
      with (Z.of_nat (length body + i)%nat) by lia.
    rewrite (char_at_lookup _ _ 32).
    2:{ rewrite lookup_app_r by lia. apply lookup_replicate. split; [reflexivity | lia]. }
    cbn [check]. unfold mret at 1, Run_ret. unfold stripNext.
    change (uint8 32 =? 32) with true. cbv iota.
    rewrite uint8_small by lia.
    replace (Z.of_nat (length body) + Z.of_nat (S i) - 1)
      with (Z.of_nat (length body) + Z.of_nat i) by lia.
    apply IH; lia.
Qed.

Lemma strlen_nonzero s : Forall (fun b => uint8 b <> 0) s -> strlen s = Z.of_nat (length s).
Proof.
  induction 1 as [|b s Hb _ IH]; [reflexivity|].
  simpl strlen. destruct (Z.eqb_spec (uint8 b) 0); [contradiction|].
  rewrite IH. simpl length. lia.
Qed.

End PrintReads.

(** X5. print reads at most the first 32 bytes of the string, and as
    many as its length taken as [uint8_t]: it does what it does for that
    prefix alone. *)
Theorem print_reads_32_bytes_at_most {ctl : Controller} {fonts : Fonts} (s : list Z) (fuel : nat) (d : Display) :
  print (Some s) fuel d
  = print (Some (take (Z.to_nat (min (uint8 (strlen s)) 32)) s)) fuel d.
Proof. apply print_prefix. Qed.

(** X6. Spaces at the end of the string are not printed: print of a
    string followed by spaces does what print of the string does, given
    fuel for the at most 32 rounds of the stripping loop. *)
Theorem print_ignores_trailing_spaces {ctl : Controller} {fonts : Fonts} (body : list Z) (k : nat) (fuel : nat) (d : Display) :
  body <> [] ->
  Forall (fun b => uint8 b <> 0) body ->
  Z.of_nat (length body) + Z.of_nat k <= 255 ->
  (32 < fuel)%nat ->
  print (Some (body ++ replicate k 32)) fuel d = print (Some body) fuel d.
Proof.
  intros Hne Hnz Hlen Hfuel.
  assert (Hn : 1 <= Z.of_nat (length body)) by (destruct body; [contradiction | simpl; lia]).
  assert (Hsb : strlen body = Z.of_nat (length body)) by (apply strlen_nonzero, Hnz).
  assert (Hss : strlen (body ++ replicate k 32) = Z.of_nat (length body) + Z.of_nat k).
  { rewrite strlen_nonzero.
    - rewrite length_app, length_replicate. lia.
    - apply Forall_app. split; [exact Hnz|]. apply Forall_replicate. discriminate. }
  destruct (Z.le_gt_cases 32 (Z.of_nat (length body))) as [Hlong|Hshort].
  - (* both are cut at 32, inside [body] *)
    rewrite print_prefix, (print_prefix body). rewrite Hss, Hsb.
    rewrite !uint8_small by lia.
    assert (H1 : min (Z.of_nat (length body) + Z.of_nat k) 32 = 32).
    { unfold min. destruct (Z.ltb_spec (Z.of_nat (length body) + Z.of_nat k) 32); lia. }
    assert (H2 : min (Z.of_nat (length body)) 32 = 32).
    { unfold min. destruct (Z.ltb_spec (Z.of_nat (length body)) 32); lia. }
    rewrite H1, H2. rewrite take_app_le by lia. reflexivity.
  - rewrite !print_Some. rewrite Hss, Hsb. rewrite !uint8_small by lia.
    rewrite !(run_bind waitIdle).
    destruct (waitIdle fuel d) as [[] d0| |]; [|reflexivity|reflexivity].
    destruct (Z.eqb_spec (Z.of_nat (length body) + Z.of_nat k) 0) as [|_]; [lia|].
    destruct (Z.eqb_spec (Z.of_nat (length body)) 0) as [|_]; [lia|].
    destruct (Z.ltb_spec 32 (Z.of_nat (length body))) as [|_]; [lia|].
    set (n := Z.of_nat (length body)) in *.
    set (m := if 32 <? n + Z.of_nat k then 32 else n + Z.of_nat k).
    assert (Hm : n <= m <= 32 /\ m <= n + Z.of_nat k).
    { unfold m. destruct (Z.ltb_spec 32 (n + Z.of_nat k)); lia. }
    set (j := Z.to_nat (m - n)).
    assert (Hstrip : stripTrailing (body ++ replicate k 32) m fuel d0
                     = stripTrailing body n fuel d0).
    { unfold stripTrailing, iter.
      replace m with (n + Z.of_nat j) by (unfold j; lia).
      replace fuel with ((fuel - j) + j)%nat at 1 by (unfold j; lia).
      unfold n. rewrite (stripTrailing_spaces body k (fuel - j) j fuel d0) by (unfold j; lia).
      fold n.
      rewrite (stripTrailing_ext (body ++ replicate k 32) body (fuel - j) n fuel d0).
      - apply stripTrailing_fuel; unfold j; lia.
      - lia.
      - intros i Hi. destruct (Z.eq_dec i (-1)) as [->|Hi'].
        + rewrite !char_at_before. reflexivity.
        + apply char_at_app_l. lia. }
    unfold printBody. rewrite !(run_bind (stripTrailing _ _)), Hstrip.
    destruct (stripTrailing body n fuel d0) as [r d1| |] eqn:Er; [|reflexivity|reflexivity].
    unfold stripTrailing, iter in Er.
    apply stripTrailing_result in Er as [Hr ->]; [|lia].
    rewrite !(run_bind get). unfold get. cbv beta iota.
    rewrite (selectFont_ext (body ++ replicate k 32) body r); [reflexivity|].
    intros i Hi. rewrite uint8_small in Hi by lia. apply char_at_app_l. lia.
Qed.

Lemma print_ignores_trailing_spaces_witness :
  print (ctl := ST7789.controller) (fonts := demoFonts) (Some ([97; 98] ++ replicate 2 32))
        40%nat (demoDisplay 20 Left)
  = print (ctl := ST7789.controller) (fonts := demoFonts) (Some [97; 98]) 40%nat
          (demoDisplay 20 Left).
Proof.
  refine (print_ignores_trailing_spaces (ctl := ST7789.controller) (fonts := demoFonts) [97; 98] 2 40%nat (demoDisplay 20 Left) _ _ _ _).
  - discriminate.
  - repeat constructor; discriminate.
  - simpl; lia.
  - lia.
Defined.

(** X7. print of an empty string (and of any string whose length is 0
    as [uint8_t]) only waits for the transfer that is pending: it does
    not clear the buffer, move the cursor or send anything, unlike print
    of the null pointer. *)
Theorem print_empty_string_only_waits {ctl : Controller} {fonts : Fonts} (s : list Z) (fuel : nat) (d : Display) :
  uint8 (strlen s) = 0 ->
  print (Some s) fuel d = waitIdle fuel d
  /\ (_busy d = false -> (0 < fuel)%nat -> print (Some s) fuel d = Ok tt d).
Proof.
  intros H0.
  assert (Hw : print (Some s) fuel d = waitIdle fuel d).
  { rewrite print_Some, H0. change (0 =? 0) with true. cbv iota.
    apply bind_unit_ret. }
  split; [exact Hw|]. intros Hb Hfuel. rewrite Hw.
  destruct fuel as [|n]; [lia|]. apply waitIdle_not_busy, Hb.
Qed.

Lemma print_empty_string_only_waits_witness :
  print (ctl := ST7789.controller) (fonts := demoFonts) (Some []) 5%nat (demoDisplay 20 Left)
  = Ok tt (demoDisplay 20 Left).
Proof.
  refine (proj2 (print_empty_string_only_waits (ctl := ST7789.controller) (fonts := demoFonts) [] 5%nat (demoDisplay 20 Left) _) _ _).
  - reflexivity.
  - reflexivity.
  - lia.
Defined.

(** ** The busy flag after each call *)

Lemma triple_any {S A} (m : Run S A) :
  triple (fun _ => True) m (fun _ _ => True) (fun _ => True).
Proof. intros fuel s _. destruct (m fuel s); exact I. Qed.

Lemma setBusy_sets b :
  triple (fun _ => True) (setBusy b) (fun _ d => _busy d = b) (fun _ => True).
Proof. apply triple_modify. reflexivity. Qed.

Lemma waitIdle_notBusy :
  triple (fun _ => True) waitIdle (fun _ => notBusy) (fun _ => True).
Proof.
  eapply triple_weaken;
    [apply (waitIdle_returns_idle (fun _ => True)) | auto | | auto].
  - intros fuel d _. destruct (loop fuel d); exact I.
  - intros ? d [_ Hb]. exact Hb.
Qed.

Lemma prepareWrite_notBusy :
  triple (fun _ => True) prepareWrite (fun _ => notBusy) (fun _ => True).
Proof.
  unfold prepareWrite. eapply triple_bind; [apply waitIdle_notBusy|]. intros ?.
  eapply triple_weaken with (P' := notBusy) (Q' := fun _ => notBusy) (R' := notBusy); auto.
  match goal with |- triple _ ?m _ _ => change (keeps notBusy m) end.
  keeps_auto.
Qed.

(** From a state with no transfer pending, [m] returns with none. *)
Lemma triple_notBusy_body {A} (m : Run Display A) :
  keeps notBusy m -> triple notBusy m (fun _ => notBusy) (fun _ => True).
Proof. intros Hm. eapply triple_weaken; [apply Hm | auto | auto | auto]. Qed.

Ltac skip_step := eapply triple_bind; [apply triple_any|]; intros ?.

Section BusyAfter.
Context {ctl : Controller} {fonts : Fonts}.

Lemma flushBuffer_busy :
  triple (fun _ => True) flushBuffer (fun _ d => _busy d = true) (fun _ => True).
Proof. unfold flushBuffer. do 4 skip_step. apply setBusy_sets. Qed.

Lemma fillRectangle_busy x y width height color :
  triple (fun _ => True) (fillRectangle x y width height color)
         (fun _ d => _busy d = true) (fun _ => True).
Proof. unfold fillRectangle. do 3 skip_step. apply setBusy_sets. Qed.

Lemma printBody_busy s len :
  triple (fun _ => True) (printBody s len) (fun _ d => _busy d = true) (fun _ => True).
Proof.
  unfold printBody, printLayout, paint. do 8 skip_step. apply flushBuffer_busy.
Qed.

Lemma reset_notBusy orientation color :
  triple (fun _ => True) (reset orientation color) (fun _ => notBusy) (fun _ => True).
Proof.
  unfold reset. do 7 skip_step.
  eapply triple_bind; [apply prepareWrite_notBusy|]. intros ?.
  apply triple_notBusy_body. keeps_auto.
Qed.

Lemma drawChar_notBusy c :
  triple (fun _ => True) (drawChar c) (fun _ => notBusy) (fun _ => True).
Proof.
  unfold drawChar. eapply triple_bind; [apply waitIdle_notBusy|]. intros ?.
  apply triple_notBusy_body. keeps_auto.
Qed.

Lemma enable_notBusy on :
  triple (fun _ => True) (ST7789.enable on) (fun _ => notBusy) (fun _ => True).
Proof.
  unfold ST7789.enable. eapply triple_bind; [apply prepareWrite_notBusy|]. intros ?.
  apply triple_notBusy_body. keeps_auto.
Qed.

Lemma sleep_notBusy on :
  triple (fun _ => True) (ST7789.sleep on) (fun _ => notBusy) (fun _ => True).
Proof.
  unfold ST7789.sleep. eapply triple_bind; [apply prepareWrite_notBusy|]. intros ?.
  apply triple_notBusy_body. keeps_auto.
Qed.

Lemma triple_Ok {A} (P : Display -> Prop) (m : Run Display A) Q R fuel d a d' :
  triple P m Q R -> P d -> m fuel d = Ok a d' -> Q a d'.
Proof. intros Hm Hd Hr. specialize (Hm fuel d Hd). rewrite Hr in Hm. exact Hm. Qed.

End BusyAfter.



(** ** print of the null pointer *)

Section PrintNull.
Context {ctl : Controller} {fonts : Fonts}.

Lemma waitIdle_keeps_buffer_area b a :
  triple (fun d => bufferIs b d /\ areaOf a d) waitIdle
         (fun _ d => bufferIs b d /\ areaOf a d) (bufferIs b).
Proof.
  eapply triple_weaken.
  - apply (triple_and _ _ _ _ _ _ _ (keeps_waitIdle (bufferIs b) (panelFree_bufferIs' b)
                                        (busyFree_bufferIs b))
             (waitIdle_returns_idle (areaOf a) (keeps_loop_area a))).
  - auto.
  - intros ? d [Hb [Ha _]]. split; assumption.
  - intros d [Hb _]. exact Hb.
Qed.

Lemma print_null_buffer b a :
  Area.cursor a <> 0 ->
  triple (fun d => bufferIs b d /\ areaOf a d) (print None)
         (fun _ => bufferIs b) (bufferIs b).
Proof.
  intros Hc. unfold print.
  eapply triple_bind; [apply waitIdle_keeps_buffer_area|]. intros ?.
  eapply triple_bind.
  { apply (triple_get _ (fun d0 d => areaOf a d0 /\ bufferIs b d)).
    intros d [Hb Ha]. auto. }
  intros d0. apply triple_assume. intros Ha. unfold areaOf in Ha. rewrite Ha.
  destruct (Z.eqb_spec (Area.cursor a) 0); [contradiction|].
  match goal with |- triple _ ?m _ _ => change (keeps (bufferIs b) m) end.
  keeps_auto.
Qed.

End PrintNull.

(** X9. print of the null pointer sends what drawChar has drawn: when
    the cursor is not at 0 the buffer is not cleared, and whatever the
    outcome the buffer is the one print found. *)
Theorem print_null_keeps_drawn_text {ctl : Controller} {fonts : Fonts}
    (fuel : nat) (d : Display) :
  Area.cursor (_area (panel d)) <> 0 ->
  _buffer (final (print None fuel d)) = _buffer d.
Proof.
  intros Hc.
  pose proof (print_null_buffer (_buffer d) (_area (panel d)) Hc fuel d
                (conj eq_refl eq_refl)) as H.
  destruct (print None fuel d); exact H.
Qed.

Lemma print_null_keeps_drawn_text_witness :
  _buffer (final (print (ctl := ST7789.controller) (fonts := demoFonts) None 5%nat
                    (placeCursor 6 (demoDisplay 20 Left))))
  = _buffer (placeCursor 6 (demoDisplay 20 Left)).
Proof.
  refine (print_null_keeps_drawn_text (ctl := ST7789.controller) (fonts := demoFonts)
            5%nat (placeCursor 6 (demoDisplay 20 Left)) _).
  discriminate.
Defined.

(** ** initializeBuffer *)

Section ReturnsIdx.
Context {S : Type}.

Lemma returns_forAcc_idx {A} N (J : Z -> A -> S -> Prop) (body : Z -> A -> Run S A) n :
  forall lo a,
  (forall i a, lo <= i < lo + Z.of_nat n ->
     returns N (J i a) (body i a) (fun a' => J (i + 1) a')) ->
  returns N (J lo a) (forAcc n lo body a) (fun a' => J (lo + Z.of_nat n) a').
Proof.
  induction n as [|n IH]; intros lo a Hbody.
  - simpl forAcc. apply returns_ret. intros s Hs. rewrite Z.add_0_r. exact Hs.
  - simpl forAcc. eapply returns_bind; [apply Hbody; lia|]. intros a'.
    replace (lo + Z.of_nat (Datatypes.S n)) with (lo + 1 + Z.of_nat n) by lia.
    apply IH. intros i a0 Hi. apply Hbody. lia.
Qed.

Lemma returns_for_idx N (I : Z -> S -> Prop) (body : Z -> Run S unit) n :
  0 <= n ->
  (forall i, 0 <= i < n -> returns N (I i) (body i) (fun _ => I (i + 1))) ->
  returns N (I 0) (for_ n body) (fun _ => I n).
Proof.
  intros Hn Hbody. unfold for_.
  pose proof (returns_forAcc_idx N (fun i _ => I i) (fun i _ => body i) (Z.to_nat n) 0 tt) as H.
  rewrite Z2Nat.id in H by lia. simpl in H. apply H.
  intros i _ Hi. apply Hbody. lia.
Qed.

End ReturnsIdx.

(** ** initializeBuffer *)

Lemma cleared_store p busy b0 v k fuel d :
  cleared p busy b0 v k d -> 0 <= k < Z.of_nat (length b0) ->
  exists d', store k v fuel d = Ok tt d' /\ cleared p busy b0 v (k + 1) d'.
Proof.
  intros (Hp & Hb & Hbuf) Hk. unfold store.
  assert (Hlen : length (_buffer d) = length b0).
  { rewrite Hbuf, length_app, length_replicate, length_drop. lia. }
  rewrite Hlen.
  destruct (Z.leb_spec 0 k); [|lia].
  destruct (Z.ltb_spec k (Z.of_nat (length b0))); [|lia]. simpl.
  eexists. split; [reflexivity|]. repeat split; simpl; try assumption.
  rewrite Hbuf.
  rewrite insert_app_r_alt by (rewrite length_replicate; lia).
  rewrite length_replicate, Nat.sub_diag.
  destruct (lookup_lt_is_Some_2 b0 (Z.to_nat k) ltac:(lia)) as [z Hz].
  rewrite (drop_S _ _ _ Hz). simpl.
  replace (Z.to_nat (k + 1)) with (Datatypes.S (Z.to_nat k)) by lia.
  rewrite replicate_S_end, <- app_assoc. reflexivity.
Qed.

Lemma cleared_store_past p busy b0 v fuel d :
  cleared p busy b0 v (Z.of_nat (length b0)) d ->
  store (Z.of_nat (length b0)) v fuel d = Undefined (BufferBounds (Z.of_nat (length b0))) d.
Proof.
  intros (Hp & Hb & Hbuf). unfold store.
  assert (Hlen : length (_buffer d) = length b0).
  { rewrite Hbuf, length_app, length_replicate, length_drop. lia. }
  rewrite Hlen, Z.ltb_irrefl, andb_false_r. reflexivity.
Qed.

(** One row of the clearing loop, from the cell [k]: it returns when
    the row ends inside the buffer and stores at the first cell past the
    buffer when it does not. *)
Lemma clear_row p busy b0 v base n : forall lo fuel d,
  cleared p busy b0 v (base + lo) d -> 0 <= base + lo <= Z.of_nat (length b0) ->
  exists d',
    forAcc n lo (fun x _ => store (base + x) v) tt fuel d
    = (if base + lo + Z.of_nat n <=? Z.of_nat (length b0) then Ok tt d'
       else Undefined (BufferBounds (Z.of_nat (length b0))) d')
    /\ cleared p busy b0 v (Z.min (base + lo + Z.of_nat n) (Z.of_nat (length b0))) d'.
Proof.
  induction n as [|n IH]; intros lo fuel d Hd Hk.
  - exists d. rewrite Z.add_0_r. destruct (Z.leb_spec (base + lo) (Z.of_nat (length b0))); [|lia].
    split; [reflexivity|]. rewrite Z.min_l by lia. exact Hd.
  - simpl forAcc. rewrite run_bind.
    destruct (Z.eq_dec (base + lo) (Z.of_nat (length b0))) as [He|Hne].
    + rewrite He in *. rewrite (cleared_store_past p busy b0 v fuel d Hd).
      exists d. destruct (Z.leb_spec (Z.of_nat (length b0) + Z.of_nat (Datatypes.S n))
                            (Z.of_nat (length b0))); [lia|].
      split; [reflexivity|]. rewrite Z.min_r by lia. exact Hd.
    + destruct (cleared_store p busy b0 v (base + lo) fuel d Hd ltac:(lia)) as (d1 & Hr & Hd1).
      rewrite Hr.
      replace (base + lo + 1) with (base + (lo + 1)) in Hd1 by lia.
      destruct (IH (lo + 1) fuel d1 Hd1 ltac:(lia)) as (d' & Hr' & Hd').
      exists d'. rewrite Hr'.
      replace (base + (lo + 1) + Z.of_nat n) with (base + lo + Z.of_nat (Datatypes.S n)) in * by lia.
      split; [reflexivity | exact Hd'].
Qed.

Lemma clear_rows p busy b0 v W m : forall y0 fuel d,
  0 <= W -> 0 <= y0 ->
  cleared p busy b0 v (y0 * W) d -> y0 * W <= Z.of_nat (length b0) ->
  exists d',
    forAcc m y0 (fun y _ => for_ W (fun x => store (y * W + x) v)) tt fuel d
    = (if (y0 + Z.of_nat m) * W <=? Z.of_nat (length b0) then Ok tt d'
       else Undefined (BufferBounds (Z.of_nat (length b0))) d')
    /\ cleared p busy b0 v (Z.min ((y0 + Z.of_nat m) * W) (Z.of_nat (length b0))) d'.
Proof.
  induction m as [|m IH]; intros y0 fuel d HW Hy Hd Hk.
  - exists d. rewrite Z.add_0_r. destruct (Z.leb_spec (y0 * W) (Z.of_nat (length b0))); [|lia].
    split; [reflexivity|]. rewrite Z.min_l by lia. exact Hd.
  - simpl forAcc. rewrite run_bind. unfold for_ at 1.
    destruct (clear_row p busy b0 v (y0 * W) (Z.to_nat W) 0 fuel d) as (d1 & Hr & Hd1).
    { rewrite Z.add_0_r. exact Hd. }
    { nia. }
    rewrite Hr. rewrite Z.add_0_r, Z2Nat.id in * by lia.
    destruct (Z.leb_spec (y0 * W + W) (Z.of_nat (length b0))) as [Hfit|Hover].
    + rewrite Z.min_l in Hd1 by lia.
      replace (y0 * W + W) with ((y0 + 1) * W) in * by lia.
      destruct (IH (y0 + 1) fuel d1 HW ltac:(lia) Hd1 Hfit) as (d' & Hr' & Hd').
      exists d'. rewrite Hr'.
      replace (y0 + 1 + Z.of_nat m) with (y0 + Z.of_nat (Datatypes.S m)) in * by lia.
      split; [reflexivity | exact Hd'].
    + rewrite Z.min_r in Hd1 by lia.
      exists d1. destruct (Z.leb_spec ((y0 + Z.of_nat (Datatypes.S m)) * W)
                             (Z.of_nat (length b0))); [nia|].
      split; [reflexivity|]. rewrite Z.min_r by nia. exact Hd1.
Qed.

Lemma cleared_start d v : cleared (panel d) (_busy d) (_buffer d) v 0 d.
Proof. repeat split. Qed.

Lemma initializeBuffer_run fuel d :
  0 <= Area.width (_area (panel d)) ->
  exists d',
    initializeBuffer fuel d
    = (if Area.width (_area (panel d)) * row_size <=? Z.of_nat (length (_buffer d))
       then Ok tt d'
       else Undefined (BufferBounds (Z.of_nat (length (_buffer d)))) d')
    /\ cleared (panel d) (_busy d) (_buffer d) (bswap16 (Area.background (_area (panel d))))
               (Z.min (Area.width (_area (panel d)) * row_size)
                      (Z.of_nat (length (_buffer d)))) d'.
Proof.
  intros HW. unfold initializeBuffer. rewrite run_bind. unfold get. cbv beta iota zeta.
  unfold for_ at 1.
  destruct (clear_rows (panel d) (_busy d) (_buffer d)
              (bswap16 (Area.background (_area (panel d))))
              (Area.width (_area (panel d))) (Z.to_nat row_size) 0 fuel d HW ltac:(lia)
              (cleared_start d _) ltac:(lia)) as (d' & Hr & Hd').
  exists d'. rewrite Hr.
  replace ((0 + Z.of_nat (Z.to_nat row_size)) * Area.width (_area (panel d)))
    with (Area.width (_area (panel d)) * row_size) in * by (unfold row_size; lia).
  split; [reflexivity | exact Hd'].
Qed.

(** X10. initializeBuffer, for an area that fits the buffer: it returns,
    the first [_area.width * row_size] cells hold the byte-swapped
    background colour, and the rest of the buffer, the protected members
    and the busy flag are as they were. *)
Theorem initializeBuffer_clears_area (fuel : nat) (d : Display) :
  0 <= Area.width (_area (panel d)) ->
  Area.width (_area (panel d)) * row_size <= Z.of_nat (length (_buffer d)) ->
  exists d',
    initializeBuffer fuel d = Ok tt d'
    /\ panel d' = panel d /\ _busy d' = _busy d
    /\ _buffer d'
       = replicate (Z.to_nat (Area.width (_area (panel d)) * row_size))
                   (bswap16 (Area.background (_area (panel d))))
         ++ drop (Z.to_nat (Area.width (_area (panel d)) * row_size)) (_buffer d).
Proof.
  intros HW Hfit. destruct (initializeBuffer_run fuel d HW) as (d' & Hr & Hd').
  exists d'. destruct (Z.leb_spec (Area.width (_area (panel d)) * row_size)
                         (Z.of_nat (length (_buffer d)))); [|lia].
  split; [exact Hr|]. rewrite Z.min_l in Hd' by lia. exact Hd'.
Qed.

Lemma initializeBuffer_clears_area_witness :
  exists d',
    initializeBuffer 5%nat (demoDisplay 20 Left) = Ok tt d'
    /\ panel d' = panel (demoDisplay 20 Left) /\ _busy d' = _busy (demoDisplay 20 Left)
    /\ _buffer d'
       = replicate (Z.to_nat (Area.width (_area (panel (demoDisplay 20 Left))) * row_size))
                   (bswap16 (Area.background (_area (panel (demoDisplay 20 Left)))))
         ++ drop (Z.to_nat (Area.width (_area (panel (demoDisplay 20 Left))) * row_size))
                 (_buffer (demoDisplay 20 Left)).
Proof.
  apply (initializeBuffer_clears_area 5%nat (demoDisplay 20 Left)).
  - simpl. lia.
  - vm_compute. discriminate.
Defined.

(** X11. initializeBuffer does not check the area against the buffer
    that begin allocated: for an area of more cells than the buffer has
    (setArea takes any width), it fills the whole buffer and then stores
    at the first cell past its end. *)
Theorem initializeBuffer_overruns_buffer (fuel : nat) (d : Display) :
  Z.of_nat (length (_buffer d)) < Area.width (_area (panel d)) * row_size ->
  exists d',
    initializeBuffer fuel d = Undefined (BufferBounds (Z.of_nat (length (_buffer d)))) d'
    /\ _buffer d'
       = replicate (length (_buffer d)) (bswap16 (Area.background (_area (panel d)))).
Proof.
  intros Hover.
  assert (HW : 0 <= Area.width (_area (panel d))) by (unfold row_size in Hover; lia).
  destruct (initializeBuffer_run fuel d HW) as (d' & Hr & Hd').
  exists d'. destruct (Z.leb_spec (Area.width (_area (panel d)) * row_size)
                         (Z.of_nat (length (_buffer d)))); [lia|].
  split; [exact Hr|]. rewrite Z.min_r in Hd' by lia.
  destruct Hd' as (_ & _ & Hb). rewrite Hb, Nat2Z.id.
  rewrite drop_all, app_nil_r. reflexivity.
Qed.

Lemma initializeBuffer_overruns_buffer_witness :
  exists d',
    initializeBuffer 5%nat (demoDisplay 25 Left)
    = Undefined (BufferBounds (Z.of_nat (length (_buffer (demoDisplay 25 Left))))) d'
    /\ _buffer d'
       = replicate (length (_buffer (demoDisplay 25 Left)))
                   (bswap16 (Area.background (_area (panel (demoDisplay 25 Left))))).
Proof.
  apply (initializeBuffer_overruns_buffer 5%nat (demoDisplay 25 Left)).
  vm_compute. reflexivity.
Defined.

(** ** renderChar *)

Lemma land7_mod8 k : Z.land (uint8 k) 7 = k mod 8.
Proof.
  change 7 with (Z.ones 3). rewrite Z.land_ones by lia. unfold uint8.
  change (2 ^ 3) with 8. apply Z.mod_mod_divide. exists 32. reflexivity.
Qed.

Lemma uint8_succ k : uint8 (uint8 k + 1) = uint8 (k + 1).
Proof. unfold uint8. rewrite Zplus_mod_idemp_l. reflexivity. Qed.

Lemma uint16_succ k : uint16 (uint16 k + 1) = uint16 (k + 1).
Proof. unfold uint16. rewrite Zplus_mod_idemp_l. reflexivity. Qed.

Lemma top_bit m j :
  0 <= j <= 7 -> (Z.land (uint8 (m * 2 ^ j)) 128 =? 0) = negb (Z.testbit m (7 - j)).
Proof.
  intros Hj.
  assert (Hb : Z.testbit (uint8 (m * 2 ^ j)) 7 = Z.testbit m (7 - j)).
  { unfold uint8. change 256 with (2 ^ 8). rewrite Z.mod_pow2_bits_low by lia.
    rewrite Z.mul_pow2_bits by lia. reflexivity. }
  rewrite <- Hb.
  assert (Hl : Z.land (uint8 (m * 2 ^ j)) 128
               = if Z.testbit (uint8 (m * 2 ^ j)) 7 then 128 else 0).
  { apply Z.bits_inj'. intros n Hn. rewrite Z.land_spec.
    change 128 with (2 ^ 7). rewrite Z.pow2_bits_eqb by lia.
    destruct (Z.eqb_spec 7 n) as [<-|Hne].
    - rewrite andb_true_r. destruct (Z.testbit _ 7) eqn:E.
      + rewrite Z.pow2_bits_true; [reflexivity | lia].
      + rewrite Z.bits_0. reflexivity.
    - rewrite andb_false_r. destruct (Z.testbit _ 7).
      + rewrite Z.pow2_bits_false by lia. reflexivity.
      + rewrite Z.bits_0. reflexivity. }
  rewrite Hl. destruct (Z.testbit _ 7); reflexivity.
Qed.

Lemma shift_map m j : 0 <= j -> uint8 (Z.shiftl (uint8 (m * 2 ^ j)) 1) = uint8 (m * 2 ^ (j + 1)).
Proof.
  intros Hj. rewrite Z.shiftl_mul_pow2 by lia. unfold uint8.
  rewrite Zmult_mod_idemp_l. rewrite Z.pow_add_r by lia.
  f_equal. change (2 ^ 1) with 2. lia.
Qed.



Lemma pixel_unique gw ix iy ix' iy' :
  0 <= ix < gw -> 0 <= ix' < gw -> iy' * gw + ix' = iy * gw + ix -> ix' = ix /\ iy' = iy.
Proof.
  intros Hx Hx' He.
  assert (iy' = iy) by nia. subst. lia.
Qed.

Lemma glyphCell_nonneg g width x y ix iy : 0 <= glyphCell g width x y ix iy.
Proof.
  unfold glyphCell. pose proof (uint8_range width).
  pose proof (uint16_range (y + Glyph.yStart g + iy)).
  pose proof (uint16_range (x + Glyph.xStart g + ix)). nia.
Qed.

(** One pixel, when the byte its bit is in can be read. *)
Lemma renderPixel_eq font g width x y color iy ix k st m fuel d :
  0 <= k ->
  0 <= Glyph.offset g < 65536 ->
  walked font g k st ->
  bitmaps font !! Z.to_nat (uint16 (Glyph.offset g + k / 8)) = Some m ->
  renderPixel font g (uint8 width) x y color iy ix st fuel d
  = match (if Z.testbit m (7 - k mod 8)
           then store (glyphCell g width x y ix iy) (bswap16 color) fuel d
           else Ok tt d) with
    | Ok _ d' => Ok (uint16 (Glyph.offset g + (k + 8) / 8),
                     uint8 (m * 2 ^ (k mod 8 + 1)), uint8 (k + 1)) d'
    | Undefined e d' => Undefined e d'
    | Blocked d' => Blocked d'
    end.
Proof.
  intros Hk Hoff Hst Hm. destruct st as ((o, map), bit).
  destruct Hst as (-> & -> & Hmap).
  pose proof (Z.mod_pos_bound k 8 ltac:(lia)) as Hmod.
  unfold renderPixel. rewrite land7_mod8.
  assert (Hload :
    (if k mod 8 =? 0
     then m0 ← check (S := Display)
                 (index (bitmaps font) (uint16 (Glyph.offset g + (k + 7) / 8)) BitmapBounds);
          mret (uint16 (uint16 (Glyph.offset g + (k + 7) / 8) + 1), uint8 m0)
     else mret (uint16 (Glyph.offset g + (k + 7) / 8), map)) fuel d
    = Ok (uint16 (Glyph.offset g + (k + 8) / 8), uint8 (m * 2 ^ (k mod 8))) d).
  { destruct (Z.eqb_spec (k mod 8) 0) as [H0|H0].
    - assert (Hq : (k + 7) / 8 = k / 8) by (Z.div_mod_to_equations; lia).
      assert (Hq' : (k + 8) / 8 = k / 8 + 1) by (Z.div_mod_to_equations; lia).
      rewrite Hq, Hq'. rewrite run_bind.
      assert (Hidx : index (bitmaps font) (uint16 (Glyph.offset g + k / 8)) BitmapBounds
                     = Val m).
      { apply index_Val. split; [apply uint16_range | exact Hm]. }
      rewrite Hidx. simpl. rewrite uint16_succ, H0, Z.mul_1_r.
      replace (Glyph.offset g + k / 8 + 1) with (Glyph.offset g + (k / 8 + 1)) by lia.
      reflexivity.
    - destruct (Hmap H0) as (m' & Hm' & ->). rewrite Hm in Hm'. inversion Hm'. subst m'.
      assert (Hq : (k + 7) / 8 = (k + 8) / 8) by (Z.div_mod_to_equations; lia).
      rewrite Hq. reflexivity. }
  rewrite run_bind, Hload. cbv beta iota zeta.
  rewrite top_bit by lia. rewrite negb_involutive.
  rewrite uint8_succ, shift_map by lia.
  rewrite run_bind.
  unfold glyphCell.
  destruct (Z.testbit m (7 - k mod 8)).
  - destruct (store _ _ fuel d) as [[] d'| |]; reflexivity.
  - reflexivity.
Qed.



Section RenderChar.
Variables (font : Font) (g : Glyph.t) (width x y color : Z).
Variables (p : Panel) (busy : bool) (b0 : list Z).
Hypothesis Hok : glyphOk g = true.
Hypothesis Hbits : forall k, 0 <= k < Glyph.width g * Glyph.height g ->
  (Z.to_nat (uint16 (Glyph.offset g + k / 8)) < length (bitmaps font))%nat.
Hypothesis Hcells : forall ix iy, 0 <= ix < Glyph.width g -> 0 <= iy < Glyph.height g ->
  glyphPixel font g ix iy = true -> glyphCell g width x y ix iy < Z.of_nat (length b0).

Lemma glyphOk_fields :
  0 <= Glyph.offset g < 65536 /\ 0 <= Glyph.width g < 256 /\ 0 <= Glyph.height g < 256.
Proof.
  unfold glyphOk in Hok. rewrite !andb_true_iff, !Z.leb_le, !Z.ltb_lt in Hok. lia.
Qed.

Lemma renderPixel_rendering ix iy st :
  0 <= ix < Glyph.width g -> 0 <= iy < Glyph.height g ->
  returns 0 (rendering font g width x y color p busy b0 (iy * Glyph.width g + ix) st)
    (renderPixel font g (uint8 width) x y color iy ix st)
    (fun st' => rendering font g width x y color p busy b0 (iy * Glyph.width g + ix + 1) st').
Proof.
  intros Hix Hiy fuel d _ (Hst & Hp & Hb & Hlen & Hpaint & Hframe).
  pose proof glyphOk_fields as (Hoff & Hgw & Hgh).
  set (k := iy * Glyph.width g + ix) in *.
  assert (Hk : 0 <= k < Glyph.width g * Glyph.height g) by (unfold k; nia).
  destruct (lookup_lt_is_Some_2 _ _ (Hbits k Hk)) as [m Hm].
  rewrite (renderPixel_eq font g width x y color iy ix k st m fuel d
             ltac:(lia) Hoff Hst Hm).
  assert (Hbit : glyphPixel font g ix iy = Z.testbit m (7 - k mod 8)).
  { unfold glyphPixel, glyphBit. fold k. rewrite Hm. reflexivity. }
  pose proof (Z.mod_pos_bound k 8 ltac:(lia)) as Hmod.
  assert (Hwalk : walked font g (k + 1)
                    (uint16 (Glyph.offset g + (k + 8) / 8), uint8 (m * 2 ^ (k mod 8 + 1)),
                     uint8 (k + 1))).
  { split; [|split].
    - replace (k + 1 + 7) with (k + 8) by lia. reflexivity.
    - reflexivity.
    - intros Hnz. exists m.
      assert (Hq : (k + 1) / 8 = k / 8) by (Z.div_mod_to_equations; lia).
      assert (Hr : (k + 1) mod 8 = k mod 8 + 1) by (Z.div_mod_to_equations; lia).
      rewrite Hq, Hr. split; [exact Hm | reflexivity]. }
  destruct (Z.testbit m (7 - k mod 8)) eqn:Eb.
  - (* the pixel is set: one store *)
    pose proof (Hcells ix iy Hix Hiy Hbit) as Hc.
    pose proof (glyphCell_nonneg g width x y ix iy) as Hc0.
    unfold store. rewrite Hlen.
    destruct (Z.leb_spec 0 (glyphCell g width x y ix iy)); [|lia].
    destruct (Z.ltb_spec (glyphCell g width x y ix iy) (Z.of_nat (length b0))); [|lia].
    simpl. eexists _, _. split; [reflexivity|].
    split; [exact Hwalk|]. split; [exact Hp|]. split; [exact Hb|]. simpl.
    split; [rewrite length_insert; exact Hlen|]. split.
    + intros ix' iy' Hix' Hiy' Hlt Hset.
      destruct (Z.eq_dec (glyphCell g width x y ix' iy') (glyphCell g width x y ix iy))
        as [He|Hne].
      * rewrite He. apply list_lookup_insert_eq. lia.
      * rewrite list_lookup_insert_ne.
        2:{ pose proof (glyphCell_nonneg g width x y ix' iy'). lia. }
        apply Hpaint; try assumption.
        destruct (Z.eq_dec (iy' * Glyph.width g + ix') k) as [Hk'|Hk']; [|lia].
        destruct (pixel_unique _ _ _ _ _ Hix Hix' Hk') as [-> ->]. contradiction.
    + intros j Hj. rewrite list_lookup_insert_ne.
      * apply Hframe. intros ix' iy' Hix' Hiy' Hlt Hset. apply Hj; try assumption. lia.
      * apply Hj; try assumption. unfold k. lia.
  - eexists _, _. split; [reflexivity|].
    split; [exact Hwalk|]. split; [exact Hp|]. split; [exact Hb|].
    split; [exact Hlen|]. split.
    + intros ix' iy' Hix' Hiy' Hlt Hset. apply Hpaint; try assumption.
      destruct (Z.eq_dec (iy' * Glyph.width g + ix') k) as [Hk'|Hk']; [|lia].
      destruct (pixel_unique _ _ _ _ _ Hix Hix' Hk') as [-> ->]. congruence.
    + intros j Hj. apply Hframe. intros ix' iy' Hix' Hiy' Hlt Hset.
      apply Hj; try assumption. lia.
Qed.

Lemma renderRow_rendering iy st :
  0 <= iy < Glyph.height g ->
  returns 0 (rendering font g width x y color p busy b0 (iy * Glyph.width g) st)
    (forAcc (Z.to_nat (Glyph.width g)) 0
       (fun ix st => renderPixel font g (uint8 width) x y color iy ix st) st)
    (fun st' => rendering font g width x y color p busy b0 ((iy + 1) * Glyph.width g) st').
Proof.
  intros Hiy. pose proof glyphOk_fields as (Hoff & Hgw & Hgh).
  pose proof (returns_forAcc_idx 0
    (fun ix st d => rendering font g width x y color p busy b0 (iy * Glyph.width g + ix) st d)
    (fun ix st => renderPixel font g (uint8 width) x y color iy ix st)
    (Z.to_nat (Glyph.width g)) 0 st) as H.
  cbv beta in H. rewrite Z.add_0_r in H.
  rewrite Z.add_0_l, Z2Nat.id in H by lia.
  replace (iy * Glyph.width g + Glyph.width g) with ((iy + 1) * Glyph.width g) in H by lia.
  apply H. intros ix st' Hix.
  replace (iy * Glyph.width g + (ix + 1)) with (iy * Glyph.width g + ix + 1) by lia.
  apply renderPixel_rendering; lia.
Qed.

Lemma renderAll_rendering :
  returns 0 (rendering font g width x y color p busy b0 0 (Glyph.offset g, 0, 0))
    (forAcc (Z.to_nat (Glyph.height g)) 0
       (fun iy st => forAcc (Z.to_nat (Glyph.width g)) 0
          (fun ix st => renderPixel font g (uint8 width) x y color iy ix st) st)
       (Glyph.offset g, 0, 0))
    (fun st' => rendering font g width x y color p busy b0
                  (Glyph.height g * Glyph.width g) st').
Proof.
  pose proof glyphOk_fields as (Hoff & Hgw & Hgh).
  pose proof (returns_forAcc_idx 0
    (fun iy st d => rendering font g width x y color p busy b0 (iy * Glyph.width g) st d)
    (fun iy st => forAcc (Z.to_nat (Glyph.width g)) 0
          (fun ix st => renderPixel font g (uint8 width) x y color iy ix st) st)
    (Z.to_nat (Glyph.height g)) 0 (Glyph.offset g, 0, 0)) as H.
  cbv beta in H. rewrite Z.add_0_l, Z2Nat.id in H by lia.
  change (0 * Glyph.width g) with 0 in H.
  apply H. intros iy st Hiy. apply renderRow_rendering. lia.
Qed.

End RenderChar.

Lemma renderChar_run (font : Font) (width x y c color : Z) (g : Glyph.t)
    (fuel : nat) (d : Display) :
  getGlyph font c = Val g ->
  glyphOk g = true ->
  (forall k, 0 <= k < Glyph.width g * Glyph.height g ->
     (Z.to_nat (uint16 (Glyph.offset g + k / 8)) < length (bitmaps font))%nat) ->
  (forall ix iy, 0 <= ix < Glyph.width g -> 0 <= iy < Glyph.height g ->
     glyphPixel font g ix iy = true ->
     glyphCell g width x y ix iy < Z.of_nat (length (_buffer d))) ->
  exists d',
    renderChar font width x y c color fuel d = Ok (Glyph.advance g) d'
    /\ panel d' = panel d /\ _busy d' = _busy d
    /\ length (_buffer d') = length (_buffer d)
    /\ (forall ix iy, 0 <= ix < Glyph.width g -> 0 <= iy < Glyph.height g ->
          glyphPixel font g ix iy = true ->
          _buffer d' !! Z.to_nat (glyphCell g width x y ix iy) = Some (bswap16 color))
    /\ (forall j, (forall ix iy, 0 <= ix < Glyph.width g -> 0 <= iy < Glyph.height g ->
                     glyphPixel font g ix iy = true ->
                     Z.to_nat (glyphCell g width x y ix iy) <> j) ->
          _buffer d' !! j = _buffer d !! j).
Proof.
  intros Hg Hok Hbits Hcells.
  pose proof (glyphOk_fields g Hok) as (Hoff & Hgw & Hgh).
  destruct (renderAll_rendering font g width x y color (panel d) (_busy d) (_buffer d)
              Hok Hbits Hcells fuel d (Nat.le_0_l _)) as (st' & d' & Hr & Hinv).
  { split; [|split; [reflexivity | split; [reflexivity|]]].
    - split; [|split].
      + change ((0 + 7) / 8) with 0. rewrite Z.add_0_r. symmetry. apply uint16_small. lia.
      + reflexivity.
      + intros H. exfalso. apply H. reflexivity.
    - split; [reflexivity|]. split.
      + intros ix iy Hix Hiy Hlt. nia.
      + reflexivity. }
  exists d'. destruct Hinv as (_ & Hp & Hb & Hlen & Hpaint & Hframe).
  split.
  - unfold renderChar. rewrite Hg. rewrite run_bind. simpl check. cbv beta iota.
    rewrite run_bind, Hr. reflexivity.
  - split; [exact Hp|]. split; [exact Hb|]. split; [exact Hlen|]. split.
    + intros ix iy Hix Hiy Hset. apply Hpaint; try assumption. nia.
    + intros j Hj. apply Hframe. intros ix iy Hix Hiy _ Hset. apply Hj; assumption.
Qed.

(** X12. renderChar, for a glyph whose bitmap bytes are in the blob and
    whose set pixels fall in the buffer: it returns the advance; the cell
    of every set pixel holds the byte-swapped colour; every other cell,
    the protected members and the busy flag are as they were.  The pixel
    in column [ix] of row [iy] is bit [7 - k mod 8] of the byte
    [offset + k / 8] of the blob, for [k = iy * width + ix]; its cell is
    [(x + xStart + ix)] in the row [(y + yStart + iy)] of a buffer whose
    rows are as long as the area width taken as [uint8_t]. *)
Theorem renderChar_paints_glyph (font : Font) (width x y c color : Z) (g : Glyph.t)
    (fuel : nat) (d : Display) :
  getGlyph font c = Val g ->
  glyphOk g = true ->
  (forall k, 0 <= k < Glyph.width g * Glyph.height g ->
     (Z.to_nat (uint16 (Glyph.offset g + k / 8)) < length (bitmaps font))%nat) ->
  (forall ix iy, 0 <= ix < Glyph.width g -> 0 <= iy < Glyph.height g ->
     glyphPixel font g ix iy = true ->
     glyphCell g width x y ix iy < Z.of_nat (length (_buffer d))) ->
  exists d',
    renderChar font width x y c color fuel d = Ok (Glyph.advance g) d'
    /\ panel d' = panel d /\ _busy d' = _busy d
    /\ length (_buffer d') = length (_buffer d)
    /\ (forall ix iy, 0 <= ix < Glyph.width g -> 0 <= iy < Glyph.height g ->
          glyphPixel font g ix iy = true ->
          _buffer d' !! Z.to_nat (glyphCell g width x y ix iy) = Some (bswap16 color))
    /\ (forall j, (forall ix iy, 0 <= ix < Glyph.width g -> 0 <= iy < Glyph.height g ->
                     glyphPixel font g ix iy = true ->
                     Z.to_nat (glyphCell g width x y ix iy) <> j) ->
          _buffer d' !! j = _buffer d !! j).
Proof. apply renderChar_run. Qed.

Lemma renderChar_paints_glyph_witness :
  exists d',
    renderChar (demoFont 6) 20 0 baseline 97 2016 5%nat (demoDisplay 20 Left) = Ok 6 d'
    /\ _buffer d' !! 861%nat = Some (bswap16 2016)
    /\ _buffer d' !! 880%nat = Some (bswap16 2016)
    /\ _buffer d' !! 862%nat = Some 0.
Proof.
  destruct (renderChar_paints_glyph (demoFont 6) 20 0 baseline 97 2016 (demoGlyph 6 65)
              5%nat (demoDisplay 20 Left)) as (d' & Hr & _ & _ & _ & Hset & Hrest).
  - reflexivity.
  - reflexivity.
  - intros k Hk. change (Glyph.width (demoGlyph 6 65) * Glyph.height (demoGlyph 6 65))
      with 4 in Hk.
    rewrite Z.div_small by lia. vm_compute. lia.
  - intros ix iy Hix Hiy _. change (Glyph.width (demoGlyph 6 65)) with 2 in Hix.
    change (Glyph.height (demoGlyph 6 65)) with 2 in Hiy.
    unfold glyphCell. change (uint8 20) with 20.
    change (Glyph.yStart (demoGlyph 6 65)) with (-2).
    change (Glyph.xStart (demoGlyph 6 65)) with 0. unfold baseline, row_size.
    change (Z.quot (60 * 3) 4) with 45.
    rewrite !uint16_small by lia. change (Z.of_nat (length (_buffer (demoDisplay 20 Left))))
      with 1440. lia.
  - exists d'. split; [exact Hr|]. split; [|split].
    + apply (Hset 1 0); [vm_compute; split; [discriminate | reflexivity] ..| reflexivity].
    + apply (Hset 0 1); [vm_compute; split; [discriminate | reflexivity] ..| reflexivity].
    + rewrite (Hrest 862%nat); [reflexivity|].
      intros ix iy Hix Hiy _. change (Glyph.width (demoGlyph 6 65)) with 2 in Hix.
      change (Glyph.height (demoGlyph 6 65)) with 2 in Hiy.
      unfold glyphCell. change (uint8 20) with 20.
      change (Glyph.yStart (demoGlyph 6 65)) with (-2).
      change (Glyph.xStart (demoGlyph 6 65)) with 0. unfold baseline, row_size.
      change (Z.quot (60 * 3) 4) with 45.
      rewrite !uint16_small by lia. lia.
Defined.

(** X13. drawChar, with no transfer pending: when it returns, the cursor
    has moved on by the advance of the glyph (with no test against the
    area width), nothing else of the protected members has changed (no
    byte was sent) and no transfer is pending. *)
Theorem drawChar_advances_cursor {fonts : Fonts} (c : Z) (g : Glyph.t) (fuel : nat)
    (d d' : Display) :
  _busy d = false ->
  getGlyph fontDefault c = Val g ->
  drawChar c fuel d = Ok tt d' ->
  panel d'
  = panel (placeCursor (uint16 (Area.cursor (_area (panel d)) + Glyph.advance g)) d)
  /\ _busy d' = false.
Proof.
  intros Hb Hg Hr. destruct fuel as [|n].
  { unfold drawChar in Hr. rewrite run_bind in Hr. discriminate. }
  unfold drawChar in Hr. rewrite run_bind, (waitIdle_not_busy n d Hb) in Hr.
  rewrite run_bind in Hr. unfold get at 1 in Hr. cbv beta iota in Hr.
  rewrite run_bind in Hr.
  set (m := if Area.cursor (_area (panel d)) =? 0 then initializeBuffer else mret tt) in Hr.
  assert (Hm : keeps (fun s => panel s = panel d /\ notBusy s) m).
  { assert (HS : storeFree (fun s => panel s = panel d /\ notBusy s))
      by (intros i v s [? ?]; split; assumption).
    unfold m. destruct (_ =? 0); [apply keeps_initializeBuffer, HS | apply keeps_ret]. }
  pose proof (keeps_Ok _ m (Datatypes.S n) d Hm (conj eq_refl Hb)) as H1.
  destruct (m (Datatypes.S n) d) as [[] d1| |]; try discriminate.
  destruct (H1 tt d1 eq_refl) as [Hp1 Hb1].
  rewrite run_bind in Hr. unfold get at 1 in Hr. cbv beta iota zeta in Hr.
  rewrite run_bind in Hr. rewrite Hp1 in Hr.
  pose proof (renderChar_returns fontDefault (Area.width (_area (panel d)))
                (Area.cursor (_area (panel d))) baseline c
                (Area.foreground (_area (panel d))) g (panel d1) Hg
                (Datatypes.S n) d1 eq_refl) as H2.
  pose proof (keeps_Ok notBusy _ (Datatypes.S n) d1
                (keeps_renderChar notBusy fontDefault (Area.width (_area (panel d)))
                   (Area.cursor (_area (panel d))) baseline c
                   (Area.foreground (_area (panel d))) storeFree_notBusy) Hb1) as H3.
  destruct (renderChar _ _ _ _ _ _ (Datatypes.S n) d1) as [adv d2| |]; try discriminate.
  destruct H2 as [-> Hp2]. specialize (H3 _ _ eq_refl).
  inversion Hr. subst d'. split; [|exact H3].
  unfold placeCursor. simpl. rewrite Hp2, Hp1. reflexivity.
Qed.

(** ** The bus *)

Lemma quietBus_polled n p : quietBus p -> quietBus (polled n p).
Proof. intros Hq k. apply Hq. Qed.

Lemma quietBus_sent es p : quietBus p -> quietBus (sent es p).
Proof. intros Hq k. apply Hq. Qed.

Lemma sent_nil p : sent [] p = p.
Proof. destruct p as [hw px a [b n w]]. reflexivity. Qed.

Lemma polled_0 p : polled 0 p = p.
Proof. destruct p as [hw px a [b n w]]. reflexivity. Qed.

Lemma sent_sent es es' p : sent es' (sent es p) = sent (es ++ es') p.
Proof. unfold sent, with_spi. simpl. rewrite rev_app_distr, app_assoc. reflexivity. Qed.

Lemma polled_polled n m p : polled n (polled m p) = polled (n + m) p.
Proof. unfold polled, with_spi. simpl. rewrite Nat.add_assoc. reflexivity. Qed.

Lemma polled_sent n es p : polled n (sent es p) = sent es (polled n p).
Proof. reflexivity. Qed.

Lemma isBusy_quiet fuel p : quietBus p -> isBusy fuel p = Ok false (polled 1 p).
Proof. intros Hq. unfold isBusy. rewrite Hq. reflexivity. Qed.

Lemma spiWait_quiet n p : quietBus p -> spiWait (S n) p = Ok tt (polled 1 p).
Proof.
  intros Hq. unfold spiWait, iter. cbn [iter_]. rewrite !run_bind.
  rewrite (isBusy_quiet _ _ Hq). reflexivity.
Qed.

Lemma isBusy_run fuel p :
  isBusy fuel p = Ok (Bus.busy_at (_spi p) (Bus.polls (_spi p))) (polled 1 p).
Proof. reflexivity. Qed.

Lemma spiWait_idle n p :
  Bus.busy_at (_spi p) (Bus.polls (_spi p)) = false -> spiWait (S n) p = Ok tt (polled 1 p).
Proof.
  intros Hb. unfold spiWait, iter. cbn [iter_]. rewrite !run_bind.
  rewrite isBusy_run, Hb. reflexivity.
Qed.

Lemma emit_sent e fuel p : emit e fuel p = Ok tt (sent [e] p).
Proof. reflexivity. Qed.

Lemma finishWrite_quiet n p :
  quietBus p ->
  finishWrite (S n) p = Ok tt (sent [Bus.EndTransaction; Bus.ChipSelect true] (polled 1 p)).
Proof.
  intros Hq. unfold finishWrite. rewrite run_bind, (spiWait_quiet _ _ Hq). reflexivity.
Qed.

Lemma finishWrite_idle n p :
  Bus.busy_at (_spi p) (Bus.polls (_spi p)) = false ->
  finishWrite (S n) p = Ok tt (sent [Bus.EndTransaction; Bus.ChipSelect true] (polled 1 p)).
Proof.
  intros Hb. unfold finishWrite. rewrite run_bind, (spiWait_idle _ _ Hb). reflexivity.
Qed.

(** The argument bytes of a command, from the index [lo] on. *)
Lemma send_args data n : forall lo fuel p,
  0 <= lo -> (Z.to_nat lo + n <= length data)%nat ->
  forAcc n lo (fun i _ => b ← check (index data i DataBounds); emit (Bus.Transfer (uint8 b)))
         tt fuel p
  = Ok tt (sent (map (fun b => Bus.Transfer (uint8 b)) (take n (drop (Z.to_nat lo) data))) p).
Proof.
  induction n as [|n IH]; intros lo fuel p Hlo Hlen.
  - simpl. rewrite sent_nil. reflexivity.
  - cbn [forAcc]. rewrite run_bind.
    destruct (lookup_lt_is_Some_2 data (Z.to_nat lo) ltac:(lia)) as [b Hb].
    assert (Hidx : index data lo DataBounds = Val b) by (apply index_Val; auto).
    rewrite run_bind, Hidx. cbn [check]. rewrite emit_sent.
    rewrite IH by lia. rewrite sent_sent.
    rewrite (drop_S _ _ _ Hb). cbn [take map].
    replace (Z.to_nat (lo + 1)) with (Datatypes.S (Z.to_nat lo)) by lia. reflexivity.
Qed.

Lemma writeCommand_quiet command data len n p :
  quietBus p -> (Z.to_nat (uint8 len) <= length data)%nat ->
  writeCommand command data len (S n) p
  = Ok tt (sent (commandEvents command (take (Z.to_nat (uint8 len)) data)) (polled 1 p)).
Proof.
  intros Hq Hlen. unfold writeCommand.
  rewrite run_bind, (spiWait_quiet _ _ Hq).
  rewrite run_bind, emit_sent. rewrite run_bind, emit_sent. rewrite run_bind, emit_sent.
  unfold for_. rewrite send_args by (simpl; lia).
  rewrite !sent_sent. reflexivity.
Qed.

(** ** The ST7789 hooks on a bus that is never busy *)

Lemma hi_byte v : 0 <= v < 65536 -> uint8 (uint8 (Z.shiftr v 8)) = v / 256.
Proof.
  intros Hv. rewrite Z.shiftr_div_pow2 by lia. change (2 ^ 8) with 256.
  assert (0 <= v / 256 < 256) by (split; [apply Z.div_pos | apply Z.div_lt_upper_bound]; lia).
  rewrite (uint8_small (v / 256)) by lia. apply uint8_small. lia.
Qed.

Lemma lo_byte v : uint8 (Z.land v 255) = v mod 256.
Proof.
  change 255 with (Z.ones 8). rewrite Z.land_ones by lia. change (2 ^ 8) with 256.
  unfold uint8. apply Z.mod_mod. lia.
Qed.

Lemma writeSetWindow_run (x y width height : Z) (n : nat) (p : Panel) :
  quietBus p ->
  ST7789.writeSetWindow x y width height (S n) p
  = Ok tt (sent (windowEvents (uint16 (x + Pixels.x_start (_pixels p)))
                   (uint16 (uint16 (x + Pixels.x_start (_pixels p)) + width - 1))
                   (uint16 (y + Pixels.y_start (_pixels p)))
                   (uint16 (uint16 (y + Pixels.y_start (_pixels p)) + height - 1)))
                (polled 3 p)).
Proof.
  intros Hq.
  set (xs := uint16 (x + Pixels.x_start (_pixels p))).
  set (ys := uint16 (y + Pixels.y_start (_pixels p))).
  unfold ST7789.writeSetWindow. rewrite run_bind. unfold get. cbv beta iota zeta.
  fold xs ys.
  rewrite run_bind, (writeCommand_quiet _ _ _ _ _ Hq) by (vm_compute; lia).
  rewrite run_bind, writeCommand_quiet;
    [|apply quietBus_sent, quietBus_polled, Hq | vm_compute; lia].
  rewrite writeCommand_quiet;
    [|apply quietBus_sent, quietBus_polled, quietBus_sent, quietBus_polled, Hq
     |vm_compute; lia].
  change (Z.to_nat (uint8 4)) with 4%nat. change (Z.to_nat (uint8 0)) with 0%nat.
  cbn [take]. unfold commandEvents. cbn [map app].
  pose proof (uint16_range (x + Pixels.x_start (_pixels p))).
  pose proof (uint16_range (y + Pixels.y_start (_pixels p))).
  pose proof (uint16_range (xs + width - 1)).
  pose proof (uint16_range (ys + height - 1)).
  rewrite !hi_byte, !lo_byte by assumption.
  rewrite !polled_sent, !sent_sent, !polled_polled. reflexivity.
Qed.

(** X14. The window the ST7789 adapter sets, on a bus that is never
    busy: CASET with the first and the last column, RASET with the first
    and the last row, each as a 16-bit value high byte first, then RAMWR.
    The first column is [x] plus the panel's offset in the controller's
    memory and the last is [width - 1] further, both modulo 2^16; nothing
    but the bus changes. *)
Theorem writeSetWindow_sends_window (x y width height : Z) (fuel : nat) (p : Panel) :
  quietBus p ->
  (0 < fuel)%nat ->
  let xs := uint16 (x + Pixels.x_start (_pixels p)) in
  let ys := uint16 (y + Pixels.y_start (_pixels p)) in
  ST7789.writeSetWindow x y width height fuel p
  = Ok tt (sent (windowEvents xs (uint16 (xs + width - 1)) ys (uint16 (ys + height - 1)))
                (polled 3 p)).
Proof.
  intros Hq Hfuel xs ys. destruct fuel as [|n]; [lia|].
  apply writeSetWindow_run, Hq.
Qed.

Lemma writeSetWindow_sends_window_witness :
  ST7789.writeSetWindow 0 60 24 60 5%nat (demoPanel 24 Left)
  = Ok tt (sent (windowEvents
                   (uint16 (0 + Pixels.x_start (_pixels (demoPanel 24 Left))))
                   (uint16 (uint16 (0 + Pixels.x_start (_pixels (demoPanel 24 Left))) + 24 - 1))
                   (uint16 (60 + Pixels.y_start (_pixels (demoPanel 24 Left))))
                   (uint16 (uint16 (60 + Pixels.y_start (_pixels (demoPanel 24 Left))) + 60 - 1)))
                (polled 3 (demoPanel 24 Left))).
Proof.
  refine (writeSetWindow_sends_window 0 60 24 60 5%nat (demoPanel 24 Left) _ _).
  - intros k. reflexivity.
  - lia.
Defined.

(** The window of the witness: columns 108 to 131, rows 60 to 119. *)
Example writeSetWindow_demo :
  Bus.wire (_spi (final (ST7789.writeSetWindow 0 60 24 60 5%nat (demoPanel 24 Left))))
  = rev (windowEvents 108 131 60 119).
Proof. reflexivity. Qed.

Lemma setPixels_run width height x_start y_start fuel p :
  ST7789.setPixels width height x_start y_start fuel p
  = Ok tt (with_pixels {| Pixels.width := width; Pixels.height := height;
                          Pixels.x_start := uint16 x_start;
                          Pixels.y_start := uint16 y_start |} p).
Proof. reflexivity. Qed.

Lemma quietBus_with_pixels px p : quietBus p -> quietBus (with_pixels px p).
Proof. intros Hq k. apply Hq. Qed.

Lemma writeSetOrientation_run angle n p px m :
  quietBus p ->
  (if angle =? 0 then
     ST7789.setPixels (Hardware.width (_hardware p)) (Hardware.height (_hardware p))
       (Z.quot (240 - Hardware.width (_hardware p)) 2)
       (if Hardware.y_centered (_hardware p)
        then Z.quot (320 - Hardware.height (_hardware p)) 2 else 0);;
     mret ST7789.CMD_MADCTL_RGB
   else if angle =? 90 then
     ST7789.setPixels (Hardware.height (_hardware p)) (Hardware.width (_hardware p))
       (if Hardware.y_centered (_hardware p)
        then Z.quot (320 - Hardware.height (_hardware p)) 2 else 0)
       (Z.quot (240 - Hardware.width (_hardware p) + 1) 2);;
     mret (Z.lor (Z.lor ST7789.CMD_MADCTL_MX ST7789.CMD_MADCTL_MV) ST7789.CMD_MADCTL_RGB)
   else if angle =? 180 then
     ST7789.setPixels (Hardware.width (_hardware p)) (Hardware.height (_hardware p))
       (Z.quot (240 - Hardware.width (_hardware p) + 1) 2)
       (if Hardware.y_centered (_hardware p)
        then Z.quot (320 - Hardware.height (_hardware p)) 2
        else 320 - Hardware.height (_hardware p));;
     mret (Z.lor (Z.lor ST7789.CMD_MADCTL_MX ST7789.CMD_MADCTL_MY) ST7789.CMD_MADCTL_RGB)
   else if angle =? 270 then
     ST7789.setPixels (Hardware.height (_hardware p)) (Hardware.width (_hardware p))
       (if Hardware.y_centered (_hardware p)
        then Z.quot (320 - Hardware.height (_hardware p)) 2
        else 320 - Hardware.height (_hardware p))
       (Z.quot (240 - Hardware.width (_hardware p)) 2);;
     mret (Z.lor (Z.lor ST7789.CMD_MADCTL_MY ST7789.CMD_MADCTL_MV) ST7789.CMD_MADCTL_RGB)
   else mret 0) (S n) p = Ok m (with_pixels px p) ->
  ST7789.writeSetOrientation angle (S n) p
  = Ok tt (sent (commandEvents 54 [m]) (polled 1 (with_pixels px p))).
Proof.
  intros Hq Hsel. unfold ST7789.writeSetOrientation.
  rewrite run_bind. unfold get. cbv beta iota zeta.
  rewrite run_bind, Hsel.
  rewrite writeCommand_quiet;
    [reflexivity | apply quietBus_with_pixels, Hq | change (Z.to_nat (uint8 1)) with 1%nat; simpl; lia].
Qed.

Lemma with_pixels_same p : with_pixels (_pixels p) p = p.
Proof. destruct p. reflexivity. Qed.

Lemma writeSetOrientation_geometry (angle : Z) (fuel : nat) (p : Panel) :
  quietBus p ->
  (0 < fuel)%nat ->
  0 <= Hardware.width (_hardware p) <= 240 ->
  0 <= Hardware.height (_hardware p) <= 320 ->
  angle = 0 \/ angle = 90 \/ angle = 180 \/ angle = 270 ->
  exists px m,
    ST7789.writeSetOrientation angle fuel p
    = Ok tt (sent (commandEvents 54 [m]) (polled 1 (with_pixels px p)))
    /\ Z.testbit m 5 = (angle =? 90) || (angle =? 270)
    /\ (Pixels.width px, Pixels.height px)
       = (if Z.testbit m 5
          then (Hardware.height (_hardware p), Hardware.width (_hardware p))
          else (Hardware.width (_hardware p), Hardware.height (_hardware p)))
    /\ 0 <= Pixels.x_start px
    /\ Pixels.x_start px + Pixels.width px <= (if Z.testbit m 5 then 320 else 240)
    /\ 0 <= Pixels.y_start px
    /\ Pixels.y_start px + Pixels.height px <= (if Z.testbit m 5 then 240 else 320).
Proof.
  intros Hq Hfuel Hw Hh Hangle. destruct fuel as [|n]; [lia|].
  set (w := Hardware.width (_hardware p)) in *.
  set (h := Hardware.height (_hardware p)) in *.
  assert (Hq1 : 0 <= Z.quot (240 - w) 2 /\ Z.quot (240 - w) 2 + w <= 240).
  { rewrite quot_floor by lia. Z.div_mod_to_equations. lia. }
  assert (Hq2 : 0 <= Z.quot (240 - w + 1) 2 /\ Z.quot (240 - w + 1) 2 + w <= 240).
  { rewrite quot_floor by lia. Z.div_mod_to_equations. lia. }
  assert (Hq3 : 0 <= Z.quot (320 - h) 2 /\ Z.quot (320 - h) 2 + h <= 320).
  { rewrite quot_floor by lia. Z.div_mod_to_equations. lia. }
  destruct Hangle as [ -> | [ -> | [ -> | -> ] ] ].
  - eexists _, _. split.
    { apply writeSetOrientation_run; [exact Hq|]. cbv beta iota.
      change (0 =? 0) with true. cbv iota. rewrite run_bind, setPixels_run. reflexivity. }
    fold w h. cbn [Pixels.width Pixels.height Pixels.x_start Pixels.y_start].
    change (Z.testbit ST7789.CMD_MADCTL_RGB 5) with false. cbv iota.
    split; [reflexivity|]. split; [reflexivity|].
    destruct (Hardware.y_centered (_hardware p)); rewrite !uint16_small by lia; lia.
  - eexists _, _. split.
    { apply writeSetOrientation_run; [exact Hq|]. cbv beta iota.
      change (90 =? 0) with false. change (90 =? 90) with true. cbv iota.
      rewrite run_bind, setPixels_run. reflexivity. }
    fold w h. cbn [Pixels.width Pixels.height Pixels.x_start Pixels.y_start].
    change (Z.testbit _ 5) with true. cbv iota.
    split; [reflexivity|]. split; [reflexivity|].
    destruct (Hardware.y_centered (_hardware p)); rewrite !uint16_small by lia; lia.
  - eexists _, _. split.
    { apply writeSetOrientation_run; [exact Hq|]. cbv beta iota.
      change (180 =? 0) with false. change (180 =? 90) with false.
      change (180 =? 180) with true. cbv iota.
      rewrite run_bind, setPixels_run. reflexivity. }
    fold w h. cbn [Pixels.width Pixels.height Pixels.x_start Pixels.y_start].
    change (Z.testbit _ 5) with false. cbv iota.
    split; [reflexivity|]. split; [reflexivity|].
    destruct (Hardware.y_centered (_hardware p)); rewrite !uint16_small by lia; lia.
  - eexists _, _. split.
    { apply writeSetOrientation_run; [exact Hq|]. cbv beta iota.
      change (270 =? 0) with false. change (270 =? 90) with false.
      change (270 =? 180) with false. change (270 =? 270) with true. cbv iota.
      rewrite run_bind, setPixels_run. reflexivity. }
    fold w h. cbn [Pixels.width Pixels.height Pixels.x_start Pixels.y_start].
    change (Z.testbit _ 5) with true. cbv iota.
    split; [reflexivity|]. split; [reflexivity|].
    destruct (Hardware.y_centered (_hardware p)); rewrite !uint16_small by lia; lia.
Qed.

(** X15. The orientation the ST7789 adapter sets for a panel of at most
    240 x 320 pixels and one of the four angles, on a bus that is never
    busy: MADCTL is sent with one byte whose bit 5 (exchange of rows and
    columns) is set for 90 and 270 exactly; the visible size is the
    panel's, exchanged with that bit; and the visible window, from
    [x_start], [y_start] on, lies inside the 240 x 320 cells of the
    controller's memory (320 x 240 when exchanged). *)
Theorem writeSetOrientation_window_in_memory (angle : Z) (fuel : nat) (p : Panel) :
  quietBus p ->
  (0 < fuel)%nat ->
  0 <= Hardware.width (_hardware p) <= 240 ->
  0 <= Hardware.height (_hardware p) <= 320 ->
  angle = 0 \/ angle = 90 \/ angle = 180 \/ angle = 270 ->
  exists px m,
    ST7789.writeSetOrientation angle fuel p
    = Ok tt (sent (commandEvents 54 [m]) (polled 1 (with_pixels px p)))
    /\ Z.testbit m 5 = (angle =? 90) || (angle =? 270)
    /\ (Pixels.width px, Pixels.height px)
       = (if Z.testbit m 5
          then (Hardware.height (_hardware p), Hardware.width (_hardware p))
          else (Hardware.width (_hardware p), Hardware.height (_hardware p)))
    /\ 0 <= Pixels.x_start px
    /\ Pixels.x_start px + Pixels.width px <= (if Z.testbit m 5 then 320 else 240)
    /\ 0 <= Pixels.y_start px
    /\ Pixels.y_start px + Pixels.height px <= (if Z.testbit m 5 then 240 else 320).
Proof. apply writeSetOrientation_geometry. Qed.

Lemma writeSetOrientation_window_in_memory_witness :
  exists px m,
    ST7789.writeSetOrientation 90 5%nat (demoPanel 24 Left)
    = Ok tt (sent (commandEvents 54 [m]) (polled 1 (with_pixels px (demoPanel 24 Left))))
    /\ Z.testbit m 5 = true
    /\ Pixels.width px = 60 /\ Pixels.height px = 24.
Proof.
  destruct (writeSetOrientation_window_in_memory 90 5%nat (demoPanel 24 Left))
    as (px & m & Hr & Hm & Hsize & _).
  - intros k. reflexivity.
  - lia.
  - simpl. lia.
  - simpl. lia.
  - auto.
  - exists px, m. split; [exact Hr|]. split; [exact Hm|].
    rewrite Hm in Hsize. simpl in Hsize. inversion Hsize. split; reflexivity.
Defined.

(** X16. An angle other than 0, 90, 180 and 270 leaves the visible size
    and the offsets as they were and sends MADCTL with the byte 0. *)
Theorem writeSetOrientation_other_angle (angle : Z) (fuel : nat) (p : Panel) :
  quietBus p ->
  (0 < fuel)%nat ->
  angle <> 0 -> angle <> 90 -> angle <> 180 -> angle <> 270 ->
  ST7789.writeSetOrientation angle fuel p
  = Ok tt (sent (commandEvents 54 [0]) (polled 1 p)).
Proof.
  intros Hq Hfuel H0 H90 H180 H270. destruct fuel as [|n]; [lia|].
  rewrite <- (with_pixels_same p) at 2.
  apply writeSetOrientation_run; [exact Hq|].
  destruct (Z.eqb_spec angle 0); [contradiction|].
  destruct (Z.eqb_spec angle 90); [contradiction|].
  destruct (Z.eqb_spec angle 180); [contradiction|].
  destruct (Z.eqb_spec angle 270); [contradiction|].
  rewrite with_pixels_same. reflexivity.
Qed.

Lemma writeSetOrientation_other_angle_witness :
  ST7789.writeSetOrientation 45 5%nat (demoPanel 24 Left)
  = Ok tt (sent (commandEvents 54 [0]) (polled 1 (demoPanel 24 Left))).
Proof.
  apply (writeSetOrientation_other_angle 45 5%nat (demoPanel 24 Left));
    [intros k; reflexivity | lia ..].
Defined.

Lemma keeps_isBusy_pixels px : keeps (fun p => _pixels p = px) isBusy.
Proof. intros fuel p Hp. exact Hp. Qed.

Lemma keeps_emit_pixels px e : keeps (fun p => _pixels p = px) (emit e).
Proof. apply keeps_modify. intros p Hp. exact Hp. Qed.

Lemma keeps_writeCommand_pixels px command data len :
  keeps (fun p => _pixels p = px) (writeCommand command data len).
Proof.
  pose proof (keeps_isBusy_pixels px). pose proof (keeps_emit_pixels px).
  unfold writeCommand, spiWait. keeps_auto.
Qed.

Lemma writeSetOrientation_pixels angle fuel p px m :
  (if angle =? 0 then
     ST7789.setPixels (Hardware.width (_hardware p)) (Hardware.height (_hardware p))
       (Z.quot (240 - Hardware.width (_hardware p)) 2)
       (if Hardware.y_centered (_hardware p)
        then Z.quot (320 - Hardware.height (_hardware p)) 2 else 0);;
     mret ST7789.CMD_MADCTL_RGB
   else if angle =? 90 then
     ST7789.setPixels (Hardware.height (_hardware p)) (Hardware.width (_hardware p))
       (if Hardware.y_centered (_hardware p)
        then Z.quot (320 - Hardware.height (_hardware p)) 2 else 0)
       (Z.quot (240 - Hardware.width (_hardware p) + 1) 2);;
     mret (Z.lor (Z.lor ST7789.CMD_MADCTL_MX ST7789.CMD_MADCTL_MV) ST7789.CMD_MADCTL_RGB)
   else if angle =? 180 then
     ST7789.setPixels (Hardware.width (_hardware p)) (Hardware.height (_hardware p))
       (Z.quot (240 - Hardware.width (_hardware p) + 1) 2)
       (if Hardware.y_centered (_hardware p)
        then Z.quot (320 - Hardware.height (_hardware p)) 2
        else 320 - Hardware.height (_hardware p));;
     mret (Z.lor (Z.lor ST7789.CMD_MADCTL_MX ST7789.CMD_MADCTL_MY) ST7789.CMD_MADCTL_RGB)
   else if angle =? 270 then
     ST7789.setPixels (Hardware.height (_hardware p)) (Hardware.width (_hardware p))
       (if Hardware.y_centered (_hardware p)
        then Z.quot (320 - Hardware.height (_hardware p)) 2
        else 320 - Hardware.height (_hardware p))
       (Z.quot (240 - Hardware.width (_hardware p)) 2);;
     mret (Z.lor (Z.lor ST7789.CMD_MADCTL_MY ST7789.CMD_MADCTL_MV) ST7789.CMD_MADCTL_RGB)
   else mret 0) fuel p = Ok m (with_pixels px p) ->
  _pixels (final (ST7789.writeSetOrientation angle fuel p)) = px.
Proof.
  intros Hsel. unfold ST7789.writeSetOrientation.
  rewrite run_bind. unfold get. cbv beta iota zeta. rewrite run_bind, Hsel.
  pose proof (keeps_writeCommand_pixels px ST7789.CMD_MADCTL [m] 1 fuel (with_pixels px p)
                eq_refl) as H.
  destruct (writeCommand _ _ _ fuel (with_pixels px p)); exact H.
Qed.

(** X17. Turning the panel by 180 degrees mirrors the margins of the
    short side: whatever the bus does, the offset set for 0 degrees, the
    panel width and the offset set for 180 degrees add up to the 240
    columns of the controller, and so do those for 90 and 270 degrees in
    the rows; on the long side they add up to 320 when the panel is not
    centred. *)
Theorem orientation_mirrors_margins (fuel : nat) (p : Panel) :
  0 <= Hardware.width (_hardware p) <= 240 ->
  0 <= Hardware.height (_hardware p) <= 320 ->
  Pixels.x_start (_pixels (final (ST7789.writeSetOrientation 0 fuel p)))
  + Hardware.width (_hardware p)
  + Pixels.x_start (_pixels (final (ST7789.writeSetOrientation 180 fuel p))) = 240
  /\ Pixels.y_start (_pixels (final (ST7789.writeSetOrientation 90 fuel p)))
     + Hardware.width (_hardware p)
     + Pixels.y_start (_pixels (final (ST7789.writeSetOrientation 270 fuel p))) = 240
  /\ (Hardware.y_centered (_hardware p) = false ->
      Pixels.y_start (_pixels (final (ST7789.writeSetOrientation 0 fuel p)))
      + Hardware.height (_hardware p)
      + Pixels.y_start (_pixels (final (ST7789.writeSetOrientation 180 fuel p))) = 320
      /\ Pixels.x_start (_pixels (final (ST7789.writeSetOrientation 90 fuel p)))
         + Hardware.height (_hardware p)
         + Pixels.x_start (_pixels (final (ST7789.writeSetOrientation 270 fuel p))) = 320).
Proof.
  intros Hw Hh.
  rewrite (writeSetOrientation_pixels 0 fuel p _ _ eq_refl).
  rewrite (writeSetOrientation_pixels 90 fuel p _ _ eq_refl).
  rewrite (writeSetOrientation_pixels 180 fuel p _ _ eq_refl).
  rewrite (writeSetOrientation_pixels 270 fuel p _ _ eq_refl).
  cbn [Pixels.x_start Pixels.y_start].
  set (w := Hardware.width (_hardware p)) in *.
  set (h := Hardware.height (_hardware p)) in *.
  assert (Hq1 : 0 <= Z.quot (240 - w) 2 <= 240
                /\ Z.quot (240 - w) 2 + Z.quot (240 - w + 1) 2 = 240 - w).
  { rewrite !quot_floor by lia. Z.div_mod_to_equations. lia. }
  assert (Hq2 : 0 <= Z.quot (240 - w + 1) 2 <= 240).
  { rewrite quot_floor by lia. Z.div_mod_to_equations. lia. }
  rewrite !(uint16_small (Z.quot (240 - w) 2)) by lia.
  rewrite !(uint16_small (Z.quot (240 - w + 1) 2)) by lia.
  split; [lia|]. split; [lia|].
  intros Hc. rewrite Hc. rewrite !uint16_small by lia. lia.
Qed.

Lemma orientation_mirrors_margins_witness :
  Pixels.x_start (_pixels (final (ST7789.writeSetOrientation 0 5%nat (demoPanel 24 Left))))
  + Hardware.width (_hardware (demoPanel 24 Left))
  + Pixels.x_start (_pixels (final (ST7789.writeSetOrientation 180 5%nat (demoPanel 24 Left))))
  = 240.
Proof.
  refine (proj1 (orientation_mirrors_margins 5%nat (demoPanel 24 Left) _ _)); simpl; lia.
Defined.

(** ** Display-level runs on a bus that is never busy *)

Lemma quiet_onWire k es d : quiet d -> quiet (onWire k es d).
Proof. intros Hq j. apply Hq. Qed.

Lemma onWire_onWire k es k' es' d :
  onWire k' es' (onWire k es d) = onWire (k' + k) (es ++ es') d.
Proof.
  unfold onWire.
  change (panel (with_panel (sent es (polled k (panel d))) d))
    with (sent es (polled k (panel d))).
  rewrite polled_sent, sent_sent, polled_polled. reflexivity.
Qed.

Lemma onWire_0_nil d : onWire 0 [] d = d.
Proof. destruct d as [[hw px a [b n w]] busy buf r]. reflexivity. Qed.

Lemma onPanel_onWire {A} (m : Run Panel A) fuel d a k es :
  m fuel (panel d) = Ok a (sent es (polled k (panel d))) ->
  onPanel m fuel d = Ok a (onWire k es d).
Proof. intros Hm. unfold onPanel. rewrite Hm. reflexivity. Qed.

Lemma onPanel_emit e fuel d : onPanel (emit e) fuel d = Ok tt (onWire 0 [e] d).
Proof. reflexivity. Qed.

Lemma prepareWrite_idle_quiet n d :
  _busy d = false ->
  prepareWrite (S n) d = Ok tt (onWire 0 [Bus.BeginTransaction; Bus.ChipSelect false] d).
Proof.
  intros Hb. unfold prepareWrite. rewrite run_bind, (waitIdle_not_busy n d Hb).
  reflexivity.
Qed.

Lemma onPanel_writeCommand_quiet command data len n d :
  quiet d -> (Z.to_nat (uint8 len) <= length data)%nat ->
  onPanel (writeCommand command data len) (S n) d
  = Ok tt (onWire 1 (commandEvents command (take (Z.to_nat (uint8 len)) data)) d).
Proof.
  intros Hq Hlen. apply onPanel_onWire. apply writeCommand_quiet; assumption.
Qed.

Lemma onPanel_finishWrite_quiet n d :
  quiet d ->
  onPanel finishWrite (S n) d
  = Ok tt (onWire 1 [Bus.EndTransaction; Bus.ChipSelect true] d).
Proof. intros Hq. apply onPanel_onWire. apply finishWrite_quiet, Hq. Qed.

(** X18. enable and sleep, with no transfer pending and a bus that is
    never busy: each is one transaction of one command byte without
    arguments, DISPON (0x29) or DISPOFF (0x28) for enable, SLPIN (0x10)
    or SLPOUT (0x11) for sleep, and nothing but the bus changes. *)
Theorem enable_sleep_send_one_command (on : bool) (fuel : nat) (d : Display) :
  _busy d = false ->
  quiet d ->
  (0 < fuel)%nat ->
  ST7789.enable on fuel d
  = Ok tt (onWire 2 ([Bus.BeginTransaction; Bus.ChipSelect false]
                     ++ commandEvents (if on then 41 else 40) []
                     ++ [Bus.EndTransaction; Bus.ChipSelect true]) d)
  /\ ST7789.sleep on fuel d
     = Ok tt (onWire 2 ([Bus.BeginTransaction; Bus.ChipSelect false]
                        ++ commandEvents (if on then 16 else 17) []
                        ++ [Bus.EndTransaction; Bus.ChipSelect true]) d).
Proof.
  intros Hb Hq Hfuel. destruct fuel as [|n]; [lia|]. split.
  - unfold ST7789.enable.
    rewrite run_bind, (prepareWrite_idle_quiet n d Hb).
    rewrite run_bind, onPanel_writeCommand_quiet;
      [|apply quiet_onWire, Hq | vm_compute; lia].
    rewrite onPanel_finishWrite_quiet by (do 2 apply quiet_onWire; exact Hq).
    rewrite !onWire_onWire. destruct on; reflexivity.
  - unfold ST7789.sleep.
    rewrite run_bind, (prepareWrite_idle_quiet n d Hb).
    rewrite run_bind, onPanel_writeCommand_quiet;
      [|apply quiet_onWire, Hq | vm_compute; lia].
    rewrite onPanel_finishWrite_quiet by (do 2 apply quiet_onWire; exact Hq).
    rewrite !onWire_onWire. destruct on; reflexivity.
Qed.

Lemma enable_sleep_send_one_command_witness :
  ST7789.enable true 5%nat (demoDisplay 20 Left)
  = Ok tt (onWire 2 ([Bus.BeginTransaction; Bus.ChipSelect false]
                     ++ commandEvents (if true then 41 else 40) []
                     ++ [Bus.EndTransaction; Bus.ChipSelect true]) (demoDisplay 20 Left)).
Proof.
  refine (proj1 (enable_sleep_send_one_command true 5%nat (demoDisplay 20 Left) _ _ _)).
  - reflexivity.
  - intros k. reflexivity.
  - lia.
Defined.

(** ** loop and the wait for a pending transfer *)

(** X19. loop.  With no transfer pending it does nothing.  With one
    pending it polls the bus once: if the bus is busy nothing else
    changes; if the bus is idle at that poll and at the next (the one
    finishWrite makes), loop ends the transaction, raises chip select and
    clears the busy flag. *)
Theorem loop_ends_finished_transfer (fuel : nat) (d : Display) :
  (_busy d = false -> loop fuel d = Ok tt d)
  /\ (_busy d = true ->
      Bus.busy_at (_spi (panel d)) (Bus.polls (_spi (panel d))) = true ->
      loop fuel d = Ok tt (onWire 1 [] d))
  /\ (_busy d = true ->
      Bus.busy_at (_spi (panel d)) (Bus.polls (_spi (panel d))) = false ->
      Bus.busy_at (_spi (panel d)) (S (Bus.polls (_spi (panel d)))) = false ->
      (0 < fuel)%nat ->
      loop fuel d
      = Ok tt (with_busy false (onWire 2 [Bus.EndTransaction; Bus.ChipSelect true] d))).
Proof.
  split; [|split].
  - intros Hb. unfold loop. rewrite run_bind. unfold get. cbv beta iota.
    rewrite Hb. reflexivity.
  - intros Hb Hbus. unfold loop. rewrite run_bind. unfold get. cbv beta iota.
    rewrite Hb. cbn [negb]. rewrite run_bind. unfold onPanel at 1, isBusy.
    cbv beta iota zeta. rewrite Hbus. reflexivity.
  - intros Hb Hbus Hnext Hfuel. destruct fuel as [|n]; [lia|].
    unfold loop. rewrite run_bind. unfold get. cbv beta iota.
    rewrite Hb. cbn [negb]. rewrite run_bind.
    rewrite (onPanel_onWire isBusy (S n) d false 1 []) by (rewrite isBusy_run, Hbus; reflexivity).
    cbv iota. rewrite run_bind.
    rewrite (onPanel_onWire finishWrite (S n) (onWire 1 [] d) tt 1
               [Bus.EndTransaction; Bus.ChipSelect true])
      by (apply finishWrite_idle; exact Hnext).
    rewrite onWire_onWire. reflexivity.
Qed.

Lemma loop_ends_finished_transfer_witness :
  loop 5%nat (with_busy true (demoDisplay 20 Left))
  = Ok tt (with_busy false
             (onWire 2 [Bus.EndTransaction; Bus.ChipSelect true]
                (with_busy true (demoDisplay 20 Left)))).
Proof.
  refine (proj2 (proj2 (loop_ends_finished_transfer 5%nat
                          (with_busy true (demoDisplay 20 Left)))) _ _ _ _);
    [reflexivity | reflexivity | reflexivity | lia].
Defined.

(** The bus is never busy from the poll number [K] on. *)
Lemma spiWait_eventually K n : forall fuel p,
  (forall k, (K <= k)%nat -> Bus.busy_at (_spi p) k = false) ->
  (K - Bus.polls (_spi p) + 1 <= n)%nat ->
  exists j, iter_ n (fun _ : unit => b ← isBusy;
                       if b : bool then yield;; mret (inl tt) else mret (inr tt)) tt fuel p
            = Ok tt (polled (S j) p).
Proof.
  induction n as [|n IH]; intros fuel p HK Hn; [lia|].
  cbn [iter_]. rewrite !run_bind, isBusy_run.
  destruct (Bus.busy_at (_spi p) (Bus.polls (_spi p))) eqn:Hb.
  - assert (Bus.polls (_spi p) < K)%nat.
    { destruct (Nat.lt_ge_cases (Bus.polls (_spi p)) K) as [|Hge]; [assumption|].
      rewrite (HK _ Hge) in Hb. discriminate. }
    destruct (IH fuel (polled 1 p)) as (j & Hj).
    + intros k Hk. apply HK, Hk.
    + simpl. lia.
    + exists (S j). cbn [mbind]. rewrite !run_bind. cbn [yield mret Run_ret].
      rewrite Hj, polled_polled. f_equal. f_equal. lia.
  - exists 0%nat. reflexivity.
Qed.

Lemma waitIdle_round n fuel d :
  iter_ (S n) (fun _ : unit => d ← get;
                 if _busy d then yield;; loop;; mret (inl tt) else mret (inr tt)) tt fuel d
  = if _busy d
    then match loop fuel d with
         | Ok _ d1 => iter_ n (fun _ : unit => d ← get;
                                 if _busy d then yield;; loop;; mret (inl tt)
                                 else mret (inr tt)) tt fuel d1
         | Undefined f s => Undefined f s
         | Blocked s => Blocked s
         end
    else Ok tt d.
Proof.
  cbn [iter_]. rewrite !run_bind. change (get fuel d) with (Ok d d). cbv beta iota.
  destruct (_busy d); [|reflexivity].
  rewrite !run_bind. change (yield fuel d) with (Ok tt d). cbv beta iota.
  rewrite run_bind. destruct (loop fuel d); reflexivity.
Qed.

Lemma loop_busy fuel d :
  _busy d = true ->
  loop fuel d
  = if Bus.busy_at (_spi (panel d)) (Bus.polls (_spi (panel d)))
    then Ok tt (onWire 1 [] d)
    else (onPanel finishWrite;; setBusy false) fuel (onWire 1 [] d).
Proof.
  intros Hb. unfold loop. rewrite run_bind. change (get fuel d) with (Ok d d).
  cbv beta iota. rewrite Hb. cbn [negb]. rewrite run_bind.
  rewrite (onPanel_onWire isBusy fuel d _ 1 []) by (rewrite isBusy_run; reflexivity).
  destruct (Bus.busy_at _ _); reflexivity.
Qed.

Lemma waitIdle_eventually K n : forall fuel d,
  (forall k, (K <= k)%nat -> Bus.busy_at (_spi (panel d)) k = false) ->
  _busy d = true ->
  (K - Bus.polls (_spi (panel d)) + 2 <= n)%nat ->
  (K - Bus.polls (_spi (panel d)) + 1 <= fuel)%nat ->
  exists k, iter_ n (fun _ : unit => d ← get;
                       if _busy d then yield;; loop;; mret (inl tt) else mret (inr tt))
                  tt fuel d
            = Ok tt (with_busy false
                       (onWire k [Bus.EndTransaction; Bus.ChipSelect true] d)).
Proof.
  induction n as [|n IH]; intros fuel d HK Hb Hn Hfuel; [lia|].
  rewrite waitIdle_round, Hb, (loop_busy fuel d Hb).
  destruct (Bus.busy_at (_spi (panel d)) (Bus.polls (_spi (panel d)))) eqn:Hbus.
  - assert (Bus.polls (_spi (panel d)) < K)%nat.
    { destruct (Nat.lt_ge_cases (Bus.polls (_spi (panel d))) K) as [|Hge]; [assumption|].
      rewrite (HK _ Hge) in Hbus. discriminate. }
    destruct (IH fuel (onWire 1 [] d)) as (k & Hk).
    + intros j Hj. apply HK, Hj.
    + exact Hb.
    + simpl. lia.
    + simpl. lia.
    + exists (k + 1)%nat. rewrite Hk, onWire_onWire. reflexivity.
  - destruct (spiWait_eventually K fuel fuel (panel (onWire 1 [] d))) as (j & Hj).
    { intros k Hk. apply HK, Hk. }
    { simpl. lia. }
    assert (Hfin : onPanel finishWrite fuel (onWire 1 [] d)
                   = Ok tt (onWire (S j) [Bus.EndTransaction; Bus.ChipSelect true]
                              (onWire 1 [] d))).
    { apply onPanel_onWire. unfold finishWrite. rewrite run_bind.
      unfold spiWait, iter. rewrite Hj. reflexivity. }
    rewrite run_bind, Hfin, onWire_onWire. cbn [setBusy modify].
    exists (S j + 1)%nat. destruct n as [|n]; [lia|].
    rewrite waitIdle_round. reflexivity.
Qed.

(** X20. The wait that print, drawChar, fillRectangle and the other
    writers start with comes to an end: on a bus that is not busy from
    some poll on, and with fuel for the polls up to there, it returns; if
    a transfer was pending it has ended the transaction, raised chip
    select and cleared the busy flag, and nothing else has changed. *)
Theorem waitIdle_returns_once_bus_idle (K : nat) (fuel : nat) (d : Display) :
  (forall k, (K <= k)%nat -> Bus.busy_at (_spi (panel d)) k = false) ->
  (K - Bus.polls (_spi (panel d)) + 2 <= fuel)%nat ->
  exists k,
    waitIdle fuel d
    = Ok tt (if _busy d
             then with_busy false (onWire k [Bus.EndTransaction; Bus.ChipSelect true] d)
             else d).
Proof.
  intros HK Hfuel. destruct (_busy d) eqn:Hb.
  - unfold waitIdle, iter. apply (waitIdle_eventually K); try assumption. lia.
  - exists 0%nat. destruct fuel as [|n]; [lia|]. apply waitIdle_not_busy, Hb.
Qed.


(** ** The bytes of the buffer on the wire *)

Lemma bswap16_low c : Z.land (bswap16 c) 255 = uint16 c / 256.
Proof.
  unfold bswap16. pose proof (uint16_range c) as Hv. set (v := uint16 c) in *.
  rewrite Z.land_lor_distr_l. rewrite <- Z.land_assoc.
  change (Z.land 65280 255) with 0. rewrite Z.land_0_r, Z.lor_0_l.
  rewrite Z.shiftr_div_pow2 by lia. change (2 ^ 8) with 256.
  change 255 with (Z.ones 8). rewrite Z.land_ones by lia. change (2 ^ 8) with 256.
  apply Z.mod_small. split; [apply Z.div_pos | apply Z.div_lt_upper_bound]; lia.
Qed.

Lemma bswap16_high c : Z.shiftr (bswap16 c) 8 = uint16 c mod 256.
Proof.
  unfold bswap16. pose proof (uint16_range c) as Hv. set (v := uint16 c) in *.
  rewrite Z.shiftr_lor, Z.shiftr_land.
  rewrite Z.shiftr_shiftl_l by lia. change (8 - 8) with 0. rewrite Z.shiftl_0_r.
  change (Z.shiftr 65280 8) with 255.
  rewrite (Z.shiftr_div_pow2 (Z.shiftr v 8)) by lia.
  rewrite (Z.shiftr_div_pow2 v) by lia. change (2 ^ 8) with 256.
  rewrite Z.div_div by lia. change (256 * 256) with 65536.
  rewrite Z.div_small by lia. rewrite Z.lor_0_r.
  change 255 with (Z.ones 8). rewrite Z.land_ones by lia. reflexivity.
Qed.

Lemma cellEvents_app a b : cellEvents (a ++ b) = cellEvents a ++ cellEvents b.
Proof. unfold cellEvents. apply flat_map_app. Qed.

Lemma pixelEvents_add n m color :
  pixelEvents (n + m) color = pixelEvents n color ++ pixelEvents m color.
Proof. unfold pixelEvents. rewrite replicate_add, concat_app. reflexivity. Qed.

Lemma cellEvents_replicate n color :
  cellEvents (replicate n (bswap16 color)) = pixelEvents n color.
Proof.
  induction n as [|n IH]; [reflexivity|].
  change (replicate (S n) (bswap16 color)) with (bswap16 color :: replicate n (bswap16 color)).
  unfold cellEvents in *. cbn [flat_map]. rewrite IH.
  rewrite bswap16_low, bswap16_high. reflexivity.
Qed.

Lemma bufferByte_even b (j : nat) w :
  b !! j = Some w -> bufferByte b (2 * Z.of_nat j) = Val (Z.land w 255).
Proof.
  intros Hw. unfold bufferByte.
  assert (Hq : Z.quot (2 * Z.of_nat j) 2 = Z.of_nat j).
  { rewrite Z.quot_div_nonneg by lia. rewrite Z.mul_comm. apply Z.div_mul. lia. }
  assert (Hr : Z.rem (2 * Z.of_nat j) 2 = 0).
  { rewrite Z.rem_mod_nonneg by lia. rewrite Z.mul_comm. apply Z.mod_mul. lia. }
  rewrite Hq, Hr.
  assert (Hidx : index b (Z.of_nat j) BufferBounds = Val w).
  { apply index_Val. rewrite Nat2Z.id. split; [lia | exact Hw]. }
  rewrite Hidx. reflexivity.
Qed.

Lemma bufferByte_odd b (j : nat) w :
  b !! j = Some w -> bufferByte b (2 * Z.of_nat j + 1) = Val (Z.shiftr w 8).
Proof.
  intros Hw. unfold bufferByte.
  assert (Hq : Z.quot (2 * Z.of_nat j + 1) 2 = Z.of_nat j).
  { rewrite Z.quot_div_nonneg by lia. Z.div_mod_to_equations. lia. }
  assert (Hr : Z.rem (2 * Z.of_nat j + 1) 2 = 1).
  { rewrite Z.rem_mod_nonneg by lia. Z.div_mod_to_equations. lia. }
  rewrite Hq, Hr.
  assert (Hidx : index b (Z.of_nat j) BufferBounds = Val w).
  { apply index_Val. rewrite Nat2Z.id. split; [lia | exact Hw]. }
  rewrite Hidx. reflexivity.
Qed.

(** The loop of write over [n] cells from the cell [j] on. *)
Lemma send_cells n : forall (j : nat) fuel d,
  (j + n <= length (_buffer d))%nat ->
  forAcc (2 * n) (2 * Z.of_nat j)
    (fun i _ => d ← get; b ← check (bufferByte (_buffer d) i);
                onPanel (emit (Bus.Transfer b))) tt fuel d
  = Ok tt (onWire 0 (cellEvents (take n (drop j (_buffer d)))) d).
Proof.
  induction n as [|n IH]; intros j fuel d Hlen.
  - simpl. rewrite onWire_0_nil. reflexivity.
  - replace (2 * S n)%nat with (S (S (2 * n))) by lia.
    destruct (lookup_lt_is_Some_2 (_buffer d) j ltac:(lia)) as [w Hw].
    cbn [forAcc]. rewrite run_bind.
    rewrite run_bind. change (get fuel d) with (Ok d d). cbv beta iota.
    rewrite run_bind, (bufferByte_even _ _ _ Hw). cbn [check].
    rewrite onPanel_emit.
    rewrite run_bind.
    rewrite run_bind. change (get fuel (onWire 0 [Bus.Transfer (Z.land w 255)] d))
      with (Ok (onWire 0 [Bus.Transfer (Z.land w 255)] d)
               (onWire 0 [Bus.Transfer (Z.land w 255)] d)). cbv beta iota.
    change (_buffer (onWire 0 [Bus.Transfer (Z.land w 255)] d)) with (_buffer d).
    rewrite run_bind, (bufferByte_odd _ _ _ Hw). cbn [check].
    rewrite onPanel_emit, onWire_onWire.
    replace (2 * Z.of_nat j + 1 + 1) with (2 * Z.of_nat (S j)) by lia.
    rewrite IH by (simpl; lia).
    rewrite onWire_onWire.
    change (_buffer (onWire (0 + 0) ([Bus.Transfer (Z.land w 255)]
                                     ++ [Bus.Transfer (Z.shiftr w 8)]) d))
      with (_buffer d).
    rewrite (drop_S _ _ _ Hw). reflexivity.
Qed.

Lemma write_quiet len n d (cnt : nat) :
  quiet d -> uint16 len = 2 * Z.of_nat cnt -> (cnt <= length (_buffer d))%nat ->
  write len (S n) d = Ok tt (onWire 1 (cellEvents (take cnt (_buffer d))) d).
Proof.
  intros Hq Hlen Hcnt. unfold write.
  rewrite run_bind.
  rewrite (onPanel_onWire spiWait (S n) d tt 1 []) by (apply spiWait_quiet, Hq).
  unfold for_. rewrite Hlen.
  replace (Z.to_nat (2 * Z.of_nat cnt)) with (2 * cnt)%nat by lia.
  pose proof (send_cells cnt 0 (S n) (onWire 1 [] d)) as H.
  change (2 * Z.of_nat 0) with 0 in H. rewrite H by (simpl; lia).
  rewrite onWire_onWire. reflexivity.
Qed.

(** ** writeFillRectangle: the pattern, the bursts *)

Lemma fillPattern_run p busy b0 len color n : forall i fuel d,
  cleared p busy b0 (bswap16 color) i d ->
  0 <= i <= len -> len <= Z.of_nat (length b0) -> len <= 65535 ->
  (Z.to_nat (len - i) < n)%nat ->
  exists d',
    iter_ n (fun i => if i <? len
                      then store i (bswap16 color);; mret (inl (uint16 (i + 1)))
                      else mret (inr tt)) i fuel d = Ok tt d'
    /\ cleared p busy b0 (bswap16 color) len d'.
Proof.
  induction n as [|n IH]; intros i fuel d Hd Hi Hlen Hcap Hn; [lia|].
  cbn [iter_]. rewrite run_bind.
  destruct (Z.ltb_spec i len).
  - rewrite run_bind.
    destruct (cleared_store p busy b0 (bswap16 color) i fuel d Hd ltac:(lia))
      as (d1 & Hr & Hd1).
    rewrite Hr. cbn [mret Run_ret]. rewrite uint16_small by lia.
    apply IH; try assumption; lia.
  - exists d. split; [reflexivity|]. replace len with i by lia. exact Hd.
Qed.

Lemma writeBursts_run len color n : forall n_rem fuel d,
  quiet d ->
  take (Z.to_nat len) (_buffer d) = replicate (Z.to_nat len) (bswap16 color) ->
  1 <= len <= 32767 -> (Z.to_nat len <= length (_buffer d))%nat ->
  0 <= n_rem < 4294967296 ->
  (Z.to_nat n_rem < n)%nat -> (0 < fuel)%nat ->
  exists k,
    iter_ n (fun n_pixels => if 0 <? n_pixels
                             then let count := uint16 (min n_pixels len) in
                                  write (uint32 (count * 2));;
                                  mret (inl (uint32 (n_pixels - count)))
                             else mret (inr tt)) n_rem fuel d
    = Ok tt (onWire k (pixelEvents (Z.to_nat n_rem) color) d).
Proof.
  induction n as [|n IH]; intros n_rem fuel d Hq Hfill Hlen Hbuf Hrem Hn Hfuel; [lia|].
  destruct fuel as [|f]; [lia|].
  cbn [iter_]. rewrite run_bind.
  destruct (Z.ltb_spec 0 n_rem).
  - cbv zeta.
    assert (Hmin : 1 <= min n_rem len <= len /\ min n_rem len <= n_rem).
    { unfold min. destruct (Z.ltb_spec n_rem len); lia. }
    set (count := min n_rem len) in *.
    rewrite (uint16_small count) by lia.
    assert (Hu : uint32 (count * 2) = count * 2) by (apply Z.mod_small; lia).
    assert (Hu' : uint32 (n_rem - count) = n_rem - count) by (apply Z.mod_small; lia).
    rewrite Hu, Hu'. rewrite run_bind.
    rewrite (write_quiet (count * 2) f d (Z.to_nat count) Hq)
      by (try rewrite uint16_small; lia).
    assert (Hcells : take (Z.to_nat count) (_buffer d)
                     = replicate (Z.to_nat count) (bswap16 color)).
    { replace (Z.to_nat count) with (Nat.min (Z.to_nat count) (Z.to_nat len)) at 1 by lia.
      rewrite <- take_take, Hfill, take_replicate. f_equal. lia. }
    rewrite Hcells, cellEvents_replicate. cbn [mret Run_ret].
    destruct (IH (n_rem - count) (S f) (onWire 1 (pixelEvents (Z.to_nat count) color) d)
                (quiet_onWire _ _ _ Hq) Hfill Hlen Hbuf ltac:(lia) ltac:(lia) ltac:(lia))
      as (k & Hk).
    exists (k + 1)%nat. etransitivity; [exact Hk|].
    rewrite onWire_onWire, <- pixelEvents_add.
    f_equal. f_equal. f_equal. lia.
  - exists 0%nat. replace n_rem with 0 by lia. rewrite onWire_0_nil. reflexivity.
Qed.

Lemma uint16_idem z : uint16 (uint16 z) = uint16 z.
Proof. unfold uint16. apply Z.mod_mod. lia. Qed.

Lemma pixelEvents_uint16 n color : pixelEvents n (uint16 color) = pixelEvents n color.
Proof. unfold pixelEvents. rewrite uint16_idem. reflexivity. Qed.

Lemma onPanel_writeSetWindow_quiet x y width height n d :
  quiet d ->
  onPanel (ST7789.writeSetWindow x y width height) (S n) d
  = Ok tt (onWire 3 (windowEvents
                       (uint16 (x + Pixels.x_start (_pixels (panel d))))
                       (uint16 (uint16 (x + Pixels.x_start (_pixels (panel d))) + width - 1))
                       (uint16 (y + Pixels.y_start (_pixels (panel d))))
                       (uint16 (uint16 (y + Pixels.y_start (_pixels (panel d))) + height - 1)))
             d).
Proof. intros Hq. apply onPanel_onWire. apply writeSetWindow_run, Hq. Qed.

Lemma writeFillRectangle_run hw x y width height color fuel d :
  ready hw d ->
  1 <= Hardware.width hw * row_size <= 32767 ->
  0 <= width < 65536 -> 0 <= height < 65536 ->
  width * height <= INT_MAX ->
  (Z.to_nat (width * height) + 2 <= fuel)%nat ->
  exists k d',
    writeFillRectangle (ctl := ST7789.controller) x y width height color fuel d = Ok tt d'
    /\ panel d'
       = sent (windowEvents
                 (uint16 (uint16 x + Pixels.x_start (_pixels (panel d))))
                 (uint16 (uint16 (uint16 x + Pixels.x_start (_pixels (panel d))) + width - 1))
                 (uint16 (uint16 y + Pixels.y_start (_pixels (panel d))))
                 (uint16 (uint16 (uint16 y + Pixels.y_start (_pixels (panel d))) + height - 1))
               ++ pixelEvents (Z.to_nat (width * height)) color)
              (polled k (panel d))
    /\ _busy d' = _busy d
    /\ _buffer d'
       = replicate (Z.to_nat (min (width * height) (Hardware.width hw * row_size)))
                   (bswap16 (uint16 color))
         ++ drop (Z.to_nat (min (width * height) (Hardware.width hw * row_size))) (_buffer d).
Proof.
  intros (Hq & Hhw & Hlen) Hcap Hw Hh Hmul Hfuel.
  destruct fuel as [|f]; [lia|].
  assert (Hn : 0 <= width * height) by nia.
  unfold writeFillRectangle. cbv zeta.
  rewrite (uint16_small width), (uint16_small height) by lia.
  rewrite run_bind.
  change (@writeSetWindow ST7789.controller) with ST7789.writeSetWindow.
  rewrite (onPanel_writeSetWindow_quiet _ _ _ _ f d Hq).
  set (win := windowEvents _ _ _ _).
  rewrite run_bind. change (get (S f) (onWire 3 win d)) with (Ok (onWire 3 win d) (onWire 3 win d)).
  cbv beta iota.
  destruct (Z.ltb_spec INT_MAX (width * height)); [lia|].
  assert (Hu : uint32 (width * height) = width * height)
    by (unfold INT_MAX in *; apply Z.mod_small; lia).
  rewrite Hu.
  change (_hardware (panel (onWire 3 win d))) with (_hardware (panel d)).
  unfold hardwareIs in Hhw. rewrite Hhw.
  set (len := min (width * height) (Hardware.width hw * row_size)).
  assert (Hlen' : 0 <= len <= Hardware.width hw * row_size /\ len <= width * height
                  /\ (0 < width * height -> 1 <= len)).
  { unfold len, min. destruct (Z.ltb_spec (width * height) (Hardware.width hw * row_size)); lia. }
  rewrite run_bind.
  destruct (fillPattern_run (panel (onWire 3 win d)) (_busy d) (_buffer d) len (uint16 color)
              (S f) 0 (S f) (onWire 3 win d)) as (d1 & Hr1 & Hp1 & Hb1 & Hbuf1);
    [repeat split | lia | lia | lia | lia |].
  unfold fillPattern, iter. rewrite Hr1.
  assert (Hq1 : quiet d1) by (unfold quiet; rewrite Hp1; apply (quiet_onWire 3 win d Hq)).
  destruct (Z.eq_dec (width * height) 0) as [Hz|Hnz].
  - (* nothing to send *)
    exists 3%nat, d1. rewrite Hz. split.
    { unfold writeBursts, iter. cbn [iter_]. rewrite run_bind. reflexivity. }
    split; [|split; [exact Hb1 | exact Hbuf1]].
    rewrite Hp1. change (Z.to_nat 0) with 0%nat. change (pixelEvents 0 color) with (@nil Bus.Event).
    rewrite app_nil_r. reflexivity.
  - assert (Hlen1 : length (_buffer d1) = length (_buffer d)).
    { rewrite Hbuf1, length_app, length_replicate, length_drop. lia. }
    destruct (writeBursts_run len (uint16 color) (S f) (width * height) (S f) d1 Hq1)
      as (k & Hk).
    + rewrite Hbuf1. rewrite take_app_le by (rewrite length_replicate; lia).
      rewrite take_replicate. f_equal. lia.
    + lia.
    + lia.
    + unfold INT_MAX in *. lia.
    + lia.
    + lia.
    + exists (k + 3)%nat, (onWire k (pixelEvents (Z.to_nat (width * height)) (uint16 color)) d1).
      split; [unfold writeBursts, iter; exact Hk|].
      split; [|split; [exact Hb1 | exact Hbuf1]].
      unfold onWire at 1.
      change (panel (with_panel ?p d1)) with
        (sent (pixelEvents (Z.to_nat (width * height)) (uint16 color)) (polled k (panel d1))).
      rewrite Hp1. unfold onWire.
      change (panel (with_panel (sent win (polled 3 (panel d))) d))
        with (sent win (polled 3 (panel d))).
      rewrite polled_sent, sent_sent, polled_polled, pixelEvents_uint16. reflexivity.
Qed.


Ltac quiet_tac :=
  repeat first [ apply quietBus_sent | apply quietBus_polled | apply quietBus_with_pixels
               | apply quiet_onWire ];
  assumption.

Lemma writeCommand_then_delay command data len delay n p (rest : Run Panel unit) :
  quietBus p -> (Z.to_nat (uint8 len) <= length data)%nat ->
  (writeCommand command data len;; emit (Bus.Delay delay);; rest) (S n) p
  = rest (S n) (sent (commandEvents command (take (Z.to_nat (uint8 len)) data)
                      ++ [Bus.Delay delay]) (polled 1 p)).
Proof.
  intros Hq Hlen. rewrite run_bind, (writeCommand_quiet _ _ _ _ _ Hq Hlen).
  rewrite run_bind, emit_sent, sent_sent. reflexivity.
Qed.

Lemma writeReset_run n p :
  quietBus p -> ST7789.writeReset (S n) p = Ok tt (sent initEvents (polled 7 p)).
Proof.
  intros Hq. unfold ST7789.writeReset, ST7789.commands. cbn [ST7789.writeCommands].
  do 7 (rewrite writeCommand_then_delay; [|quiet_tac | vm_compute; lia]).
  cbn [mret Run_ret].
  rewrite !polled_sent, !sent_sent, !polled_polled. reflexivity.
Qed.

(** X21. The initialisation of the ST7789 adapter, on a bus that is
    never busy: seven commands, each followed by its delay; only COLMOD
    and MADCTL carry an argument byte, the one-byte [args] of the other
    entries is not sent. *)
Theorem writeReset_sends_init_sequence (fuel : nat) (p : Panel) :
  quietBus p ->
  (0 < fuel)%nat ->
  ST7789.writeReset fuel p = Ok tt (sent initEvents (polled 7 p)).
Proof. intros Hq Hfuel. destruct fuel as [|n]; [lia|]. apply writeReset_run, Hq. Qed.

Lemma writeReset_sends_init_sequence_witness :
  ST7789.writeReset 5%nat (demoPanel 24 Left)
  = Ok tt (sent initEvents (polled 7 (demoPanel 24 Left))).
Proof.
  apply (writeReset_sends_init_sequence 5%nat (demoPanel 24 Left));
    [intros k; reflexivity | lia].
Defined.

(** ** flushBuffer *)

Lemma flushBuffer_run n d :
  _busy d = false -> quiet d ->
  0 <= Area.width (_area (panel d)) ->
  Area.width (_area (panel d)) * row_size * 2 < 65536 ->
  Area.width (_area (panel d)) * row_size <= Z.of_nat (length (_buffer d)) ->
  flushBuffer (ctl := ST7789.controller) (S n) d
  = Ok tt (with_busy true
             (onWire 4
                ([Bus.BeginTransaction; Bus.ChipSelect false]
                 ++ windowEvents
                      (uint16 (Area.x (_area (panel d)) + Pixels.x_start (_pixels (panel d))))
                      (uint16 (uint16 (Area.x (_area (panel d))
                                       + Pixels.x_start (_pixels (panel d)))
                               + Area.width (_area (panel d)) - 1))
                      (uint16 (uint16 (Area.row (_area (panel d)) * row_size)
                               + Pixels.y_start (_pixels (panel d))))
                      (uint16 (uint16 (uint16 (Area.row (_area (panel d)) * row_size)
                                       + Pixels.y_start (_pixels (panel d)))
                               + row_size - 1))
                 ++ cellEvents (take (Z.to_nat (Area.width (_area (panel d)) * row_size))
                                     (_buffer d)))
                d)).
Proof.
  intros Hb Hq HW Hcap Hfit. unfold flushBuffer.
  rewrite run_bind, (prepareWrite_idle_quiet n d Hb).
  set (d1 := onWire 0 [Bus.BeginTransaction; Bus.ChipSelect false] d).
  rewrite run_bind. change (get (S n) d1) with (Ok d1 d1). cbv beta iota zeta.
  change (_area (panel d1)) with (_area (panel d)).
  rewrite run_bind.
  change (@writeSetWindow ST7789.controller) with ST7789.writeSetWindow.
  rewrite (onPanel_writeSetWindow_quiet _ _ _ _ n d1) by (apply quiet_onWire, Hq).
  change (_pixels (panel d1)) with (_pixels (panel d)).
  set (win := windowEvents _ _ _ _).
  rewrite run_bind.
  assert (Hu : uint32 (Area.width (_area (panel d)) * row_size * 2)
               = Area.width (_area (panel d)) * row_size * 2)
    by (unfold row_size in *; apply Z.mod_small; lia).
  rewrite Hu.
  rewrite (write_quiet _ n (onWire 3 win d1) (Z.to_nat (Area.width (_area (panel d)) * row_size))).
  - unfold d1. rewrite !onWire_onWire. reflexivity.
  - do 2 apply quiet_onWire. exact Hq.
  - unfold row_size in *. rewrite uint16_small by lia. lia.
  - change (_buffer (onWire 3 win d1)) with (_buffer d). lia.
Qed.

(** X22. flushBuffer with the ST7789 hooks, no transfer pending and a
    bus that is never busy, for an area that fits the buffer and is at
    most 546 wide: it opens a transaction, sets the window of the text
    row (the columns of the area, the 60 rows from [row * 60] on) and
    sends the first [width * 60] cells of the buffer, the low byte of
    each cell first; it leaves the transaction open and the busy flag
    set, and the buffer as it was. *)
Theorem flushBuffer_sends_text_row (fuel : nat) (d : Display) :
  _busy d = false ->
  quiet d ->
  (0 < fuel)%nat ->
  0 <= Area.width (_area (panel d)) ->
  Area.width (_area (panel d)) * row_size * 2 < 65536 ->
  Area.width (_area (panel d)) * row_size <= Z.of_nat (length (_buffer d)) ->
  flushBuffer (ctl := ST7789.controller) fuel d
  = Ok tt (with_busy true
             (onWire 4
                ([Bus.BeginTransaction; Bus.ChipSelect false]
                 ++ windowEvents
                      (uint16 (Area.x (_area (panel d)) + Pixels.x_start (_pixels (panel d))))
                      (uint16 (uint16 (Area.x (_area (panel d))
                                       + Pixels.x_start (_pixels (panel d)))
                               + Area.width (_area (panel d)) - 1))
                      (uint16 (uint16 (Area.row (_area (panel d)) * row_size)
                               + Pixels.y_start (_pixels (panel d))))
                      (uint16 (uint16 (uint16 (Area.row (_area (panel d)) * row_size)
                                       + Pixels.y_start (_pixels (panel d)))
                               + row_size - 1))
                 ++ cellEvents (take (Z.to_nat (Area.width (_area (panel d)) * row_size))
                                     (_buffer d)))
                d)).
Proof.
  intros Hb Hq Hfuel HW Hcap Hfit. destruct fuel as [|n]; [lia|].
  apply flushBuffer_run; assumption.
Qed.

(** ** reset *)

Lemma ready_quiet hw d : ready hw d -> quiet d.
Proof. intros (Hq & _). exact Hq. Qed.

Lemma reset_run hw angle color fuel d :
  ready hw d ->
  1 <= Hardware.width hw <= 240 ->
  1 <= Hardware.height hw <= 320 ->
  angle = 0 \/ angle = 90 \/ angle = 180 \/ angle = 270 ->
  (Z.to_nat (Hardware.width hw * Hardware.height hw) + 2 <= fuel)%nat ->
  exists px m k d',
    reset (ctl := ST7789.controller) angle color fuel d = Ok tt d'
    /\ _busy d' = false
    /\ Pixels.width px * Pixels.height px = Hardware.width hw * Hardware.height hw
    /\ panel d'
       = sent (resetPinEvents
               ++ [Bus.BeginTransaction; Bus.ChipSelect false]
               ++ initEvents
               ++ commandEvents 54 [m]
               ++ windowEvents (Pixels.x_start px)
                               (Pixels.x_start px + Pixels.width px - 1)
                               (Pixels.y_start px)
                               (Pixels.y_start px + Pixels.height px - 1)
               ++ pixelEvents (Z.to_nat (Hardware.width hw * Hardware.height hw)) color
               ++ [Bus.EndTransaction; Bus.ChipSelect true])
              (polled k (with_pixels px (panel d)))
    /\ _buffer d'
       = replicate (Z.to_nat (min (Hardware.width hw * Hardware.height hw)
                                  (Hardware.width hw * row_size)))
                   (bswap16 (uint16 color))
         ++ drop (Z.to_nat (min (Hardware.width hw * Hardware.height hw)
                                (Hardware.width hw * row_size))) (_buffer d).
Proof.
  intros (Hq & Hhw & Hlen) Hw Hh Hangle Hfuel.
  destruct fuel as [|f]; [lia|].
  unfold hardwareIs in Hhw.
  assert (Hu : uint16 angle = angle) by (apply uint16_small; lia).
  unfold reset. rewrite Hu.
  do 6 (rewrite run_bind, onPanel_emit).
  rewrite !onWire_onWire. cbn [app Nat.add].
  fold resetPinEvents.
  rewrite run_bind. cbn [setBusy modify].
  set (d2 := with_busy false (onWire 0 resetPinEvents d)).
  rewrite run_bind, (prepareWrite_idle_quiet f d2 eq_refl).
  rewrite run_bind.
  change (@writeReset ST7789.controller) with ST7789.writeReset.
  rewrite (onPanel_onWire ST7789.writeReset (S f) _ tt 7 initEvents)
    by (apply writeReset_run; unfold d2; apply quiet_onWire, quiet_onWire, Hq).
  rewrite onWire_onWire.
  set (d4 := onWire (7 + 0) ([Bus.BeginTransaction; Bus.ChipSelect false] ++ initEvents) d2).
  assert (Hq4 : quiet d4) by (unfold d4, d2; apply quiet_onWire, quiet_onWire, Hq).
  destruct (writeSetOrientation_geometry angle (S f) (panel d4) Hq4 ltac:(lia))
    as (px & m & Hr & Hm & Hsize & Hx0 & Hx1 & Hy0 & Hy1).
  { change (_hardware (panel d4)) with (_hardware (panel d)). rewrite Hhw. lia. }
  { change (_hardware (panel d4)) with (_hardware (panel d)). rewrite Hhw. lia. }
  { exact Hangle. }
  change (_hardware (panel d4)) with (_hardware (panel d)) in Hsize.
  rewrite Hhw in Hsize.
  rewrite run_bind.
  change (@writeSetOrientation ST7789.controller) with ST7789.writeSetOrientation.
  unfold onPanel at 1. rewrite Hr.
  set (d5 := with_panel (sent (commandEvents 54 [m]) (polled 1 (with_pixels px (panel d4)))) d4).
  rewrite run_bind. change (get (S f) d5) with (Ok d5 d5). cbv beta iota.
  change (_pixels (panel d5)) with px.
  assert (Hsz : Pixels.width px * Pixels.height px = Hardware.width hw * Hardware.height hw
                /\ 1 <= Pixels.width px <= 320 /\ 1 <= Pixels.height px <= 320
                /\ Pixels.x_start px + Pixels.width px <= 320
                /\ Pixels.y_start px + Pixels.height px <= 320).
  { destruct (Z.testbit m 5); inversion Hsize; lia. }
  destruct Hsz as (Hprod & Hpw & Hph & Hxe & Hye).
  assert (Hready5 : ready hw d5).
  { split; [|split].
    - intros j. apply Hq.
    - exact Hhw.
    - exact Hlen. }
  destruct (writeFillRectangle_run hw 0 0 (Pixels.width px) (Pixels.height px) color
              (S f) d5 Hready5) as (k & d6 & Hr6 & Hp6 & Hb6 & Hbuf6).
  { unfold row_size. lia. }
  { lia. }
  { lia. }
  { unfold INT_MAX. nia. }
  { rewrite Hprod. lia. }
  change (_pixels (panel d5)) with px in Hp6.
  rewrite run_bind, Hr6.
  assert (Hq6 : quiet d6).
  { unfold quiet. rewrite Hp6. apply quietBus_sent, quietBus_polled. intros j. apply Hq. }
  rewrite (onPanel_finishWrite_quiet f d6 Hq6).
  exists px, m, (1 + k + 1 + (7 + 0) + 0)%nat,
    (onWire 1 [Bus.EndTransaction; Bus.ChipSelect true] d6).
  split; [reflexivity|]. split; [exact Hb6|]. split; [exact Hprod|]. split.
  - unfold onWire at 1.
    change (panel (with_panel ?p d6))
      with (sent [Bus.EndTransaction; Bus.ChipSelect true] (polled 1 (panel d6))).
    rewrite Hp6. rewrite Hprod.
    change (panel d5) with
      (sent (commandEvents 54 [m])
         (polled 1 (with_pixels px
            (sent ([Bus.BeginTransaction; Bus.ChipSelect false] ++ initEvents)
               (polled (7 + 0) (sent resetPinEvents (polled 0 (panel d)))))))).
    change (with_pixels px
              (sent ([Bus.BeginTransaction; Bus.ChipSelect false] ++ initEvents)
                 (polled (7 + 0) (sent resetPinEvents (polled 0 (panel d))))))
      with (sent ([Bus.BeginTransaction; Bus.ChipSelect false] ++ initEvents)
              (polled (7 + 0) (sent resetPinEvents (polled 0 (with_pixels px (panel d)))))).
    rewrite !polled_sent, !sent_sent, !polled_polled.
    change (uint16 0) with 0. rewrite !Z.add_0_l.
    rewrite (uint16_small (Pixels.x_start px)) by lia.
    rewrite (uint16_small (Pixels.y_start px)) by lia.
    rewrite (uint16_small (Pixels.x_start px + Pixels.width px - 1)) by lia.
    rewrite (uint16_small (Pixels.y_start px + Pixels.height px - 1)) by lia.
    rewrite <- !app_assoc. reflexivity.
  - change (_buffer (onWire 1 [Bus.EndTransaction; Bus.ChipSelect true] d6)) with (_buffer d6).
    rewrite Hbuf6, Hprod. reflexivity.
Qed.

(** ** The start of the text, and a panel too wide *)

(** X23. The text print lays out starts inside the area and, cut to the
    area width, ends inside it; centred text has its margins equal, or
    the right one larger by one. *)
Theorem startCursor_inside_area (j : Justify) (areaWidth measured : Z) :
  0 <= areaWidth < 65536 ->
  0 <= measured ->
  0 <= startCursor j areaWidth measured
  /\ startCursor j areaWidth measured + Z.min measured areaWidth <= areaWidth
  /\ startCursor Center areaWidth measured
     <= areaWidth - Z.min measured areaWidth - startCursor Center areaWidth measured
     <= startCursor Center areaWidth measured + 1.
Proof.
  intros HW Hm. unfold startCursor, clampWidth, justifyCursor.
  destruct (Z.ltb_spec areaWidth measured).
  - rewrite Z.min_r by lia. rewrite Z.sub_diag. change (uint16 (Z.quot 0 2)) with 0.
    change (uint16 0) with 0. destruct j; lia.
  - rewrite Z.min_l by lia.
    assert (Hq : 0 <= Z.quot (areaWidth - measured) 2 <= areaWidth - measured
                 /\ areaWidth - measured - 1 <= 2 * Z.quot (areaWidth - measured) 2
                    <= areaWidth - measured).
    { rewrite quot_floor by lia. Z.div_mod_to_equations. lia. }
    rewrite (uint16_small (Z.quot (areaWidth - measured) 2)) by lia.
    rewrite (uint16_small (areaWidth - measured)) by lia.
    destruct j; lia.
Qed.

Lemma startCursor_inside_area_witness :
  0 <= startCursor Center 135 40
  /\ startCursor Center 135 40 + Z.min 40 135 <= 135
  /\ startCursor Center 135 40
     <= 135 - Z.min 40 135 - startCursor Center 135 40
     <= startCursor Center 135 40 + 1.
Proof. apply (startCursor_inside_area Center 135 40); lia. Defined.

(** The counter of the first loop of writeFillRectangle never reaches
    a [len] of 65536 or more. *)
Lemma fillPattern_blocks len color n : forall i fuel d,
  65536 <= len -> 65536 <= Z.of_nat (length (_buffer d)) -> 0 <= i < 65536 ->
  exists d',
    iter_ n (fun i => if i <? len
                      then store i (bswap16 color);; mret (inl (uint16 (i + 1)))
                      else mret (inr tt)) i fuel d = Blocked d'.
Proof.
  induction n as [|n IH]; intros i fuel d Hlen Hbuf Hi.
  - exists d. reflexivity.
  - cbn [iter_]. rewrite run_bind.
    destruct (Z.ltb_spec i len); [|lia].
    rewrite run_bind. unfold store at 1.
    destruct (Z.leb_spec 0 i); [|lia].
    destruct (Z.ltb_spec i (Z.of_nat (length (_buffer d)))); [|lia].
    cbn [andb mret Run_ret].
    apply IH; [exact Hlen | | apply uint16_range].
    cbn [_buffer]. rewrite length_insert. exact Hbuf.
Qed.

(** X24. For a panel of 1093 columns or more and a rectangle of 65536
    pixels or more, writeFillRectangle does not return, whatever fuel it
    is given: its first loop counts in [uint16_t] up to a [len] of 65536
    or more, which the counter never reaches. *)
Theorem writeFillRectangle_wide_panel_never_returns (hw : Hardware.t)
    (x y width height color : Z) (fuel : nat) (d : Display) :
  ready hw d ->
  65536 <= Hardware.width hw * row_size ->
  0 <= width < 65536 ->
  0 <= height < 65536 ->
  65536 <= width * height <= INT_MAX ->
  (0 < fuel)%nat ->
  exists d',
    writeFillRectangle (ctl := ST7789.controller) x y width height color fuel d = Blocked d'.
Proof.
  intros (Hq & Hhw & Hlen) Hcap Hw Hh Hmul Hfuel.
  destruct fuel as [|f]; [lia|].
  unfold writeFillRectangle. cbv zeta.
  rewrite (uint16_small width), (uint16_small height) by lia.
  rewrite run_bind.
  change (@writeSetWindow ST7789.controller) with ST7789.writeSetWindow.
  rewrite (onPanel_writeSetWindow_quiet _ _ _ _ f d Hq).
  set (win := windowEvents _ _ _ _).
  rewrite run_bind. change (get (S f) (onWire 3 win d)) with (Ok (onWire 3 win d) (onWire 3 win d)).
  cbv beta iota.
  destruct (Z.ltb_spec INT_MAX (width * height)); [lia|].
  assert (Hu : uint32 (width * height) = width * height)
    by (unfold INT_MAX in *; apply Z.mod_small; lia).
  rewrite Hu.
  change (_hardware (panel (onWire 3 win d))) with (_hardware (panel d)).
  unfold hardwareIs in Hhw. rewrite Hhw.
  destruct (fillPattern_blocks (min (width * height) (Hardware.width hw * row_size))
              (uint16 color) (S f) 0 (S f) (onWire 3 win d)) as (d' & Hr).
  - unfold min. destruct (Z.ltb_spec (width * height) (Hardware.width hw * row_size)); lia.
  - change (_buffer (onWire 3 win d)) with (_buffer d). lia.
  - lia.
  - exists d'. rewrite run_bind. unfold fillPattern, iter. rewrite Hr. reflexivity.
Qed.

Lemma writeFillRectangle_wide_panel_never_returns_witness :
  exists d',
    writeFillRectangle (ctl := ST7789.controller) 0 0 1100 60 0 1%nat widePanel = Blocked d'.
Proof.
  apply (writeFillRectangle_wide_panel_never_returns (_hardware (panel widePanel))
           0 0 1100 60 0 1%nat widePanel).
  - split; [intros k; reflexivity|]. split; [reflexivity|].
    unfold widePanel. cbn [_buffer panel _hardware Hardware.width].
    rewrite length_replicate, Z2Nat.id by lia. reflexivity.
  - unfold widePanel, row_size. cbn [panel _hardware Hardware.width]. lia.
  - lia.
  - lia.
  - unfold INT_MAX. lia.
  - lia.
Defined.

Lemma waitIdle_returns_once_bus_idle_witness :
  exists k,
    waitIdle 5%nat demoPending
    = Ok tt (if _busy demoPending
             then with_busy false
                    (onWire k [Bus.EndTransaction; Bus.ChipSelect true] demoPending)
             else demoPending).
Proof.
  apply (waitIdle_returns_once_bus_idle 3 5%nat demoPending).
  - intros k Hk. simpl. apply Nat.ltb_ge. exact Hk.
  - simpl. lia.
Defined.

Lemma drawChar_advances_cursor_witness :
  panel (final (drawChar (fonts := demoFonts) 97 5%nat (demoDisplay 20 Left)))
  = panel (placeCursor (uint16 (Area.cursor (_area (panel (demoDisplay 20 Left)))
                                + Glyph.advance (demoGlyph 6 65)))
                       (demoDisplay 20 Left))
  /\ _busy (final (drawChar (fonts := demoFonts) 97 5%nat (demoDisplay 20 Left))) = false.
Proof.
  refine (drawChar_advances_cursor (fonts := demoFonts) 97 (demoGlyph 6 65) 5%nat
            (demoDisplay 20 Left) _ _ _ _).
  - reflexivity.
  - reflexivity.
  - vm_compute. reflexivity.
Defined.

(** ** fillRectangle, reset and print on the wire *)

(** X25. fillRectangle with the ST7789 hooks, from a Display with no
    transfer pending, a bus that is never busy and the buffer begin
    allocated for a panel of at most 546 columns: it returns and has put
    on the wire a transaction start, the window of the rectangle and
    [width * height] pixels, each the high byte of the colour and then
    its low byte; the transaction is left open and the busy flag set.
    The offscreen buffer is used for the pattern: its first
    min(width * height, _hardware.width * row_size) cells hold the
    byte-swapped colour afterwards. *)
Theorem fillRectangle_sends_pixels (hw : Hardware.t) (x y width height color : Z)
    (fuel : nat) (d : Display) :
  _busy d = false ->
  ready hw d ->
  1 <= Hardware.width hw * row_size <= 32767 ->
  0 <= x < 65536 -> 0 <= y < 65536 ->
  0 <= width < 65536 -> 0 <= height < 65536 ->
  width * height <= INT_MAX ->
  (Z.to_nat (width * height) + 2 <= fuel)%nat ->
  exists k d',
    fillRectangle (ctl := ST7789.controller) x y width height color fuel d = Ok tt d'
    /\ _busy d' = true
    /\ panel d'
       = sent ([Bus.BeginTransaction; Bus.ChipSelect false]
               ++ windowEvents
                    (uint16 (x + Pixels.x_start (_pixels (panel d))))
                    (uint16 (uint16 (x + Pixels.x_start (_pixels (panel d))) + width - 1))
                    (uint16 (y + Pixels.y_start (_pixels (panel d))))
                    (uint16 (uint16 (y + Pixels.y_start (_pixels (panel d))) + height - 1))
               ++ pixelEvents (Z.to_nat (width * height)) color)
              (polled k (panel d))
    /\ _buffer d'
       = replicate (Z.to_nat (min (width * height) (Hardware.width hw * row_size)))
                   (bswap16 (uint16 color))
         ++ drop (Z.to_nat (min (width * height) (Hardware.width hw * row_size))) (_buffer d).
Proof.
  intros Hb (Hq & Hhw & Hlen) Hcap Hx Hy Hw Hh Hmul Hfuel.
  destruct fuel as [|f]; [lia|].
  unfold fillRectangle.
  rewrite run_bind, (waitIdle_not_busy f d Hb).
  rewrite run_bind, (prepareWrite_idle_quiet f d Hb).
  set (d1 := onWire 0 [Bus.BeginTransaction; Bus.ChipSelect false] d).
  destruct (writeFillRectangle_run hw x y width height color (S f) d1)
    as (k & d2 & Hr & Hp & Hb2 & Hbuf); try assumption.
  { split; [apply quiet_onWire, Hq | split; [exact Hhw | exact Hlen]]. }
  rewrite run_bind, Hr. cbn [setBusy modify].
  exists (k + 0)%nat, (with_busy true d2). split; [reflexivity|]. split; [reflexivity|].
  split.
  - cbn [panel with_busy]. rewrite Hp.
    change (_pixels (panel d1)) with (_pixels (panel d)).
    change (panel d1) with (sent [Bus.BeginTransaction; Bus.ChipSelect false]
                              (polled 0 (panel d))).
    rewrite polled_sent, sent_sent, polled_polled.
    rewrite (uint16_small x), (uint16_small y) by lia. reflexivity.
  - exact Hbuf.
Qed.

Lemma fillRectangle_sends_pixels_witness :
  exists k d',
    fillRectangle (ctl := ST7789.controller) 2 3 4 5 63488 30%nat (demoDisplay 20 Left)
    = Ok tt d'
    /\ _busy d' = true
    /\ panel d'
       = sent ([Bus.BeginTransaction; Bus.ChipSelect false]
               ++ windowEvents 110 113 3 7
               ++ pixelEvents 20 63488)
              (polled k (panel (demoDisplay 20 Left))).
Proof.
  destruct (fillRectangle_sends_pixels (_hardware (panel (demoDisplay 20 Left)))
              2 3 4 5 63488 30%nat (demoDisplay 20 Left))
    as (k & d' & Hr & Hb & Hp & _).
  - reflexivity.
  - split; [intros j; reflexivity|]. split; reflexivity.
  - vm_compute. split; discriminate.
  - lia.
  - lia.
  - lia.
  - lia.
  - vm_compute. discriminate.
  - vm_compute. lia.
  - exists k, d'. split; [exact Hr|]. split; [exact Hb|]. exact Hp.
Defined.

(** X26. reset with the ST7789 hooks, for a panel of at most 240 x 320
    pixels with the buffer begin allocated, one of the four angles and a
    bus that is never busy, whether or not a transfer was pending: it
    returns with no transfer pending and has put on the wire the reset
    pulse, one transaction with the initialisation, MADCTL for the angle,
    the window of the whole visible area and one pixel of the colour for
    each of its [width * height] cells, and the end of the transaction. *)
Theorem reset_fills_screen (hw : Hardware.t) (angle color : Z) (fuel : nat) (d : Display) :
  ready hw d ->
  1 <= Hardware.width hw <= 240 ->
  1 <= Hardware.height hw <= 320 ->
  angle = 0 \/ angle = 90 \/ angle = 180 \/ angle = 270 ->
  (Z.to_nat (Hardware.width hw * Hardware.height hw) + 2 <= fuel)%nat ->
  exists px m k d',
    reset (ctl := ST7789.controller) angle color fuel d = Ok tt d'
    /\ _busy d' = false
    /\ Pixels.width px * Pixels.height px = Hardware.width hw * Hardware.height hw
    /\ panel d'
       = sent (resetPinEvents
               ++ [Bus.BeginTransaction; Bus.ChipSelect false]
               ++ initEvents
               ++ commandEvents 54 [m]
               ++ windowEvents (Pixels.x_start px)
                               (Pixels.x_start px + Pixels.width px - 1)
                               (Pixels.y_start px)
                               (Pixels.y_start px + Pixels.height px - 1)
               ++ pixelEvents (Z.to_nat (Hardware.width hw * Hardware.height hw)) color
               ++ [Bus.EndTransaction; Bus.ChipSelect true])
              (polled k (with_pixels px (panel d)))
    /\ _buffer d'
       = replicate (Z.to_nat (min (Hardware.width hw * Hardware.height hw)
                                  (Hardware.width hw * row_size)))
                   (bswap16 (uint16 color))
         ++ drop (Z.to_nat (min (Hardware.width hw * Hardware.height hw)
                                (Hardware.width hw * row_size))) (_buffer d).
Proof. apply reset_run. Qed.

Lemma reset_fills_screen_witness :
  exists d',
    reset (ctl := ST7789.controller) 90 31 2000%nat (with_busy true (demoDisplay 20 Left))
    = Ok tt d'
    /\ _busy d' = false.
Proof.
  destruct (reset_fills_screen (_hardware (panel (demoDisplay 20 Left))) 90 31 2000%nat
              (with_busy true (demoDisplay 20 Left)))
    as (px & m & k & d' & Hr & Hb & _).
  - split; [intros j; reflexivity|]. split; reflexivity.
  - simpl. lia.
  - simpl. lia.
  - auto.
  - vm_compute. lia.
  - exists d'. split; assumption.
Defined.

Lemma flushBuffer_sends_text_row_witness :
  flushBuffer (ctl := ST7789.controller) 5%nat (demoDisplay 20 Left)
  = Ok tt (with_busy true
             (onWire 4
                ([Bus.BeginTransaction; Bus.ChipSelect false]
                 ++ windowEvents
                      (uint16 (Area.x (_area (panel (demoDisplay 20 Left)))
                               + Pixels.x_start (_pixels (panel (demoDisplay 20 Left)))))
                      (uint16 (uint16 (Area.x (_area (panel (demoDisplay 20 Left)))
                                       + Pixels.x_start (_pixels (panel (demoDisplay 20 Left))))
                               + Area.width (_area (panel (demoDisplay 20 Left))) - 1))
                      (uint16 (uint16 (Area.row (_area (panel (demoDisplay 20 Left))) * row_size)
                               + Pixels.y_start (_pixels (panel (demoDisplay 20 Left)))))
                      (uint16 (uint16 (uint16 (Area.row (_area (panel (demoDisplay 20 Left)))
                                               * row_size)
                                       + Pixels.y_start (_pixels (panel (demoDisplay 20 Left))))
                               + row_size - 1))
                 ++ cellEvents (take (Z.to_nat (Area.width (_area (panel (demoDisplay 20 Left)))
                                                * row_size))
                                     (_buffer (demoDisplay 20 Left))))
                (demoDisplay 20 Left))).
Proof.
  refine (flushBuffer_sends_text_row 5%nat (demoDisplay 20 Left) _ _ _ _ _ _).
  - reflexivity.
  - intros k. reflexivity.
  - lia.
  - simpl. lia.
  - vm_compute. reflexivity.
  - vm_compute. discriminate.
Defined.

(** ** print: what is sent is the rendered row *)



Lemma storeFree_rowState d : storeFree (rowState d).
Proof.
  intros i v s (Hp & Hb & Hl). split; [exact Hp|]. split.
  - exact Hb.
  - cbn [_buffer]. rewrite length_insert. exact Hl.
Qed.

Lemma keeps_setCursor_rowState d c : keeps (rowState d) (setCursor c).
Proof.
  apply keeps_modify. intros s ((c0 & Hp) & Hb & Hl). split; [|split; assumption].
  exists c. unfold placeCursor. cbn [panel with_panel]. rewrite Hp. reflexivity.
Qed.

Lemma keeps_renderText_rowState d font text : keeps (rowState d) (renderText font text).
Proof.
  pose proof (storeFree_rowState d). pose proof (keeps_setCursor_rowState d).
  induction text as [|c rest IH]; simpl; keeps_auto.
Qed.

Lemma rowState_start d : _busy d = false -> rowState d d.
Proof.
  intros Hb. split; [|split; [exact Hb | reflexivity]].
  exists (Area.cursor (_area (panel d))). rewrite placeCursor_same; reflexivity.
Qed.

Lemma print_row_flush {fonts : Fonts} d n d1 d' :
  quiet d ->
  0 <= Area.width (_area (panel d)) ->
  Area.width (_area (panel d)) * row_size * 2 < 65536 ->
  Area.width (_area (panel d)) * row_size <= Z.of_nat (length (_buffer d)) ->
  rowState d d1 ->
  (setCursor 0;; flushBuffer (ctl := ST7789.controller)) (S n) d1 = Ok tt d' ->
  _busy d' = true
  /\ _buffer d' = _buffer d1
  /\ panel d'
     = sent ([Bus.BeginTransaction; Bus.ChipSelect false]
             ++ windowEvents
                  (uint16 (Area.x (_area (panel d)) + Pixels.x_start (_pixels (panel d))))
                  (uint16 (uint16 (Area.x (_area (panel d))
                                   + Pixels.x_start (_pixels (panel d)))
                           + Area.width (_area (panel d)) - 1))
                  (uint16 (uint16 (Area.row (_area (panel d)) * row_size)
                           + Pixels.y_start (_pixels (panel d))))
                  (uint16 (uint16 (uint16 (Area.row (_area (panel d)) * row_size)
                                   + Pixels.y_start (_pixels (panel d)))
                           + row_size - 1))
             ++ cellEvents (take (Z.to_nat (Area.width (_area (panel d)) * row_size))
                                 (_buffer d1)))
            (polled 4 (panel (placeCursor 0 d))).
Proof.
  intros Hq HW Hcap Hfit ((c & Hp) & Hb & Hl) Hr.
  rewrite run_bind in Hr. cbn [setCursor modify] in Hr.
  set (d2 := placeCursor 0 d1) in Hr.
  assert (Hp2 : panel d2 = panel (placeCursor 0 d)).
  { unfold d2, placeCursor. cbn [panel with_panel]. rewrite Hp. reflexivity. }
  assert (Ha2 : Area.width (_area (panel d2)) = Area.width (_area (panel d)))
    by (rewrite Hp2; reflexivity).
  rewrite (flushBuffer_run n d2) in Hr.
  - injection Hr as Hd. rewrite <- Hd. clear Hd.
    split; [reflexivity|]. split; [reflexivity|].
    change (_buffer d2) with (_buffer d1).
    unfold onWire.
    change (panel (with_busy true (with_panel ?p d2))) with
      (sent ([Bus.BeginTransaction; Bus.ChipSelect false]
             ++ windowEvents
                  (uint16 (Area.x (_area (panel d2)) + Pixels.x_start (_pixels (panel d2))))
                  (uint16 (uint16 (Area.x (_area (panel d2))
                                   + Pixels.x_start (_pixels (panel d2)))
                           + Area.width (_area (panel d2)) - 1))
                  (uint16 (uint16 (Area.row (_area (panel d2)) * row_size)
                           + Pixels.y_start (_pixels (panel d2))))
                  (uint16 (uint16 (uint16 (Area.row (_area (panel d2)) * row_size)
                                   + Pixels.y_start (_pixels (panel d2)))
                           + row_size - 1))
             ++ cellEvents (take (Z.to_nat (Area.width (_area (panel d2)) * row_size))
                                 (_buffer d1)))
            (polled 4 (panel d2))).
    rewrite Hp2. reflexivity.
  - exact Hb.
  - unfold quiet. rewrite Hp2. intros k. apply Hq.
  - rewrite Ha2. exact HW.
  - rewrite Ha2. exact Hcap.
  - rewrite Ha2. change (_buffer d2) with (_buffer d1). rewrite Hl. exact Hfit.
Qed.



(** ** Areas of 256 pixels or more, and the setters before drawChar *)

(** X28. renderChar takes the area width as a [uint8_t]: for an area of
    256 pixels or more it stores the rows of a glyph [width mod 256] cells
    apart, while initializeBuffer and flushBuffer lay the rows out [width]
    cells apart.  A set pixel below the first row of the buffer is then
    stored in another cell than the one of its column and row. *)
Theorem renderChar_wide_area_wrong_row (font : Font) (width x y c color : Z) (g : Glyph.t)
    (fuel : nat) (d : Display) (ix iy : Z) :
  256 <= width < 65536 ->
  getGlyph font c = Val g ->
  glyphOk g = true ->
  (forall k, 0 <= k < Glyph.width g * Glyph.height g ->
     (Z.to_nat (uint16 (Glyph.offset g + k / 8)) < length (bitmaps font))%nat) ->
  (forall ix iy, 0 <= ix < Glyph.width g -> 0 <= iy < Glyph.height g ->
     glyphPixel font g ix iy = true ->
     glyphCell g width x y ix iy < Z.of_nat (length (_buffer d))) ->
  0 <= ix < Glyph.width g -> 0 <= iy < Glyph.height g ->
  glyphPixel font g ix iy = true ->
  uint16 (y + Glyph.yStart g + iy) <> 0 ->
  exists d',
    renderChar font width x y c color fuel d = Ok (Glyph.advance g) d'
    /\ _buffer d' !! Z.to_nat ((width mod 256) * uint16 (y + Glyph.yStart g + iy)
                               + uint16 (x + Glyph.xStart g + ix))
       = Some (bswap16 color)
    /\ (width mod 256) * uint16 (y + Glyph.yStart g + iy) + uint16 (x + Glyph.xStart g + ix)
       < width * uint16 (y + Glyph.yStart g + iy) + uint16 (x + Glyph.xStart g + ix).
Proof.
  intros HW Hg Hok Hbits Hcells Hix Hiy Hset Hby.
  destruct (renderChar_run font width x y c color g fuel d Hg Hok Hbits Hcells)
    as (d' & Hr & _ & _ & _ & Hpaint & _).
  exists d'. split; [exact Hr|]. split.
  - apply (Hpaint ix iy Hix Hiy Hset).
  - pose proof (uint16_range (y + Glyph.yStart g + iy)).
    pose proof (Z.mod_pos_bound width 256 ltac:(lia)). nia.
Qed.

Lemma renderChar_wide_area_wrong_row_witness :
  exists d',
    renderChar (demoFont 6) 276 0 baseline 97 2016 5%nat widePanel = Ok 6 d'
    /\ _buffer d' !! 861%nat = Some (bswap16 2016)
    /\ 861 < 276 * 43 + 1.
Proof.
  destruct (renderChar_wide_area_wrong_row (demoFont 6) 276 0 baseline 97 2016
              (demoGlyph 6 65) 5%nat widePanel 1 0) as (d' & Hr & Hcell & Hlt).
  - lia.
  - reflexivity.
  - reflexivity.
  - intros k Hk. change (Glyph.width (demoGlyph 6 65) * Glyph.height (demoGlyph 6 65))
      with 4 in Hk.
    rewrite Z.div_small by lia. vm_compute. lia.
  - intros ix iy Hix Hiy _. change (Glyph.width (demoGlyph 6 65)) with 2 in Hix.
    change (Glyph.height (demoGlyph 6 65)) with 2 in Hiy.
    unfold glyphCell. change (uint8 276) with 20.
    change (Glyph.yStart (demoGlyph 6 65)) with (-2).
    change (Glyph.xStart (demoGlyph 6 65)) with 0. unfold baseline, row_size.
    change (Z.quot (60 * 3) 4) with 45.
    rewrite !uint16_small by lia. unfold widePanel. cbn [_buffer].
    rewrite length_replicate, Z2Nat.id by lia. lia.
  - vm_compute. split; [discriminate | reflexivity].
  - vm_compute. split; [discriminate | reflexivity].
  - reflexivity.
  - vm_compute. discriminate.
  - exists d'. split; [exact Hr|]. split; [exact Hcell | lia].
Defined.

(** X29. setArea and setColor before drawChar, with no transfer pending.
    setArea puts the cursor at 0, so the drawChar that follows clears the
    row in the new background before it draws: what drawChar had drawn
    and print had not sent is gone.  setColor keeps the cursor: a
    drawChar that follows in the middle of a row draws on, in the new
    colour, without clearing. *)
Theorem drawChar_after_setArea_and_setColor {fonts : Fonts}
    (x row width : Z) (j : Justify) (foreground background color c : Z)
    (fuel : nat) (d : Display) :
  _busy d = false ->
  (0 < fuel)%nat ->
  (setArea x row width j foreground background;; drawChar c) fuel d
  = (setArea x row width j foreground background;;
     initializeBuffer;; drawAll fontDefault [c]) fuel d
  /\ (Area.cursor (_area (panel d)) <> 0 ->
      (setColor color;; drawChar c) fuel d
      = (setColor color;; drawAll fontDefault [c]) fuel d).
Proof.
  intros Hb Hfuel. destruct fuel as [|n]; [lia|]. split.
  - rewrite !(run_bind (setArea _ _ _ _ _ _)). cbn [setArea modify].
    apply drawChar_first; [exact Hb | reflexivity].
  - intros Hc. rewrite !(run_bind (setColor _)). cbn [setColor modify].
    apply drawChar_moved; [exact Hb | exact Hc].
Qed.

Lemma drawChar_after_setArea_and_setColor_witness :
  (setArea 0 1 20 Left 63488 31;; drawChar (fonts := demoFonts) 97) 5%nat
    (placeCursor 6 (demoDisplay 20 Left))
  = (setArea 0 1 20 Left 63488 31;;
     initializeBuffer;; drawAll (fontDefault (Fonts := demoFonts)) [97]) 5%nat
      (placeCursor 6 (demoDisplay 20 Left)).
Proof.
  refine (proj1 (drawChar_after_setArea_and_setColor (fonts := demoFonts)
                   0 1 20 Left 63488 31 0 97 5%nat (placeCursor 6 (demoDisplay 20 Left)) _ _)).
  - reflexivity.
  - lia.
Defined.
